(** * volpy: the geometry engine (geometry.py)

    A shallow embedding of [Line2D], [Triangle] and [TriangularMesh].

    Numbers.  Coordinates, reference levels and volumes are exact
    rationals ([Qc]): the embedding computes what the code computes when
    no operation rounds.  The one arithmetic event it keeps is a division
    by an exact zero: sympy evaluates it to [zoo] or [nan] without
    raising; a number computed from such a value is [NotFinite].  Where a
    statement about the code depends on the rounding, the functions are
    embedded a second time on binary64 numbers (module [Binary64]).

    Symbolic expressions.  Every sympy expression the module builds is a
    polynomial in [x] (line equations) or in [x] and [y] (plane equations),
    so expressions are coefficient lists and [integrate] is the polynomial
    antiderivative followed by substitution of the limits.

    Objects.  pandas data frames are mutable objects with identity: the
    store maps object identities to row lists, [copy(deep=True)] allocates,
    and column assignments update the store in place. *)

From Stdlib Require Import QArith Qcanon Field Lqa.
From Stdlib Require Qcabs.
From Stdlib Require Import Sorted.
From Stdlib Require Import Floats.SpecFloat.
From stdpp Require Import gmap strings list fin_maps.

Local Open Scope Qc_scope.

(** ** Numbers *)

Inductive number : Type :=
| Finite (q : Qc)
| NotFinite.

Module Number.

Definition add (u v : number) : number :=
  match u, v with
  | Finite a, Finite b => Finite (a + b)
  | _, _ => NotFinite
  end.

Definition sub (u v : number) : number :=
  match u, v with
  | Finite a, Finite b => Finite (a - b)
  | _, _ => NotFinite
  end.

Definition abs (u : number) : number :=
  match u with
  | Finite a => Finite (Qcabs.Qcabs a)
  | NotFinite => NotFinite
  end.


End Number.

#[global] Instance number_eq_dec : EqDecision number.
Proof. solve_decision. Defined.

Definition Qc_of_nat (n : nat) : Qc := Qc_of_Z (Z.of_nat n).

(** ** Polynomials: the fragment of sympy the module uses *)

Module Poly.

(** Coefficients in ascending degree: [[k; m]] is [m*x + k]. *)
Definition poly : Type := list Qc.

Definition const (k : Qc) : poly := [k].
Definition X : poly := [0; 1].

Fixpoint add (p q : poly) : poly :=
  match p, q with
  | [], _ => q
  | _, [] => p
  | a :: p', b :: q' => (a + b) :: add p' q'
  end.

Definition scale (k : Qc) (p : poly) : poly := map (Qcmult k) p.
Definition opp (p : poly) : poly := map Qcopp p.
Definition sub (p q : poly) : poly := add p (opp q).

Fixpoint mul (p q : poly) : poly :=
  match p with
  | [] => []
  | a :: p' => add (scale a q) (0 :: mul p' q)
  end.

Fixpoint eval (p : poly) (v : Qc) : Qc :=
  match p with
  | [] => 0
  | a :: p' => a + v * eval p' v
  end.

(** Antiderivative with constant term 0: the coefficient of degree [k]
    moves to degree [k+1] and is divided by [k+1]. *)
Fixpoint integ_from (k : nat) (p : poly) : poly :=
  match p with
  | [] => []
  | a :: p' => (a / Qc_of_nat (S k)) :: integ_from (S k) p'
  end.

Definition integ (p : poly) : poly := 0 :: integ_from 0 p.

(** Definite integral over [x] from [a] to [b]. *)
Definition definite (p : poly) (a b : Qc) : Qc :=
  eval (integ p) b - eval (integ p) a.

(** Polynomials in [x] and [y]: the list holds the coefficient of
    [y^k], itself a polynomial in [x]. *)
Definition poly2 : Type := list poly.

Definition const2 (k : Qc) : poly2 := [const k].
Definition X2 : poly2 := [X].
Definition Y2 : poly2 := [[]; const 1].

Fixpoint add2 (f g : poly2) : poly2 :=
  match f, g with
  | [], _ => g
  | _, [] => f
  | a :: f', b :: g' => add a b :: add2 f' g'
  end.

Definition scale2 (k : Qc) (f : poly2) : poly2 := map (scale k) f.
Definition opp2 (f : poly2) : poly2 := map opp f.
Definition sub2 (f g : poly2) : poly2 := add2 f (opp2 g).
Definition div2 (f : poly2) (c : Qc) : poly2 :=
  map (map (fun k => k / c)) f.

(** [f] with [y] replaced by the polynomial [l] (Horner in [y]). *)
Fixpoint subst_y (f : poly2) (l : poly) : poly :=
  match f with
  | [] => []
  | c :: f' => add c (mul l (subst_y f' l))
  end.

Fixpoint integ_y_from (k : nat) (f : poly2) : poly2 :=
  match f with
  | [] => []
  | c :: f' => scale (/ Qc_of_nat (S k)) c :: integ_y_from (S k) f'
  end.

(** Antiderivative in [y]. *)
Definition integ_y (f : poly2) : poly2 := [] :: integ_y_from 0 f.

(** [integrate(f, (y, lo, hi), (x, a, b))]: the inner integral runs over
    [y] between the two line equations, the outer one over [x]. *)
Definition integrate (f : poly2) (lo hi : poly) (a b : Qc) : Qc :=
  let F := integ_y f in
  definite (sub (subst_y F hi) (subst_y F lo)) a b.

End Poly.

Abbreviation poly := Poly.poly.
Abbreviation poly2 := Poly.poly2.

(** ** Points *)

(** Modelled from the spec: the module [coordinates], which defines
    [CartesianCoordinate], is not part of the sources.  The spec gives the
    type as an ordered triple (x, y, z) with a coordinate-wise subtraction
    producing a vector and an ordering keyed on the x-coordinate only; the
    tests of [test_geometry.py] fix the subtraction ([B - A] for
    A(1,5,8), B(6,2,10) is (5,-3,2)). *)
Module CartesianCoordinate.

Record t : Type := make { x : Qc; y : Qc; z : Qc }.

Definition vector : Type := (Qc * Qc * Qc)%type.

(** [p - q] *)
Definition sub (p q : t) : vector := (x p - x q, y p - y q, z p - z q).

(** [p < q]: the comparison [list.sort] uses. *)
Definition lt (p q : t) : Prop := x p < x q.

#[global] Instance lt_dec : RelDecision lt.
Proof. intros p q. unfold lt. apply _. Defined.

End CartesianCoordinate.

Abbreviation point := CartesianCoordinate.t.
Abbreviation Point := CartesianCoordinate.make.
Abbreviation vector := CartesianCoordinate.vector.

#[global] Instance point_eq_dec : EqDecision point.
Proof. solve_decision. Defined.

(** [np.cross] *)
Definition cross (u v : vector) : vector :=
  let '(u1, u2, u3) := u in
  let '(v1, v2, v3) := v in
  (u2 * v3 - u3 * v2, u3 * v1 - u1 * v3, u1 * v2 - u2 * v1).

(** ** [list.sort] on points

    Python's sort is stable and compares with [<] only, which determines
    its result: the points come out in ascending order of [<], and of two
    points neither of which is below the other the one that was first in
    the list stays first. *)
Fixpoint insert_sorted (p : point) (l : list point) : list point :=
  match l with
  | [] => [p]
  | q :: l' =>
      if bool_decide (CartesianCoordinate.lt q p)
      then q :: insert_sorted p l'
      else p :: q :: l'
  end.

Definition list_sort (l : list point) : list point := foldr insert_sorted [] l.

(** Ascending on x, ties allowed. *)
Definition ascending (l : list point) : Prop :=
  StronglySorted
    (fun p q => CartesianCoordinate.x p <= CartesianCoordinate.x q) l.

(** ** Line2D *)

Module Line2D.
Import CartesianCoordinate.

Record t : Type := make { point_A : point; point_B : point }.

(** [None] is Python's [None]: the line is parallel to the y axis. *)
Definition get_line_equation (self : t) : option poly :=
  if bool_decide (x (point_B self) - x (point_A self) = 0) then None
  else
    let slope :=
      (y (point_B self) - y (point_A self)) /
      (x (point_B self) - x (point_A self)) in
    let linear_constant := - slope * x (point_A self) + y (point_A self) in
    Some (Poly.add (Poly.scale slope Poly.X) (Poly.const linear_constant)).

(** The value of the line at [input_x], by substitution in the
    expression; [None] stays [None], as in [test_2dLine].  (The test
    writes the evaluation as a call, [line_equation(input_x)], which a
    sympy expression does not accept; substitution is what it stands
    for.) *)
Definition line_at (self : t) (input_x : Qc) : option Qc :=
  match get_line_equation self with
  | None => None
  | Some line_equation => Some (Poly.eval line_equation input_x)
  end.

End Line2D.

(** ** Triangle *)

(** A sympy expression in [x] and [y].  A division by zero does not
    raise in sympy: a numerator divided by 0 is [zoo] times the numerator,
    and 0 divided by 0 is [nan].  [ZooExpr numerator zo] is
    [zoo*numerator + zo]. *)
Inductive symbolic : Type :=
| Expr (f : poly2)
| ZooExpr (numerator : poly2) (zo : Qc)
| NanExpr.

#[global] Instance symbolic_eq_dec : EqDecision symbolic.
Proof. solve_decision. Defined.

(** [integrate(plane, (y, lo, hi), (x, a, b))].  On a polynomial it is the
    iterated integral.  An integrand with [zoo] has no integral, except
    that sympy answers 0 for an integral whose two limits are the same
    expression, whatever the integrand; the integral of [nan] is [nan]. *)
Definition integrate (plane : symbolic) (lo hi : poly) (a b : Qc) : number :=
  match plane with
  | Expr f => Finite (Poly.integrate f lo hi a b)
  | ZooExpr _ _ => if bool_decide (lo = hi) then Finite 0 else NotFinite
  | NanExpr => NotFinite
  end.

Module Triangle.
Import CartesianCoordinate.

Record t : Type :=
  make { point_A : point; point_B : point; point_C : point }.

Definition normal_vector (self : t) : vector :=
  let vector_AB := sub (point_B self) (point_A self) in
  let vector_BC := sub (point_C self) (point_B self) in
  cross vector_AB vector_BC.

(** The z-component [c] of the normal vector. *)
Definition normal_z (self : t) : Qc := (normal_vector self).2.

(** The numerator [-a*(x-xo)-b*(y-yo)] of the plane equation. *)
Definition plane_numerator (self : t) : poly2 :=
  let '(a, b, c) := normal_vector self in
  let xo := x (point_A self) in
  let yo := y (point_A self) in
  Poly.sub2
    (Poly.scale2 (- a) (Poly.sub2 Poly.X2 (Poly.const2 xo)))
    (Poly.scale2 b (Poly.sub2 Poly.Y2 (Poly.const2 yo))).

(** [((-a*(x-xo)-b*(y-yo))/c)+zo]; the division is not guarded.  With
    [c = 0] the numerator is left under [zoo]; when [a] and [b] are 0 as
    well the numerator is 0 and the quotient is [nan]. *)
Definition get_plane_equation (self : t) : symbolic :=
  let '(a, b, c) := normal_vector self in
  let zo := z (point_A self) in
  if bool_decide (c = 0) then
    if bool_decide (a = 0 /\ b = 0) then NanExpr
    else ZooExpr (plane_numerator self) zo
  else
    Expr (Poly.add2 (Poly.div2 (plane_numerator self) c) (Poly.const2 zo)).

Definition compute_double_integral (plane : symbolic)
    (outer_boundary_from outer_boundary_to : Qc)
    (line_from_equation line_to_equation : option poly) : number :=
  match line_from_equation, line_to_equation with
  | Some lo, Some hi =>
      integrate plane lo hi outer_boundary_from outer_boundary_to
  | _, _ => Finite 0 (* vertical line *)
  end.

(** The two regions of the triangle whose vertices, sorted on x, are
    [sA], [sB], [sC]. *)
Definition volume1 (plane : symbolic) (sA sB sC : point) : number :=
  let lineAB := Line2D.make sA sB in
  let lineAC := Line2D.make sA sC in
  compute_double_integral plane (x sA) (x sB)
    (Line2D.get_line_equation lineAC) (Line2D.get_line_equation lineAB).

Definition volume2 (plane : symbolic) (sA sB sC : point) : number :=
  let lineBC := Line2D.make sB sC in
  let lineAC := Line2D.make sA sC in
  compute_double_integral plane (x sB) (x sC)
    (Line2D.get_line_equation lineAC) (Line2D.get_line_equation lineBC).

(** [abs(volume1) + abs(volume2)] for vertices already sorted on x. *)
Definition regions (plane : symbolic) (sA sB sC : point) : number :=
  Number.add (Number.abs (volume1 plane sA sB sC))
             (Number.abs (volume2 plane sA sB sC)).

Definition get_volume (self : t) : number :=
  let plane := get_plane_equation self in
  let points := list_sort [point_A self; point_B self; point_C self] in
  match points with
  | [sorted_point_A; sorted_point_B; sorted_point_C] =>
      Number.add
        (Number.abs (volume1 plane sorted_point_A sorted_point_B sorted_point_C))
        (Number.abs (volume2 plane sorted_point_A sorted_point_B sorted_point_C))
  | _ => NotFinite (* not reached: sorting keeps the three points *)
  end.

End Triangle.

(** ** The arithmetic of the code: binary64

    The definitions above compute with exact numbers.  The code computes
    with Python floats and numpy's float64: IEEE 754 binary64, every
    operation rounded to nearest, ties to even.  This module repeats the
    functions whose results depend on the rounding, on these numbers:
    [Line2D.get_line_equation], and [Triangle] up to [get_volume].

    sympy's own numbers are binary floats of 53 bits as well, so the
    value of [slope*x + linear_constant] at a float takes the two
    roundings of a product and a sum. *)
Module Binary64.

Definition float : Type := spec_float.

Definition prec : Z := 53.
Definition emax : Z := 1024.

Definition add : float -> float -> float := SFadd prec emax.
Definition sub : float -> float -> float := SFsub prec emax.
Definition mul : float -> float -> float := SFmul prec emax.
Definition div : float -> float -> float := SFdiv prec emax.
Definition opp : float -> float := SFopp.
(** [==] and [<] on floats *)
Definition eqb : float -> float -> bool := SFeqb.
Definition ltb : float -> float -> bool := SFltb.

Definition zero : float := S754_zero false.

(** The float of an integer, and the float a decimal literal with [k]
    digits after the point denotes: [decimal 312 2] is [3.12]. *)
Definition of_Z (n : Z) : float := binary_normalize prec emax n 0 false.
Definition decimal (n : Z) (k : Z) : float := div (of_Z n) (of_Z (10 ^ k)).

Definition is_finite (f : float) : bool :=
  match f with
  | S754_zero _ | S754_finite _ _ _ => true
  | _ => false
  end.

(** The number a finite float stands for. *)
Definition to_Qc (f : float) : Qc :=
  match f with
  | S754_finite s m e =>
      Q2Qc (inject_Z (if s then Z.neg m else Z.pos m) * Qpower (2 # 1) e)
  | _ => 0
  end.

Record point : Type := Point { x : float; y : float; z : float }.

Module Line2D.

(** The pair is (slope, linear_constant) of [slope*x + linear_constant]. *)
Definition get_line_equation (point_A point_B : point)
    : option (float * float) :=
  if eqb (sub (x point_B) (x point_A)) zero then None
  else
    let slope := div (sub (y point_B) (y point_A))
                     (sub (x point_B) (x point_A)) in
    let linear_constant := add (mul (opp slope) (x point_A)) (y point_A) in
    Some (slope, linear_constant).

(** The value of the expression at [x = v]. *)
Definition line_at (line_equation : float * float) (v : float) : float :=
  add (mul line_equation.1 v) line_equation.2.

(** Two line equations are the same expression when their coefficients
    are equal numbers. *)
Definition same_expression (l1 l2 : float * float) : bool :=
  eqb l1.1 l2.1 && eqb l1.2 l2.2.

End Line2D.

(** [integrate] on a finite plane equation, by sympy's own arithmetic:
    the ingredients [a b c xo yo zo] of the plane, the two line equations
    and the limits of x give a number.  sympy is a library, its rounding
    is taken as given. *)
Class FloatIntegrate : Type :=
  float_integrate :
    float -> float -> float -> float -> float -> float ->
    float * float -> float * float -> float -> float -> Qc.

Module Triangle.

Record t : Type :=
  make { point_A : point; point_B : point; point_C : point }.

Definition vector : Type := (float * float * float)%type.

(** [p - q] on numpy arrays *)
Definition vector_sub (p q : point) : vector :=
  (sub (x p) (x q), sub (y p) (y q), sub (z p) (z q)).

(** [np.cross]: each component is a difference of two rounded products. *)
Definition cross (u v : vector) : vector :=
  let '(u1, u2, u3) := u in
  let '(v1, v2, v3) := v in
  (sub (mul u2 v3) (mul u3 v2),
   sub (mul u3 v1) (mul u1 v3),
   sub (mul u1 v2) (mul u2 v1)).

Definition normal_vector (self : t) : vector :=
  let vector_AB := vector_sub (point_B self) (point_A self) in
  let vector_BC := vector_sub (point_C self) (point_B self) in
  cross vector_AB vector_BC.

Definition normal_z (self : t) : float := (normal_vector self).2.

(** The plane equation by its ingredients; [zoo] and [nan] as in the
    exact embedding.  Ingredients that are not finite numbers (an
    overflow in [np.cross]) are not followed further: [NanPlane]. *)
Inductive plane : Type :=
| FinitePlane (a b c xo yo zo : float)
| ZooPlane
| NanPlane.

Definition get_plane_equation (self : t) : plane :=
  let '(a, b, c) := normal_vector self in
  let xo := x (point_A self) in
  let yo := y (point_A self) in
  let zo := z (point_A self) in
  if negb (is_finite a && is_finite b && is_finite c) then NanPlane
  else if eqb c zero then
    if eqb a zero && eqb b zero then NanPlane else ZooPlane
  else FinitePlane a b c xo yo zo.

Section Volume.
Context {I : FloatIntegrate}.

Definition compute_double_integral (plane : plane)
    (outer_boundary_from outer_boundary_to : float)
    (line_from_equation line_to_equation : option (float * float))
    : number :=
  match line_from_equation, line_to_equation with
  | Some lo, Some hi =>
      match plane with
      | FinitePlane a b c xo yo zo =>
          Finite (float_integrate a b c xo yo zo lo hi
                    outer_boundary_from outer_boundary_to)
      | ZooPlane =>
          if Line2D.same_expression lo hi then Finite 0 else NotFinite
      | NanPlane => NotFinite
      end
  | _, _ => Finite 0 (* vertical line *)
  end.

(** [points.sort()] *)
Fixpoint insert_sorted (p : point) (l : list point) : list point :=
  match l with
  | [] => [p]
  | q :: l' =>
      if ltb (x q) (x p) then q :: insert_sorted p l' else p :: q :: l'
  end.

Definition list_sort (l : list point) : list point := foldr insert_sorted [] l.

Definition get_volume (self : t) : number :=
  let plane := get_plane_equation self in
  let points := list_sort [point_A self; point_B self; point_C self] in
  match points with
  | [sorted_point_A; sorted_point_B; sorted_point_C] =>
      let lineAB := Line2D.get_line_equation sorted_point_A sorted_point_B in
      let lineBC := Line2D.get_line_equation sorted_point_B sorted_point_C in
      let lineAC := Line2D.get_line_equation sorted_point_A sorted_point_C in
      let volume1 :=
        compute_double_integral plane (x sorted_point_A) (x sorted_point_B)
          lineAC lineAB in
      let volume2 :=
        compute_double_integral plane (x sorted_point_B) (x sorted_point_C)
          lineAC lineBC in
      Number.add (Number.abs volume1) (Number.abs volume2)
  | _ => NotFinite (* not reached: sorting keeps the three points *)
  end.

End Volume.

End Triangle.

(** An integrator to run the definitions on: the integral of the plane
    with its binary64 coefficients, without any rounding. *)
Definition exact_integrate : FloatIntegrate :=
  fun a b c xo yo zo lo hi x_from x_to =>
    Poly.integrate
      (Poly.add2
         (Poly.div2
            (Poly.sub2
               (Poly.scale2 (- to_Qc a)
                  (Poly.sub2 Poly.X2 (Poly.const2 (to_Qc xo))))
               (Poly.scale2 (to_Qc b)
                  (Poly.sub2 Poly.Y2 (Poly.const2 (to_Qc yo)))))
            (to_Qc c))
         (Poly.const2 (to_Qc zo)))
      (Poly.add (Poly.scale (to_Qc lo.1) Poly.X) (Poly.const (to_Qc lo.2)))
      (Poly.add (Poly.scale (to_Qc hi.1) Poly.X) (Poly.const (to_Qc hi.2)))
      (to_Qc x_from) (to_Qc x_to).

End Binary64.

(** ** Exceptions and the store *)

(** [UnboundReference] is what the embedding answers when an identity
    names no object of the store.  No Python program gets there, a
    reference always names a live object; the constructor keeps the
    operations on the store total. *)
Inductive exn : Type :=
| IndexError                    (* [iloc] past the last row *)
| KeyError                      (* lookup of an absent dictionary key *)
| UnboundReference
| LibraryError (name : string). (* raised inside an external library *)

Inductive outcome (A : Type) : Type :=
| Returned (a : A)
| Raised (e : exn).

Arguments Returned {A} a.
Arguments Raised {A} e.

#[global] Instance exn_eq_dec : EqDecision exn.
Proof. solve_decision. Defined.

#[global] Instance outcome_eq_dec {A : Type} `{EqDecision A} :
  EqDecision (outcome A).
Proof. solve_decision. Defined.

Module Outcome.

Definition bind {A B : Type} (o : outcome A) (k : A -> outcome B) : outcome B :=
  match o with
  | Returned a => k a
  | Raised e => Raised e
  end.

End Outcome.

(** pandas data frames with the columns [x], [y], [z]. *)
Module DataFrame.

Record row : Type := Row { x : Qc; y : Qc; z : Qc }.

Definition t : Type := list row.

(** [df[['x', 'y']]] *)
Definition xy (df : t) : list (Qc * Qc) := map (fun r => (x r, y r)) df.

(** [df['z'] < v] and [df['z'] >= v]: a column of booleans. *)
Definition z_lt (df : t) (v : Qc) : list bool :=
  map (fun r => bool_decide (z r < v)) df.

Definition z_ge (df : t) (v : Qc) : list bool :=
  map (fun r => bool_decide (v <= z r)) df.

(** [df['z'] = v] *)
Definition set_z (df : t) (v : Qc) : t :=
  map (fun r => Row (x r) (y r) v) df.

(** [df.loc[mask, 'z'] = v] *)
Fixpoint loc_set_z (df : t) (mask : list bool) (v : Qc) : t :=
  match df, mask with
  | r :: df', b :: mask' =>
      (if b then Row (x r) (y r) v else r) :: loc_set_z df' mask' v
  | _, _ => df
  end.

End DataFrame.

(** A row of [Delaunay(...).simplices]: three row positions. *)
Definition simplex : Type := (nat * nat * nat)%type.

(** [scipy.spatial.Delaunay] is an external library: the embedding takes
    the triangulation of a list of (x, y) pairs as given.  It may raise. *)
Class Triangulation : Type :=
  Delaunay_simplices : list (Qc * Qc) -> outcome (list simplex).

(** Modelled from the spec: [utils.print_progress] is not part of the
    sources.  The spec describes it as a sink that is handed the current
    count and the total count after each facet and has no part in the
    result, so a call is recorded as an event and nothing else.

    The events are what a call leaves behind besides its result: the calls
    of [print_progress], and a mark for every entry into
    [_get_flat_volume]. *)
Inductive event : Type :=
| print_progress (iteration data_amount : nat)
| flat_volume_call (ref_level : Qc).

#[global] Instance event_eq_dec : EqDecision event.
Proof. solve_decision. Defined.

(** An argument of [get_volume]: a data frame (by identity) or any other
    Python value. *)
Inductive pyvalue : Type :=
| PyDataFrame (id : nat)
| PyStr (s : string)
| PyNone
| PyFloat (q : Qc).

(** ** TriangularMesh *)

Module TriangularMesh.

(** The store of data frames, the two attributes of the mesh instance and
    the events so far. *)
Record state : Type := State {
  frames : gmap nat DataFrame.t;
  point_cloud : nat;
  _flat_volume : gmap Qc number;
  events : list event
}.

Definition M (A : Type) : Type := state -> outcome A * state.

Definition ret {A : Type} (a : A) : M A := fun st => (Returned a, st).

Definition raise {A : Type} (e : exn) : M A := fun st => (Raised e, st).

Definition bind {A B : Type} (m : M A) (k : A -> M B) : M B :=
  fun st =>
    match m st with
    | (Returned a, st') => k a st'
    | (Raised e, st') => (Raised e, st')
    end.

Declare Scope mesh_scope.
Delimit Scope mesh_scope with mesh.
Notation "x <- m ;; k" := (bind m (fun x => k))
  (at level 100, m at next level, right associativity) : mesh_scope.
Notation "m ;;; k" := (bind m (fun _ => k))
  (at level 100, right associativity) : mesh_scope.
Local Open Scope mesh_scope.

Definition lift {A : Type} (o : outcome A) : M A := fun st => (o, st).

Definition emit (e : event) : M unit :=
  fun st =>
    (Returned tt,
     State (frames st) (point_cloud st) (_flat_volume st) (events st ++ [e])).

(** Reading and writing the object with identity [id]. *)
Definition read (id : nat) : M DataFrame.t :=
  fun st =>
    match frames st !! id with
    | Some df => (Returned df, st)
    | None => (Raised UnboundReference, st)
    end.

Definition write (id : nat) (df : DataFrame.t) : M unit :=
  fun st =>
    match frames st !! id with
    | Some _ =>
        (Returned tt,
         State (<[id := df]> (frames st)) (point_cloud st) (_flat_volume st)
               (events st))
    | None => (Raised UnboundReference, st)
    end.

(** [df.copy(deep=True)]: a new object with the same rows. *)
Definition copy_deep (id : nat) : M nat :=
  fun st =>
    match frames st !! id with
    | Some df =>
        let id' := fresh (dom (frames st)) in
        (Returned id',
         State (<[id' := df]> (frames st)) (point_cloud st) (_flat_volume st)
               (events st))
    | None => (Raised UnboundReference, st)
    end.

(** [df.iloc[i]] *)
Definition iloc (id : nat) (i : nat) : M DataFrame.row :=
  df <- read id ;;
  match df !! i with
  | Some r => ret r
  | None => raise IndexError
  end.

Definition self_point_cloud : M nat := fun st => (Returned (point_cloud st), st).

Definition self_flat_volume : M (gmap Qc number) :=
  fun st => (Returned (_flat_volume st), st).

(** [self._flat_volume[ref_level] = v] *)
Definition flat_volume_store (ref_level : Qc) (v : number) : M unit :=
  fun st =>
    (Returned tt,
     State (frames st) (point_cloud st) (<[ref_level := v]> (_flat_volume st))
           (events st)).

(** [self._flat_volume[ref_level]] *)
Definition flat_volume_lookup (ref_level : Qc) : M number :=
  cache <- self_flat_volume ;;
  match cache !! ref_level with
  | Some v => ret v
  | None => raise KeyError
  end.

(** [__init__]: [point_cloud] is the identity of the caller's data frame. *)
Definition init (store : gmap nat DataFrame.t) (point_cloud : nat) : state :=
  State store point_cloud {[ 0 := Finite 0 ]} [].

Section Methods.
Context {T : Triangulation}.

(** The body of the [for] loop of [get_volume], once per row of [data]. *)
Fixpoint facets_loop (data_points data_amount : nat) (data : list simplex)
    (mesh_volume : number) (iteration : nat) : M number :=
  match data with
  | [] => ret mesh_volume
  | (iA, iB, iC) :: data' =>
      A <- iloc data_points iA ;;
      B <- iloc data_points iB ;;
      C <- iloc data_points iC ;;
      let point_A := Point (DataFrame.x A) (DataFrame.y A) (DataFrame.z A) in
      let point_B := Point (DataFrame.x B) (DataFrame.y B) (DataFrame.z B) in
      let point_C := Point (DataFrame.x C) (DataFrame.y C) (DataFrame.z C) in
      let triangle := Triangle.make point_A point_B point_C in
      let volume := Triangle.get_volume triangle in
      let mesh_volume := Number.add mesh_volume volume in
      let iteration := S iteration in
      emit (print_progress iteration data_amount) ;;;
      facets_loop data_points data_amount data' mesh_volume iteration
  end.

Definition get_volume (data_points : pyvalue) : M number :=
  data_points <-
    match data_points with
    | PyDataFrame id => ret id
    | _ => self_point_cloud
    end ;;
  df <- read data_points ;;
  data <- lift (Delaunay_simplices (DataFrame.xy df)) ;;
  let mesh_volume := Finite 0 in
  let iteration := 0%nat in
  let data_amount := length data in
  facets_loop data_points data_amount data mesh_volume iteration.

Definition _get_flat_volume (ref_level : Qc) : M unit :=
  emit (flat_volume_call ref_level) ;;;
  cloud <- self_point_cloud ;;
  data_flat <- copy_deep cloud ;;
  df <- read data_flat ;;
  write data_flat (DataFrame.set_z df ref_level) ;;;
  v <- get_volume (PyDataFrame data_flat) ;;
  flat_volume_store ref_level v.

Definition get_cut_volume (ref_level : Qc) : M number :=
  cloud <- self_point_cloud ;;
  data_cut <- copy_deep cloud ;;
  df <- read data_cut ;;
  write data_cut (DataFrame.loc_set_z df (DataFrame.z_lt df ref_level) ref_level) ;;;
  cache <- self_flat_volume ;;
  (if bool_decide (ref_level ∉ dom cache) then _get_flat_volume ref_level
   else ret tt) ;;;
  flat_volume <- flat_volume_lookup ref_level ;;
  v <- get_volume (PyDataFrame data_cut) ;;
  ret (Number.sub v flat_volume).

Definition get_fill_volume (ref_level : Qc) : M number :=
  if bool_decide (ref_level = 0) then ret (Finite 0) (* quick exit *)
  else
    cloud <- self_point_cloud ;;
    data_fill <- copy_deep cloud ;;
    df <- read data_fill ;;
    write data_fill
      (DataFrame.loc_set_z df (DataFrame.z_ge df ref_level) ref_level) ;;;
    cache <- self_flat_volume ;;
    (if bool_decide (ref_level ∉ dom cache) then _get_flat_volume ref_level
     else ret tt) ;;;
    flat_volume <- flat_volume_lookup ref_level ;;
    v <- get_volume (PyDataFrame data_fill) ;;
    ret (Number.sub flat_volume v).

Definition get_volume_curves (step swell_factor : Qc) : M number :=
  ret (Finite 1).

End Methods.

End TriangularMesh.

(** ** The result of [get_volume] as a function of the rows

    What [TriangularMesh.get_volume] returns depends on the rows of the
    data frame it works on only; these definitions say how, without the
    store. *)

Definition row_point (r : DataFrame.row) : point :=
  Point (DataFrame.x r) (DataFrame.y r) (DataFrame.z r).

Definition facet_volume (df : DataFrame.t) (s : simplex) : outcome number :=
  let '(iA, iB, iC) := s in
  match df !! iA, df !! iB, df !! iC with
  | Some A, Some B, Some C =>
      Returned (Triangle.get_volume
                  (Triangle.make (row_point A) (row_point B) (row_point C)))
  | _, _, _ => Raised IndexError
  end.

Fixpoint facets_volume (df : DataFrame.t) (data : list simplex)
    (mesh_volume : number) : outcome number :=
  match data with
  | [] => Returned mesh_volume
  | s :: data' =>
      Outcome.bind (facet_volume df s)
        (fun volume => facets_volume df data' (Number.add mesh_volume volume))
  end.

Definition cloud_volume `{T : Triangulation} (df : DataFrame.t)
    : outcome number :=
  Outcome.bind (Delaunay_simplices (DataFrame.xy df))
    (fun data => facets_volume df data (Finite 0)).

(** ** The clipped point clouds, in the words of the specification *)

(** Every point whose z is below [ref_level] is raised to exactly
    [ref_level]; points at or above are untouched. *)
Definition raised_to (ref_level : Qc) (cloud : DataFrame.t) : DataFrame.t :=
  map (fun r =>
         if bool_decide (DataFrame.z r < ref_level)
         then DataFrame.Row (DataFrame.x r) (DataFrame.y r) ref_level
         else r) cloud.

(** Every point whose z is at or above [ref_level] is lowered to exactly
    [ref_level]. *)
Definition lowered_to (ref_level : Qc) (cloud : DataFrame.t) : DataFrame.t :=
  map (fun r =>
         if bool_decide (ref_level <= DataFrame.z r)
         then DataFrame.Row (DataFrame.x r) (DataFrame.y r) ref_level
         else r) cloud.

(** Every z-value forced to [ref_level]. *)
Definition flattened_to (ref_level : Qc) (cloud : DataFrame.t) : DataFrame.t :=
  map (fun r => DataFrame.Row (DataFrame.x r) (DataFrame.y r) ref_level) cloud.

(** The flat-surface volume a query at [ref_level] works with: the cached
    entry, or on a miss the volume of the flattened cloud. *)
Definition flat_surface_volume `{T : Triangulation}
    (cache : gmap Qc number) (ref_level : Qc) (cloud : DataFrame.t)
    : outcome number :=
  match cache !! ref_level with
  | Some v => Returned v
  | None => cloud_volume (flattened_to ref_level cloud)
  end.

(** ** Sequences of queries on one mesh instance *)

Inductive query : Type :=
| call_get_volume (data_points : pyvalue)
| call_get_cut_volume (ref_level : Qc)
| call_get_fill_volume (ref_level : Qc).

Definition run_query `{T : Triangulation} (q : query)
    : TriangularMesh.M number :=
  match q with
  | call_get_volume data_points => TriangularMesh.get_volume data_points
  | call_get_cut_volume ref_level => TriangularMesh.get_cut_volume ref_level
  | call_get_fill_volume ref_level => TriangularMesh.get_fill_volume ref_level
  end.

(** The queries one after the other; an exception ends the sequence. *)
Fixpoint run_queries `{T : Triangulation} (qs : list query)
    : TriangularMesh.M (list number) :=
  match qs with
  | [] => TriangularMesh.ret []
  | q :: qs' =>
      TriangularMesh.bind (run_query q) (fun v =>
      TriangularMesh.bind (run_queries qs') (fun vs =>
      TriangularMesh.ret (v :: vs)))
  end.

(** How often [_get_flat_volume ref_level] was entered. *)
Definition flat_volume_calls (ref_level : Qc) (evs : list event) : nat :=
  length (filter (fun e => e = flat_volume_call ref_level) evs).

Definition is_progress (e : event) : bool :=
  match e with
  | print_progress _ _ => true
  | flat_volume_call _ => false
  end.

(** ** A triangulation to run the mesh on

    For three points the Delaunay triangulation is known without running
    Qhull: one facet when the points are not collinear, and an error when
    they are (Qhull refuses flat input); fewer than three points are an
    error as well.  Larger inputs are answered with an error here. *)
Definition collinear (p q r : Qc * Qc) : bool :=
  bool_decide ((p.1 - q.1) * (r.2 - q.2) - (p.2 - q.2) * (r.1 - q.1) = 0).

Definition three_point_Delaunay : Triangulation :=
  fun pts =>
    match pts with
    | [p; q; r] =>
        if collinear p q r then Raised (LibraryError "QhullError")
        else Returned [(0, 1, 2)%nat]
    | _ => Raised (LibraryError "QhullError")
    end.

(** A triangulation that answers with the facets it is given, whatever the
    points: it shows what the loop of [get_volume] does with a facet Qhull
    would not normally produce. *)
Definition fixed_facets (data : list simplex) : Triangulation :=
  fun _ => Returned data.

(** ** Vocabulary of the statements below *)

Import TriangularMesh.
Local Open Scope mesh_scope.

Definition with_events (st : state) (evs : list event) : state :=
  State (frames st) (point_cloud st) (_flat_volume st) (events st ++ evs).

(** The data frame [get_volume] works on: the argument when it is one, the
    stored point cloud otherwise. *)
Definition target (data_points : pyvalue) (st : state) : nat :=
  match data_points with
  | PyDataFrame id => id
  | _ => point_cloud st
  end.

Definition is_data_frame (v : pyvalue) : Prop :=
  match v with
  | PyDataFrame _ => True
  | _ => False
  end.

(** The shape [get_cut_volume] and [get_fill_volume] share: [g] clips the
    copy, [combine] subtracts one way or the other. *)
Definition clip_query `{T : Triangulation}
    (g : DataFrame.t -> DataFrame.t)
    (combine : number -> number -> number) (ref_level : Qc) : M number :=
  cloud <- self_point_cloud ;;
  data <- copy_deep cloud ;;
  df <- read data ;;
  write data (g df) ;;;
  cache <- self_flat_volume ;;
  (if bool_decide (ref_level ∉ dom cache) then _get_flat_volume ref_level
   else ret tt) ;;;
  flat_volume <- flat_volume_lookup ref_level ;;
  v <- get_volume (PyDataFrame data) ;;
  ret (combine v flat_volume).

(** What a clipping query at [ref_level] leaves behind: the attribute
    [point_cloud] and every data frame that existed are as before, the
    cache has gained the flat volume at [ref_level] exactly when it lacked
    it and the computation returned, and [_get_flat_volume] was entered
    once on a miss and not at all on a hit. *)
Definition query_effect `{T : Triangulation} (ref_level : Qc)
    (cloud : DataFrame.t) (st st' : state) : Prop :=
  point_cloud st' = point_cloud st /\
  (forall id, id ∈ dom (frames st) -> frames st' !! id = frames st !! id) /\
  _flat_volume st' =
    match _flat_volume st !! ref_level with
    | Some _ => _flat_volume st
    | None =>
        match cloud_volume (flattened_to ref_level cloud) with
        | Returned v => <[ref_level := v]> (_flat_volume st)
        | Raised _ => _flat_volume st
        end
    end /\
  forall r,
    flat_volume_calls r (events st') =
    (flat_volume_calls r (events st) +
     if bool_decide (r = ref_level /\ _flat_volume st !! ref_level = None)
     then 1 else 0)%nat.

(** ** Concrete inputs *)

Definition Qz (n : Z) : Qc := Qc_of_Z n.

Definition P (a b c : Z) : point := Point (Qz a) (Qz b) (Qz c).

(** The first two cases of [test_2dLine]. *)
Definition line_3_4 : Line2D.t := Line2D.make (P 3 5 8) (P 4 2 4).
Definition line_3_3 : Line2D.t := Line2D.make (P 3 5 8) (P 3 2 4).

(** A facet over a footprint of area 4 with mean elevation 6. *)
Definition facet_A : point := P 0 0 3.
Definition facet_B : point := P 2 0 6.
Definition facet_C : point := P 1 4 9.
Definition facet : Triangle.t := Triangle.make facet_A facet_B facet_C.

(** Two degenerate triangles: all three points above one x, and three
    points whose projections lie on the diagonal. *)
Definition upright : Triangle.t :=
  Triangle.make (P 1 0 0) (P 1 1 0) (P 1 2 5).
Definition diagonal : Triangle.t :=
  Triangle.make (P 0 0 0) (P 1 1 0) (P 2 2 5).

Definition facet_cloud : DataFrame.t :=
  [DataFrame.Row (Qz 0) (Qz 0) (Qz 3);
   DataFrame.Row (Qz 2) (Qz 0) (Qz 6);
   DataFrame.Row (Qz 1) (Qz 4) (Qz 9)].

Definition upright_cloud : DataFrame.t :=
  [DataFrame.Row (Qz 1) (Qz 0) (Qz 0);
   DataFrame.Row (Qz 1) (Qz 1) (Qz 0);
   DataFrame.Row (Qz 1) (Qz 2) (Qz 5)].

(** A mesh instance right after [__init__], its point cloud being the
    data frame with identity 0. *)
Definition facet_mesh : state := init {[ 0%nat := facet_cloud ]} 0%nat.
Definition upright_mesh : state := init {[ 0%nat := upright_cloud ]} 0%nat.

(** The three points on the diagonal and a fourth one beside it: the
    facet (0, 1, 2) is degenerate, the facet (0, 1, 3) has the footprint
    of area 1 and the mean elevation 1. *)
Definition diagonal_cloud : DataFrame.t :=
  [DataFrame.Row (Qz 0) (Qz 0) (Qz 0);
   DataFrame.Row (Qz 1) (Qz 1) (Qz 0);
   DataFrame.Row (Qz 2) (Qz 2) (Qz 5);
   DataFrame.Row (Qz 2) (Qz 0) (Qz 3)].

Definition diagonal_mesh : state := init {[ 0%nat := diagonal_cloud ]} 0%nat.

(** Points with float coordinates.  The line through (0.1, 0.2) and
    (0.4, 0.3); the third case of [test_2dLine]; and three points whose
    footprints lie on the line y = x + 0.2. *)
Definition float_line_A : Binary64.point :=
  Binary64.Point (Binary64.decimal 1 1) (Binary64.decimal 2 1)
    (Binary64.of_Z 0).
Definition float_line_B : Binary64.point :=
  Binary64.Point (Binary64.decimal 4 1) (Binary64.decimal 3 1)
    (Binary64.of_Z 0).

Definition test_line_A : Binary64.point :=
  Binary64.Point (Binary64.decimal 1934 2) (Binary64.decimal 312 2)
    (Binary64.of_Z 8).
Definition test_line_B : Binary64.point :=
  Binary64.Point (Binary64.decimal 5 1) (Binary64.decimal (-812) 2)
    (Binary64.of_Z 4).

Definition float_facet_A : Binary64.point :=
  Binary64.Point (Binary64.of_Z 0) (Binary64.decimal 2 1) (Binary64.of_Z 1).
Definition float_facet_B : Binary64.point :=
  Binary64.Point (Binary64.decimal 1 1) (Binary64.decimal 3 1)
    (Binary64.of_Z 2).
Definition float_facet_C : Binary64.point :=
  Binary64.Point (Binary64.decimal 4 1) (Binary64.decimal 6 1)
    (Binary64.of_Z 4).

(** ** Vocabulary of the further properties *)

(** The value of a polynomial in [x] and [y] at a point. *)
Definition eval2 (f : poly2) (vx vy : Qc) : Qc :=
  Poly.eval (map (fun c => Poly.eval c vx) f) vy.

(** The area of the footprint of a triangle, its projection on the xy
    plane: half the absolute z-component of the normal vector. *)
Definition footprint_area (t : Triangle.t) : Qc :=
  Qcabs.Qcabs (Triangle.normal_z t) / 2.

(** The mean of the three elevations. *)
Definition mean_elevation (t : Triangle.t) : Qc :=
  (CartesianCoordinate.z (Triangle.point_A t) +
   CartesianCoordinate.z (Triangle.point_B t) +
   CartesianCoordinate.z (Triangle.point_C t)) / (2 + 1).

(** The two regions in closed form.  For vertices sorted on x with
    elevations [z1], [z2], [z3], the double integral over the first region
    is [- c * region1_factor] and the one over the second region is
    [- c * region2_factor], [c] being the z-component of the normal
    vector: each factor is the width of its region times the mean of the
    plane over it, over [6 * (x3 - x1)]. *)
Definition region1_factor (x1 x2 x3 z1 z2 z3 : Qc) : Qc :=
  (x2 - x1) * ((z1 + z2) * (x3 - x1) + z1 * (x3 - x2) + z3 * (x2 - x1))
  / (2 * (2 + 1) * ((x3 - x1) * (x3 - x1))).

Definition region2_factor (x1 x2 x3 z1 z2 z3 : Qc) : Qc :=
  (x3 - x2) * ((z2 + z3) * (x3 - x1) + z1 * (x3 - x2) + z3 * (x2 - x1))
  / (2 * (2 + 1) * ((x3 - x1) * (x3 - x1))).

(** The triangle [get_volume] builds for a row of the triangulation, when
    the three rows exist. *)
Definition facet_triangle (df : DataFrame.t) (s : simplex)
    : option Triangle.t :=
  let '(iA, iB, iC) := s in
  match df !! iA, df !! iB, df !! iC with
  | Some A, Some B, Some C =>
      Some (Triangle.make (row_point A) (row_point B) (row_point C))
  | _, _, _ => None
  end.

(** A facet whose rows exist and whose footprint is not flat. *)
Definition proper_facet (df : DataFrame.t) (s : simplex) : Prop :=
  match facet_triangle df s with
  | Some t => Triangle.normal_z t <> 0
  | None => False
  end.

(** The triangulation of the cloud returns, and returns proper facets
    only. *)
Definition proper_triangulation `{T : Triangulation} (df : DataFrame.t)
    (data : list simplex) : Prop :=
  Delaunay_simplices (DataFrame.xy df) = Returned data /\
  Forall (proper_facet df) data.

(** The sum of [val] over the triangles of the facets. *)
Fixpoint facets_sum (val : Triangle.t -> Qc) (df : DataFrame.t)
    (data : list simplex) : Qc :=
  match data with
  | [] => 0
  | s :: data' =>
      match facet_triangle df s with
      | Some t => val t + facets_sum val df data'
      | None => facets_sum val df data'
      end
  end.

(** The area the facets cover on the xy plane. *)
Definition footprint (df : DataFrame.t) (data : list simplex) : Qc :=
  facets_sum footprint_area df data.

(** A data frame with the elevations replaced row by row: the clipped and
    the flattened clouds are of this kind. *)
Definition set_elevation (h : Qc -> Qc) (df : DataFrame.t) : DataFrame.t :=
  map (fun r => DataFrame.Row (DataFrame.x r) (DataFrame.y r)
                              (h (DataFrame.z r))) df.

Definition point_elevation (h : Qc -> Qc) (p : point) : point :=
  Point (CartesianCoordinate.x p) (CartesianCoordinate.y p)
        (h (CartesianCoordinate.z p)).

Definition triangle_elevation (h : Qc -> Qc) (t : Triangle.t) : Triangle.t :=
  Triangle.make (point_elevation h (Triangle.point_A t))
                (point_elevation h (Triangle.point_B t))
                (point_elevation h (Triangle.point_C t)).

(** The volume under a facet as a number; 0 stands for a non-finite
    value. *)
Definition finite_volume (t : Triangle.t) : Qc :=
  match Triangle.get_volume t with
  | Finite v => v
  | NotFinite => 0
  end.

(** The elevation of a point after the clipping of [get_cut_volume] and
    after the one of [get_fill_volume]. *)
Definition raise_to (ref_level z : Qc) : Qc :=
  if bool_decide (z < ref_level) then ref_level else z.

Definition lower_to (ref_level z : Qc) : Qc :=
  if bool_decide (ref_level <= z) then ref_level else z.

(** The sum of the prisms under the facets of a cloud whose elevations
    went through [h]: footprint times mean elevation, facet by facet. *)
Definition prisms (h : Qc -> Qc) (df : DataFrame.t) (data : list simplex)
    : Qc :=
  facets_sum
    (fun t => footprint_area t * mean_elevation (triangle_elevation h t))
    df data.

(** A mesh instance built by [__init__] on the data frame [point_cloud],
    after the queries [qs]. *)
Definition mesh_after `{T : Triangulation} (qs : list query)
    (store : gmap nat DataFrame.t) (point_cloud : nat) : state :=
  (run_queries qs (init store point_cloud)).2.

(** The progress reports of a loop over [data_amount] facets that has
    gone through [k] of them. *)
Definition progress_reports (data_amount k : nat) : list event :=
  map (fun i => print_progress i data_amount) (seq 1 k).

(** * Properties *)

(** Closed equations between rationals are decided by evaluation. *)
Ltac by_evaluation := apply (bool_decide_unpack _); vm_compute; exact I.

(** ** Arithmetic *)

Lemma Qc_sub_eq_0 (a b : Qc) : a - b = 0 <-> a = b.
Proof.
  split; intros H; [|subst; ring].
  replace a with ((a - b) + b) by ring. rewrite H. ring.
Qed.

Lemma Qc_opp_eq_0 (a : Qc) : - a = 0 <-> a = 0.
Proof.
  split; intros H; [|subst; ring].
  rewrite <- (Qcopp_involutive a), H. ring.
Qed.

(** ** Polynomials *)

Section Polynomials.
Implicit Types (p q : poly) (v k : Qc).

Lemma eval_add p q v :
  Poly.eval (Poly.add p q) v = Poly.eval p v + Poly.eval q v.
Proof.
  revert q. induction p as [|a p IH]; intros [|b q]; simpl;
    rewrite ?IH; ring.
Qed.

Lemma eval_scale k p v : Poly.eval (Poly.scale k p) v = k * Poly.eval p v.
Proof. induction p as [|a p IH]; simpl; rewrite ?IH; ring. Qed.

Lemma eval_opp p v : Poly.eval (Poly.opp p) v = - Poly.eval p v.
Proof. induction p as [|a p IH]; simpl; rewrite ?IH; ring. Qed.

Lemma eval_sub p q v :
  Poly.eval (Poly.sub p q) v = Poly.eval p v - Poly.eval q v.
Proof. unfold Poly.sub. rewrite eval_add, eval_opp. ring. Qed.

Lemma eval_mul p q v :
  Poly.eval (Poly.mul p q) v = Poly.eval p v * Poly.eval q v.
Proof.
  induction p as [|a p IH]; simpl; [ring|].
  rewrite eval_add, eval_scale. simpl. rewrite IH. ring.
Qed.

(** Exchanging the limits of the inner integral flips the sign. *)
Lemma sub_antisym p q : Poly.sub p q = Poly.opp (Poly.sub q p).
Proof.
  unfold Poly.sub. revert q.
  induction p as [|a p IH]; intros [|b q]; simpl; try done.
  - f_equal; [ring|]. unfold Poly.opp. rewrite map_map.
    rewrite <- (map_id p) at 1. apply map_ext. intros x. ring.
  - f_equal; [ring|]. apply IH.
Qed.

Lemma integ_from_opp (n : nat) p :
  Poly.integ_from n (Poly.opp p) = Poly.opp (Poly.integ_from n p).
Proof.
  revert n. induction p as [|a p IH]; intros n; simpl; [done|].
  f_equal; [|apply IH]. unfold Qcdiv. ring.
Qed.

Lemma definite_opp p (a b : Qc) :
  Poly.definite (Poly.opp p) a b = - Poly.definite p a b.
Proof.
  unfold Poly.definite, Poly.integ. simpl.
  rewrite integ_from_opp, !eval_opp. ring.
Qed.

Lemma integrate_swap (f : poly2) (lo hi : poly) (a b : Qc) :
  Poly.integrate f lo hi a b = - Poly.integrate f hi lo a b.
Proof.
  unfold Poly.integrate. cbv zeta.
  rewrite sub_antisym. apply definite_opp.
Qed.

End Polynomials.

(** ** Line2D *)

Lemma line_equation_vertical (l : Line2D.t) :
  CartesianCoordinate.x (Line2D.point_A l) =
  CartesianCoordinate.x (Line2D.point_B l) ->
  Line2D.get_line_equation l = None.
Proof.
  intros E. unfold Line2D.get_line_equation.
  rewrite bool_decide_eq_true_2; [done|]. rewrite E. ring.
Qed.

(** On the other lines the equation is the chord through the two points. *)
Lemma line_equation_some (l : Line2D.t) :
  CartesianCoordinate.x (Line2D.point_A l) <>
  CartesianCoordinate.x (Line2D.point_B l) ->
  exists f, Line2D.get_line_equation l = Some f /\
    forall v, Poly.eval f v =
      CartesianCoordinate.y (Line2D.point_A l) +
      (CartesianCoordinate.y (Line2D.point_B l) -
       CartesianCoordinate.y (Line2D.point_A l)) /
      (CartesianCoordinate.x (Line2D.point_B l) -
       CartesianCoordinate.x (Line2D.point_A l)) *
      (v - CartesianCoordinate.x (Line2D.point_A l)).
Proof.
  intros N. unfold Line2D.get_line_equation.
  rewrite bool_decide_eq_false_2.
  2:{ rewrite Qc_sub_eq_0. congruence. }
  eexists; split; [reflexivity|]. intros v.
  rewrite eval_add, eval_scale. simpl. field.
  rewrite Qc_sub_eq_0. congruence.
Qed.

Lemma line_equation_is_Some (p q : point) :
  CartesianCoordinate.x p <> CartesianCoordinate.x q ->
  is_Some (Line2D.get_line_equation (Line2D.make p q)).
Proof.
  intros N. destruct (line_equation_some (Line2D.make p q) N) as (f & -> & _).
  eauto.
Qed.

(** The lines of the first two cases of [test_2dLine]: the value of the
    first at 9, by substitution, and the sentinel of the second. *)
Example test_2dLine_case_1 : Line2D.line_at line_3_4 (Qz 9) = Some (Qz (-13)).
Proof. by_evaluation. Qed.

Example test_2dLine_case_2 : Line2D.line_at line_3_3 (Q2Qc (1634 # 10)) = None.
Proof. reflexivity. Qed.

(** [test_point_subtraction], first case. *)
Example test_point_subtraction_case_1 :
  CartesianCoordinate.sub (P 6 2 10) (P 1 5 8) = (Qz 5, Qz (-3), Qz 2).
Proof. by_evaluation. Qed.

(** C8: two points with equal x-coordinates give the sentinel [None], and
    so does every evaluation of the line at a query x. *)
Theorem vertical_line_is_undefined (point_A point_B : point) :
  CartesianCoordinate.x point_A = CartesianCoordinate.x point_B ->
  Line2D.get_line_equation (Line2D.make point_A point_B) = None /\
  forall input_x, Line2D.line_at (Line2D.make point_A point_B) input_x = None.
Proof.
  intros E.
  assert (Line2D.get_line_equation (Line2D.make point_A point_B) = None) as H
    by (by apply line_equation_vertical).
  split; [done|]. intros input_x. unfold Line2D.line_at. by rewrite H.
Qed.

Lemma vertical_line_is_undefined_witness :
  CartesianCoordinate.x (P 3 5 8) = CartesianCoordinate.x (P 3 2 4) /\
  (Line2D.get_line_equation line_3_3 = None /\
   forall input_x, Line2D.line_at line_3_3 input_x = None).
Proof.
  split; [reflexivity|].
  apply (vertical_line_is_undefined (P 3 5 8) (P 3 2 4)). reflexivity.
Defined.

(** C9 (amended): over exact numbers, for two points with distinct
    x-coordinates the equation returned takes the value [point_A.y] at
    [point_A.x] and [point_B.y] at [point_B.x]. *)
Theorem line_through_both_points (point_A point_B : point) :
  CartesianCoordinate.x point_A <> CartesianCoordinate.x point_B ->
  exists f,
    Line2D.get_line_equation (Line2D.make point_A point_B) = Some f /\
    Poly.eval f (CartesianCoordinate.x point_A) = CartesianCoordinate.y point_A /\
    Poly.eval f (CartesianCoordinate.x point_B) = CartesianCoordinate.y point_B.
Proof.
  intros N.
  destruct (line_equation_some (Line2D.make point_A point_B) N) as (f & E & Hf).
  exists f. split; [done|]. simpl in Hf.
  assert (CartesianCoordinate.x point_B - CartesianCoordinate.x point_A <> 0)
    as N' by (rewrite Qc_sub_eq_0; congruence).
  split; rewrite Hf; field; exact N'.
Qed.

Lemma line_through_both_points_witness :
  CartesianCoordinate.x (P 3 5 8) <> CartesianCoordinate.x (P 4 2 4) /\
  exists f,
    Line2D.get_line_equation line_3_4 = Some f /\
    Poly.eval f (CartesianCoordinate.x (P 3 5 8)) = CartesianCoordinate.y (P 3 5 8) /\
    Poly.eval f (CartesianCoordinate.x (P 4 2 4)) = CartesianCoordinate.y (P 4 2 4).
Proof.
  assert (CartesianCoordinate.x (P 3 5 8) <> CartesianCoordinate.x (P 4 2 4))
    as N by (vm_compute; discriminate).
  split; [exact N|].
  apply (line_through_both_points (P 3 5 8) (P 4 2 4) N).
Defined.

(** C9 fails as stated: on floats the equation does not reproduce the
    endpoints exactly.  For A(0.1, 0.2) and B(0.4, 0.3) the value at
    [B.x] is 0.29999999999999993, one unit in the last place below 0.3;
    for the two points of the third case of [test_2dLine] the values at
    [A.x] and at [B.x] both differ from [A.y] = 3.12 and [B.y] = -8.12. *)
Lemma binary64_line_misses_endpoints :
  (Binary64.eqb (Binary64.x float_line_A) (Binary64.x float_line_B) = false /\
   exists line_equation,
     Binary64.Line2D.get_line_equation float_line_A float_line_B =
       Some line_equation /\
     Binary64.Line2D.line_at line_equation (Binary64.x float_line_B) =
       S754_finite false 5404319552844594 (-54) /\
     Binary64.y float_line_B = S754_finite false 5404319552844595 (-54) /\
     Binary64.eqb
       (Binary64.Line2D.line_at line_equation (Binary64.x float_line_B))
       (Binary64.y float_line_B) = false) /\
  (Binary64.eqb (Binary64.x test_line_A) (Binary64.x test_line_B) = false /\
   exists line_equation,
     Binary64.Line2D.get_line_equation test_line_A test_line_B =
       Some line_equation /\
     Binary64.eqb
       (Binary64.Line2D.line_at line_equation (Binary64.x test_line_A))
       (Binary64.y test_line_A) = false /\
     Binary64.eqb
       (Binary64.Line2D.line_at line_equation (Binary64.x test_line_B))
       (Binary64.y test_line_B) = false).
Proof.
  split; (split; [vm_compute; reflexivity|]);
    eexists; (split; [vm_compute; reflexivity|]);
    repeat split; vm_compute; reflexivity.
Qed.

(** ** Sorting *)

Lemma insert_sorted_perm (p : point) (l : list point) :
  insert_sorted p l ≡ₚ p :: l.
Proof.
  induction l as [|q l IH]; simpl; [done|].
  case_bool_decide; [|done].
  rewrite IH. apply Permutation_swap.
Qed.

Lemma list_sort_perm (l : list point) : list_sort l ≡ₚ l.
Proof.
  induction l as [|p l IH]; simpl; [done|].
  rewrite insert_sorted_perm. by rewrite IH.
Qed.

Lemma insert_sorted_ascending (p : point) (l : list point) :
  ascending l -> ascending (insert_sorted p l).
Proof.
  unfold ascending. induction l as [|q l IH]; intros Hl; simpl.
  - repeat constructor.
  - inversion Hl as [|? ? Hl' Hq]; subst.
    case_bool_decide as Hlt.
    + constructor; [by apply IH|].
      rewrite insert_sorted_perm. constructor; [|done].
      by apply Qclt_le_weak.
    + assert (CartesianCoordinate.x p <= CartesianCoordinate.x q) as Hle
        by (by apply Qcnot_lt_le).
      constructor; [done|]. constructor; [done|].
      eapply Forall_impl; [exact Hq|]. intros r Hr. simpl in Hr.
      by eapply Qcle_trans.
Qed.

Lemma list_sort_ascending (l : list point) : ascending (list_sort l).
Proof.
  induction l as [|p l IH]; simpl; [constructor|].
  by apply insert_sorted_ascending.
Qed.

(** Sorting is stable: points that are already in order stay as they are. *)
Lemma list_sort_sorted_id (l : list point) : ascending l -> list_sort l = l.
Proof.
  unfold ascending. induction l as [|p l IH]; intros Hl; [done|].
  inversion Hl as [|? ? Hl' Hp]; subst. simpl. rewrite IH by done.
  destruct l as [|q l]; [done|]. simpl.
  inversion Hp as [|? ? Hpq _]; subst.
  rewrite bool_decide_eq_false_2; [done|].
  unfold CartesianCoordinate.lt. by apply Qcle_not_lt.
Qed.

Lemma list_sort_three (A B C : point) :
  exists sA sB sC,
    list_sort [A; B; C] = [sA; sB; sC] /\
    [sA; sB; sC] ≡ₚ [A; B; C] /\
    CartesianCoordinate.x sA <= CartesianCoordinate.x sB /\
    CartesianCoordinate.x sB <= CartesianCoordinate.x sC.
Proof.
  pose proof (list_sort_perm [A; B; C]) as Hp.
  pose proof (list_sort_ascending [A; B; C]) as Hs.
  pose proof (Permutation_length Hp) as Hlen.
  destruct (list_sort [A; B; C]) as [|sA [|sB [|sC [|? ?]]]]; try done.
  exists sA, sB, sC. split; [done|]. split; [done|].
  inversion Hs as [|? ? Hs' HA]; subst.
  inversion Hs' as [|? ? _ HB]; subst.
  inversion HA; subst. inversion HB; subst. done.
Qed.

Lemma perm_three {A : Type} (a b c a' b' c' : A) :
  [a; b; c] ≡ₚ [a'; b'; c'] ->
  (a', b', c') = (a, b, c) \/ (a', b', c') = (a, c, b) \/
  (a', b', c') = (b, a, c) \/ (a', b', c') = (b, c, a) \/
  (a', b', c') = (c, a, b) \/ (a', b', c') = (c, b, a).
Proof.
  intros Hp.
  assert (a' ∈ [a; b; c]) as Ha by (rewrite Hp; set_solver).
  rewrite !elem_of_cons in Ha. destruct Ha as [->|[->|[->|Ha]]].
  - apply Permutation_cons_inv in Hp.
    apply Permutation_length_2 in Hp as [[-> ->]|[-> ->]]; auto.
  - rewrite (Permutation_swap b a [c]) in Hp.
    apply Permutation_cons_inv in Hp.
    apply Permutation_length_2 in Hp as [[-> ->]|[-> ->]]; auto 10.
  - assert ([a; b; c] ≡ₚ c :: [a; b]) as Hc
      by apply (Permutation_app_comm [a; b] [c]).
    rewrite Hc in Hp. apply Permutation_cons_inv in Hp.
    apply Permutation_length_2 in Hp as [[-> ->]|[-> ->]]; auto 10.
  - by apply elem_of_nil in Ha.
Qed.

(** ** Triangle *)

Ltac coefficientwise :=
  repeat match goal with
         | |- Expr _ = Expr _ => f_equal
         | |- _ :: _ = _ :: _ => apply (f_equal2 cons)
         | |- [] = [] => reflexivity
         end.

(** Side conditions of [field]: denominators that are constants,
    hypotheses, or differences of distinct numbers. *)
Ltac nonzero :=
  repeat split;
  first [ assumption
        | discriminate
        | rewrite Qc_sub_eq_0; congruence
        | vm_compute; discriminate ].

Ltac unfold_plane :=
  unfold Triangle.get_plane_equation, Triangle.plane_numerator,
    Triangle.normal_z, Triangle.normal_vector, CartesianCoordinate.sub,
    cross in *;
  simpl in *.

Ltac unfold_poly2 :=
  unfold Poly.add2, Poly.div2, Poly.sub2, Poly.scale2, Poly.opp2,
    Poly.X2, Poly.Y2, Poly.const2, Poly.X, Poly.const, Poly.scale,
    Poly.opp; simpl.

(** Two numbers whose difference is a multiple of a number that is 0. *)
Lemma Qc_eq_by_factor (u v c k : Qc) : c = 0 -> u - v = c * k -> u = v.
Proof. intros -> H. apply Qc_sub_eq_0. rewrite H. ring. Qed.

Section Triangles.
Implicit Types (t : Triangle.t) (A B C sA sB sC : point) (plane : symbolic).

Lemma plane_equation_expr t :
  Triangle.normal_z t <> 0 -> exists f, Triangle.get_plane_equation t = Expr f.
Proof.
  unfold Triangle.normal_z, Triangle.get_plane_equation.
  destruct (Triangle.normal_vector t) as [[a b] c]. simpl. intros N.
  rewrite bool_decide_eq_false_2; eauto.
Qed.

(** With [c = 0] the plane equation is not a finite expression: [zoo]
    times the numerator, or [nan] when the normal vector is zero. *)
Lemma plane_equation_degenerate t :
  Triangle.normal_z t = 0 ->
  Triangle.get_plane_equation t =
    if bool_decide ((Triangle.normal_vector t).1.1 = 0 /\
                    (Triangle.normal_vector t).1.2 = 0)
    then NanExpr
    else ZooExpr (Triangle.plane_numerator t)
                 (CartesianCoordinate.z (Triangle.point_A t)).
Proof.
  unfold Triangle.normal_z, Triangle.get_plane_equation.
  destruct (Triangle.normal_vector t) as [[a b] c]. simpl. intros ->.
  by rewrite bool_decide_eq_true_2.
Qed.

(** Exchanging two vertices negates the normal vector. *)
Lemma normal_vector_swap_AB A B C :
  Triangle.normal_vector (Triangle.make B A C) =
  (- (Triangle.normal_vector (Triangle.make A B C)).1.1,
   - (Triangle.normal_vector (Triangle.make A B C)).1.2,
   - (Triangle.normal_vector (Triangle.make A B C)).2).
Proof.
  destruct A as [xa ya za], B as [xb yb zb], C as [xc yc zc].
  unfold Triangle.normal_vector, CartesianCoordinate.sub, cross. simpl.
  repeat f_equal; ring.
Qed.

Lemma normal_vector_swap_BC A B C :
  Triangle.normal_vector (Triangle.make A C B) =
  (- (Triangle.normal_vector (Triangle.make A B C)).1.1,
   - (Triangle.normal_vector (Triangle.make A B C)).1.2,
   - (Triangle.normal_vector (Triangle.make A B C)).2).
Proof.
  destruct A as [xa ya za], B as [xb yb zb], C as [xc yc zc].
  unfold Triangle.normal_vector, CartesianCoordinate.sub, cross. simpl.
  repeat f_equal; ring.
Qed.

Lemma normal_zero_swap_AB A B C :
  ((Triangle.normal_vector (Triangle.make B A C)).1.1 = 0 <->
   (Triangle.normal_vector (Triangle.make A B C)).1.1 = 0) /\
  ((Triangle.normal_vector (Triangle.make B A C)).1.2 = 0 <->
   (Triangle.normal_vector (Triangle.make A B C)).1.2 = 0) /\
  (Triangle.normal_z (Triangle.make B A C) = 0 <->
   Triangle.normal_z (Triangle.make A B C) = 0).
Proof.
  unfold Triangle.normal_z. rewrite normal_vector_swap_AB. cbn [fst snd].
  by rewrite !Qc_opp_eq_0.
Qed.

Lemma normal_zero_swap_BC A B C :
  ((Triangle.normal_vector (Triangle.make A C B)).1.1 = 0 <->
   (Triangle.normal_vector (Triangle.make A B C)).1.1 = 0) /\
  ((Triangle.normal_vector (Triangle.make A C B)).1.2 = 0 <->
   (Triangle.normal_vector (Triangle.make A B C)).1.2 = 0) /\
  (Triangle.normal_z (Triangle.make A C B) = 0 <->
   Triangle.normal_z (Triangle.make A B C) = 0).
Proof.
  unfold Triangle.normal_z. rewrite normal_vector_swap_BC. cbn [fst snd].
  by rewrite !Qc_opp_eq_0.
Qed.

(** Whether a component of the normal vector is zero does not depend on
    the order of the vertices. *)
Lemma normal_vector_perm A B C A' B' C' :
  [A; B; C] ≡ₚ [A'; B'; C'] ->
  ((Triangle.normal_vector (Triangle.make A' B' C')).1.1 = 0 <->
   (Triangle.normal_vector (Triangle.make A B C)).1.1 = 0) /\
  ((Triangle.normal_vector (Triangle.make A' B' C')).1.2 = 0 <->
   (Triangle.normal_vector (Triangle.make A B C)).1.2 = 0) /\
  (Triangle.normal_z (Triangle.make A' B' C') = 0 <->
   Triangle.normal_z (Triangle.make A B C) = 0).
Proof.
  intros Hp. apply perm_three in Hp.
  destruct Hp as [E|[E|[E|[E|[E|E]]]]]; inversion E; subst; clear E.
  - done.
  - apply normal_zero_swap_BC.
  - apply normal_zero_swap_AB.
  - destruct (normal_zero_swap_BC B A C) as (-> & -> & ->).
    apply normal_zero_swap_AB.
  - destruct (normal_zero_swap_AB A C B) as (-> & -> & ->).
    apply normal_zero_swap_BC.
  - destruct (normal_zero_swap_AB B C A) as (-> & -> & ->).
    destruct (normal_zero_swap_BC B A C) as (-> & -> & ->).
    apply normal_zero_swap_AB.
Qed.

Lemma plane_equation_swap_AB A B C :
  Triangle.normal_z (Triangle.make A B C) <> 0 ->
  Triangle.get_plane_equation (Triangle.make B A C) =
  Triangle.get_plane_equation (Triangle.make A B C).
Proof.
  destruct A as [xa ya za], B as [xb yb zb], C as [xc yc zc].
  unfold_plane. intros N.
  rewrite (bool_decide_eq_false_2 _ N).
  case_bool_decide as Z.
  { exfalso. apply N. apply Qc_opp_eq_0. rewrite <- Z. ring. }
  unfold_poly2. coefficientwise; field; nonzero.
Qed.

Lemma plane_equation_swap_BC A B C :
  Triangle.normal_z (Triangle.make A B C) <> 0 ->
  Triangle.get_plane_equation (Triangle.make A C B) =
  Triangle.get_plane_equation (Triangle.make A B C).
Proof.
  destruct A as [xa ya za], B as [xb yb zb], C as [xc yc zc].
  unfold_plane. intros N.
  rewrite (bool_decide_eq_false_2 _ N).
  case_bool_decide as Z.
  { exfalso. apply N. apply Qc_opp_eq_0. rewrite <- Z. ring. }
  unfold_poly2. coefficientwise; field; nonzero.
Qed.

(** A plane whose normal is not horizontal has one equation, whatever
    the order of the vertices. *)
Lemma plane_equation_perm A B C A' B' C' :
  Triangle.normal_z (Triangle.make A B C) <> 0 ->
  [A; B; C] ≡ₚ [A'; B'; C'] ->
  Triangle.get_plane_equation (Triangle.make A' B' C') =
  Triangle.get_plane_equation (Triangle.make A B C).
Proof.
  intros N Hp.
  assert (forall P Q R, [A; B; C] ≡ₚ [P; Q; R] ->
            Triangle.normal_z (Triangle.make P Q R) <> 0) as Hn.
  { intros P Q R HP Z. apply N.
    by apply (normal_vector_perm A B C P Q R HP). }
  apply perm_three in Hp.
  destruct Hp as [E|[E|[E|[E|[E|E]]]]]; inversion E; subst; clear E.
  - done.
  - by apply plane_equation_swap_BC.
  - by apply plane_equation_swap_AB.
  - rewrite plane_equation_swap_BC.
    + by apply plane_equation_swap_AB.
    + apply Hn. apply perm_swap.
  - rewrite plane_equation_swap_AB.
    + by apply plane_equation_swap_BC.
    + apply Hn. apply perm_skip, perm_swap.
  - rewrite plane_equation_swap_AB.
    + rewrite plane_equation_swap_BC.
      * by apply plane_equation_swap_AB.
      * apply Hn. apply perm_swap.
    + apply Hn. etrans; [apply perm_swap|]. apply perm_skip, perm_swap.
Qed.

Lemma get_volume_sorted t sA sB sC :
  list_sort [Triangle.point_A t; Triangle.point_B t; Triangle.point_C t]
    = [sA; sB; sC] ->
  Triangle.get_volume t =
  Triangle.regions (Triangle.get_plane_equation t) sA sB sC.
Proof. intros E. unfold Triangle.get_volume. by rewrite E. Qed.

Lemma abs_double_integral_swap plane (a b : Qc) (lo hi : option poly) :
  Number.abs (Triangle.compute_double_integral plane a b lo hi) =
  Number.abs (Triangle.compute_double_integral plane a b hi lo).
Proof.
  destruct lo as [lo|], hi as [hi|], plane as [f|num zo|]; simpl; try done.
  - f_equal. rewrite (integrate_swap f lo hi). apply Qcabs.Qcabs_opp.
  - repeat case_bool_decide; congruence.
Qed.

Lemma double_integral_vertical plane (a b : Qc) (lo : option poly) :
  Triangle.compute_double_integral plane a b lo None = Finite 0.
Proof. by destruct lo. Qed.

(** With two vertices above one x, their order does not matter: the
    region between them has no width, and in the other region the two
    bounding lines change places. *)
Lemma regions_swap_AB plane sA sB sC :
  CartesianCoordinate.x sA = CartesianCoordinate.x sB ->
  Triangle.regions plane sB sA sC = Triangle.regions plane sA sB sC.
Proof.
  intros E. unfold Triangle.regions, Triangle.volume1, Triangle.volume2.
  rewrite (line_equation_vertical (Line2D.make sA sB)) by done.
  rewrite (line_equation_vertical (Line2D.make sB sA)) by done.
  rewrite !double_integral_vertical. f_equal.
  rewrite E. apply abs_double_integral_swap.
Qed.

Lemma regions_swap_BC plane sA sB sC :
  CartesianCoordinate.x sB = CartesianCoordinate.x sC ->
  Triangle.regions plane sA sC sB = Triangle.regions plane sA sB sC.
Proof.
  intros E. unfold Triangle.regions, Triangle.volume1, Triangle.volume2.
  rewrite (line_equation_vertical (Line2D.make sB sC)) by done.
  rewrite (line_equation_vertical (Line2D.make sC sB)) by done.
  rewrite !double_integral_vertical. f_equal.
  rewrite E. apply abs_double_integral_swap.
Qed.

(** Two ascending arrangements of the same three points differ in the
    order of points with equal x at most. *)
Lemma regions_perm plane (a b c a' b' c' : point) :
  [a; b; c] ≡ₚ [a'; b'; c'] ->
  CartesianCoordinate.x a <= CartesianCoordinate.x b ->
  CartesianCoordinate.x b <= CartesianCoordinate.x c ->
  CartesianCoordinate.x a' <= CartesianCoordinate.x b' ->
  CartesianCoordinate.x b' <= CartesianCoordinate.x c' ->
  Triangle.regions plane a' b' c' = Triangle.regions plane a b c.
Proof.
  intros Hp Hab Hbc Hab' Hbc'. apply perm_three in Hp.
  destruct Hp as [E|[E|[E|[E|[E|E]]]]]; inversion E; subst; clear E.
  - done.
  - apply regions_swap_BC. by apply Qcle_antisym.
  - apply regions_swap_AB. by apply Qcle_antisym.
  - assert (CartesianCoordinate.x a = CartesianCoordinate.x b) as E1
      by (apply Qcle_antisym; [done|by eapply Qcle_trans]).
    assert (CartesianCoordinate.x b = CartesianCoordinate.x c) as E2
      by (apply Qcle_antisym; [done|]; rewrite <- E1; done).
    rewrite regions_swap_BC by congruence.
    apply regions_swap_AB. done.
  - assert (CartesianCoordinate.x b = CartesianCoordinate.x c) as E2
      by (apply Qcle_antisym; [done|by eapply Qcle_trans]).
    assert (CartesianCoordinate.x a = CartesianCoordinate.x b) as E1
      by (apply Qcle_antisym; [done|]; rewrite E2; done).
    rewrite regions_swap_AB by congruence.
    apply regions_swap_BC. done.
  - assert (CartesianCoordinate.x a = CartesianCoordinate.x b) as E1
      by (apply Qcle_antisym; [done|]; by eapply Qcle_trans).
    assert (CartesianCoordinate.x b = CartesianCoordinate.x c) as E2
      by (apply Qcle_antisym; [done|]; by eapply Qcle_trans).
    rewrite regions_swap_AB by congruence.
    rewrite regions_swap_BC by congruence.
    apply regions_swap_AB. done.
Qed.

(** *** Three points whose footprints lie on one line

    With [c = 0] the footprints of the three points are collinear, and
    two chords that share an endpoint and are not vertical are one and
    the same expression. *)
Lemma line_equation_common_start (p q r : point) :
  CartesianCoordinate.x p <> CartesianCoordinate.x q ->
  CartesianCoordinate.x p <> CartesianCoordinate.x r ->
  Triangle.normal_z (Triangle.make p q r) = 0 ->
  Line2D.get_line_equation (Line2D.make p q) =
  Line2D.get_line_equation (Line2D.make p r).
Proof.
  destruct p as [x1 y1 z1], q as [x2 y2 z2], r as [x3 y3 z3].
  unfold_plane. intros N12 N13 Z.
  unfold Line2D.get_line_equation. simpl.
  rewrite !bool_decide_eq_false_2 by (rewrite Qc_sub_eq_0; congruence).
  unfold Poly.scale, Poly.X, Poly.const. simpl.
  f_equal. apply (f_equal2 cons); [|apply (f_equal2 cons); [|done]].
  - apply (Qc_eq_by_factor _ _ _ (x1 / ((x2 - x1) * (x3 - x1))) Z).
    field. nonzero.
  - apply (Qc_eq_by_factor _ _ _ (- (1 / ((x2 - x1) * (x3 - x1)))) Z).
    field. nonzero.
Qed.

Lemma line_equation_common_end (p q r : point) :
  CartesianCoordinate.x p <> CartesianCoordinate.x r ->
  CartesianCoordinate.x q <> CartesianCoordinate.x r ->
  Triangle.normal_z (Triangle.make p q r) = 0 ->
  Line2D.get_line_equation (Line2D.make p r) =
  Line2D.get_line_equation (Line2D.make q r).
Proof.
  destruct p as [x1 y1 z1], q as [x2 y2 z2], r as [x3 y3 z3].
  unfold_plane. intros N13 N23 Z.
  unfold Line2D.get_line_equation. simpl.
  rewrite !bool_decide_eq_false_2 by (rewrite Qc_sub_eq_0; congruence).
  unfold Poly.scale, Poly.X, Poly.const. simpl.
  f_equal. apply (f_equal2 cons); [|apply (f_equal2 cons); [|done]].
  - apply (Qc_eq_by_factor _ _ _ (x3 / ((x3 - x1) * (x3 - x2))) Z).
    field. nonzero.
  - apply (Qc_eq_by_factor _ _ _ (- (1 / ((x3 - x1) * (x3 - x2)))) Z).
    field. nonzero.
Qed.

(** Under [zoo] both regions are integrals between equal limits, or have
    a vertical bounding line. *)
Lemma regions_zoo (numerator : poly2) (zo : Qc) sA sB sC :
  Triangle.normal_z (Triangle.make sA sB sC) = 0 ->
  Triangle.volume1 (ZooExpr numerator zo) sA sB sC = Finite 0 /\
  Triangle.volume2 (ZooExpr numerator zo) sA sB sC = Finite 0.
Proof.
  intros Z. unfold Triangle.volume1, Triangle.volume2. split.
  - destruct (decide (CartesianCoordinate.x sA = CartesianCoordinate.x sC))
      as [E13|N13].
    { by rewrite (line_equation_vertical (Line2D.make sA sC)). }
    destruct (decide (CartesianCoordinate.x sA = CartesianCoordinate.x sB))
      as [E12|N12].
    { rewrite (line_equation_vertical (Line2D.make sA sB)) by done.
      apply double_integral_vertical. }
    rewrite (line_equation_common_start sA sB sC N12 N13 Z).
    destruct (line_equation_is_Some sA sC N13) as [f ->]. simpl.
    by rewrite bool_decide_eq_true_2.
  - destruct (decide (CartesianCoordinate.x sA = CartesianCoordinate.x sC))
      as [E13|N13].
    { by rewrite (line_equation_vertical (Line2D.make sA sC)). }
    destruct (decide (CartesianCoordinate.x sB = CartesianCoordinate.x sC))
      as [E23|N23].
    { rewrite (line_equation_vertical (Line2D.make sB sC)) by done.
      apply double_integral_vertical. }
    rewrite (line_equation_common_end sA sB sC N13 N23 Z).
    destruct (line_equation_is_Some sB sC N23) as [f ->]. simpl.
    by rewrite bool_decide_eq_true_2.
Qed.

(** The value of [get_volume] on a triangle with [c = 0] whose normal
    vector is not zero: both regions are 0. *)
Lemma get_volume_degenerate t :
  Triangle.normal_z t = 0 ->
  ~ ((Triangle.normal_vector t).1.1 = 0 /\
     (Triangle.normal_vector t).1.2 = 0) ->
  Triangle.get_volume t = Finite 0.
Proof.
  intros Z Nab. pose proof (plane_equation_degenerate t Z) as Hp.
  rewrite bool_decide_eq_false_2 in Hp by done.
  destruct t as [A B C]. simpl in *.
  destruct (list_sort_three A B C) as (sA & sB & sC & E & Hs & H1 & H2).
  rewrite (get_volume_sorted (Triangle.make A B C) sA sB sC E), Hp.
  assert (Triangle.normal_z (Triangle.make sA sB sC) = 0) as Zs
    by (by apply (normal_vector_perm A B C sA sB sC)).
  unfold Triangle.regions.
  destruct (regions_zoo (Triangle.plane_numerator (Triangle.make A B C))
              (CartesianCoordinate.z A) sA sB sC Zs) as [-> ->].
  simpl. f_equal.
Qed.

(** When the normal vector is zero the plane is [nan]: a region with a
    vertical bounding line is 0, any other is non-finite. *)
Lemma get_volume_nan t :
  Triangle.normal_z t = 0 ->
  (Triangle.normal_vector t).1.1 = 0 /\ (Triangle.normal_vector t).1.2 = 0 ->
  Triangle.get_volume t =
    if bool_decide
         (CartesianCoordinate.x (Triangle.point_A t) =
          CartesianCoordinate.x (Triangle.point_B t) /\
          CartesianCoordinate.x (Triangle.point_B t) =
          CartesianCoordinate.x (Triangle.point_C t))
    then Finite 0 else NotFinite.
Proof.
  intros Z Zab. pose proof (plane_equation_degenerate t Z) as Hp.
  rewrite bool_decide_eq_true_2 in Hp by done.
  destruct t as [A B C]. simpl in *.
  destruct (list_sort_three A B C) as (sA & sB & sC & E & Hs & H1 & H2).
  rewrite (get_volume_sorted (Triangle.make A B C) sA sB sC E), Hp.
  assert ((CartesianCoordinate.x A = CartesianCoordinate.x B /\
           CartesianCoordinate.x B = CartesianCoordinate.x C) <->
          (CartesianCoordinate.x sA = CartesianCoordinate.x sB /\
           CartesianCoordinate.x sB = CartesianCoordinate.x sC)) as Hiff.
  { apply perm_three in Hs.
    destruct Hs as [X|[X|[X|[X|[X|X]]]]]; inversion X; subst; clear X;
      split; intros [-> ->]; done. }
  unfold Triangle.regions, Triangle.volume1, Triangle.volume2.
  case_bool_decide as Hall.
  - apply Hiff in Hall as [E1 E2].
    rewrite (line_equation_vertical (Line2D.make sA sB)) by done.
    rewrite (line_equation_vertical (Line2D.make sB sC)) by done.
    rewrite !double_integral_vertical. simpl. f_equal.
  - destruct (decide (CartesianCoordinate.x sA = CartesianCoordinate.x sB))
      as [E1|N1].
    + assert (CartesianCoordinate.x sB <> CartesianCoordinate.x sC) as N2
        by (intros E2; apply Hall, Hiff; done).
      assert (CartesianCoordinate.x sA <> CartesianCoordinate.x sC) as N3
        by congruence.
      destruct (line_equation_is_Some sB sC N2) as [f2 ->].
      destruct (line_equation_is_Some sA sC N3) as [f3 ->].
      simpl. by destruct (Number.abs _).
    + assert (CartesianCoordinate.x sA <> CartesianCoordinate.x sC) as N3.
      { intros E3. apply N1. apply Qcle_antisym; [done|]. by rewrite E3. }
      destruct (line_equation_is_Some sA sB N1) as [f1 ->].
      destruct (line_equation_is_Some sA sC N3) as [f3 ->].
      done.
Qed.

End Triangles.

(** The facet of area 4 and mean elevation 6 encloses the volume 24,
    whichever vertex comes first. *)
Example facet_volume_24 : Triangle.get_volume facet = Finite (Qz 24).
Proof. by_evaluation. Qed.

Example facet_volume_24_rotated :
  Triangle.get_volume (Triangle.make facet_C facet_A facet_B) = Finite (Qz 24).
Proof. by_evaluation. Qed.

(** *** The two regions in closed form *)

Lemma Qc_of_nat_1 : Qc_of_nat 1 = 1.
Proof. apply Qc_is_canon. reflexivity. Qed.

Lemma Qc_of_nat_2 : Qc_of_nat 2 = 2.
Proof. apply Qc_is_canon. reflexivity. Qed.

Lemma Qc_of_nat_3 : Qc_of_nat 3 = 2 + 1.
Proof. apply Qc_is_canon. reflexivity. Qed.

(** [integrate] on a plane and two lines, all given by their
    coefficients. *)
Lemma integrate_affine (p0 p1 p2 k1 m1 k2 m2 a b : Qc) :
  Poly.integrate [[p0; p1]; [p2]] [k1; m1] [k2; m2] a b =
  (p0 * (k2 - k1) + p2 * (k2 * k2 - k1 * k1) / 2) * (b - a) +
  (p0 * (m2 - m1) + p1 * (k2 - k1) + p2 * (k2 * m2 - k1 * m1)) *
    (b * b - a * a) / 2 +
  (p1 * (m2 - m1) + p2 * (m2 * m2 - m1 * m1) / 2) *
    (b * b * b - a * a * a) / (2 + 1).
Proof.
  unfold Poly.integrate, Poly.definite, Poly.integ, Poly.integ_y, Poly.sub.
  simpl. unfold Poly.scale, Poly.opp. simpl.
  rewrite ?Qc_of_nat_1, ?Qc_of_nat_2, ?Qc_of_nat_3.
  field. nonzero.
Qed.

Section ClosedForm.
Variables x1 y1 z1 x2 y2 z2 x3 y3 z3 : Qc.
Let sA := Point x1 y1 z1.
Let sB := Point x2 y2 z2.
Let sC := Point x3 y3 z3.
Hypothesis N13 : x1 <> x3.
Hypothesis Nc : Triangle.normal_z (Triangle.make sA sB sC) <> 0.

Lemma volume1_closed :
  Triangle.volume1 (Triangle.get_plane_equation (Triangle.make sA sB sC))
    sA sB sC =
  Finite (- Triangle.normal_z (Triangle.make sA sB sC) *
          region1_factor x1 x2 x3 z1 z2 z3).
Proof.
  subst sA sB sC.
  unfold Triangle.volume1, Line2D.get_line_equation. simpl.
  unfold_plane. rewrite (bool_decide_eq_false_2 (_ = 0)) by exact Nc.
  rewrite (bool_decide_eq_false_2 (x3 - x1 = 0))
    by (rewrite Qc_sub_eq_0; congruence).
  case_bool_decide as E12.
  - rewrite Qc_sub_eq_0 in E12. subst x2. simpl. f_equal.
    unfold region1_factor. field. nonzero.
  - unfold Triangle.compute_double_integral. unfold_poly2.
    rewrite integrate_affine. f_equal. unfold region1_factor.
    field. nonzero.
Qed.

Lemma volume2_closed :
  Triangle.volume2 (Triangle.get_plane_equation (Triangle.make sA sB sC))
    sA sB sC =
  Finite (- Triangle.normal_z (Triangle.make sA sB sC) *
          region2_factor x1 x2 x3 z1 z2 z3).
Proof.
  subst sA sB sC.
  unfold Triangle.volume2, Line2D.get_line_equation. simpl.
  unfold_plane. rewrite (bool_decide_eq_false_2 (_ = 0)) by exact Nc.
  rewrite (bool_decide_eq_false_2 (x3 - x1 = 0))
    by (rewrite Qc_sub_eq_0; congruence).
  case_bool_decide as E23.
  - rewrite Qc_sub_eq_0 in E23. subst x3. simpl. f_equal.
    unfold region2_factor. field. nonzero.
  - unfold Triangle.compute_double_integral. unfold_poly2.
    rewrite integrate_affine. f_equal. unfold region2_factor.
    field. nonzero.
Qed.

Lemma region_factors_sum :
  region1_factor x1 x2 x3 z1 z2 z3 + region2_factor x1 x2 x3 z1 z2 z3 =
  (z1 + z2 + z3) / (2 * (2 + 1)).
Proof. unfold region1_factor, region2_factor. field. nonzero. Qed.

End ClosedForm.

Lemma normal_z_perm_abs (A B C A' B' C' : point) :
  [A; B; C] ≡ₚ [A'; B'; C'] ->
  Qcabs.Qcabs (Triangle.normal_z (Triangle.make A' B' C')) =
  Qcabs.Qcabs (Triangle.normal_z (Triangle.make A B C)).
Proof.
  intros Hp. apply perm_three in Hp.
  destruct A as [xa ya za], B as [xb yb zb], C as [xc yc zc].
  destruct Hp as [E|[E|[E|[E|[E|E]]]]]; inversion E; subst; clear E;
    unfold_plane; try reflexivity;
    first [ f_equal; ring
          | rewrite <- Qcabs.Qcabs_opp; f_equal; ring ].
Qed.

Lemma elevation_sum_perm (A B C A' B' C' : point) :
  [A; B; C] ≡ₚ [A'; B'; C'] ->
  CartesianCoordinate.z A' + CartesianCoordinate.z B' + CartesianCoordinate.z C' =
  CartesianCoordinate.z A + CartesianCoordinate.z B + CartesianCoordinate.z C.
Proof.
  intros Hp. apply perm_three in Hp.
  destruct Hp as [E|[E|[E|[E|[E|E]]]]]; inversion E; subst; ring.
Qed.

Lemma normal_z_upright (sA sB sC : point) :
  CartesianCoordinate.x sA <= CartesianCoordinate.x sB ->
  CartesianCoordinate.x sB <= CartesianCoordinate.x sC ->
  CartesianCoordinate.x sA = CartesianCoordinate.x sC ->
  Triangle.normal_z (Triangle.make sA sB sC) = 0.
Proof.
  intros H1 H2 E.
  assert (CartesianCoordinate.x sA = CartesianCoordinate.x sB) as E1
    by (apply Qcle_antisym; [done|by rewrite E]).
  destruct sA as [xa ya za], sB as [xb yb zb], sC as [xc yc zc].
  simpl in *. subst. unfold_plane. ring.
Qed.

(** [get_volume] on a triangle whose footprint is not flat: the area of
    the footprint times the sum of the absolute region factors. *)
Lemma get_volume_closed (t : Triangle.t) :
  Triangle.normal_z t <> 0 ->
  exists sA sB sC : point,
    [sA; sB; sC] ≡ₚ
      [Triangle.point_A t; Triangle.point_B t; Triangle.point_C t] /\
    CartesianCoordinate.x sA <= CartesianCoordinate.x sB /\
    CartesianCoordinate.x sB <= CartesianCoordinate.x sC /\
    CartesianCoordinate.x sA <> CartesianCoordinate.x sC /\
    Triangle.get_volume t =
    Finite (Qcabs.Qcabs (Triangle.normal_z t) *
            (Qcabs.Qcabs
               (region1_factor
                  (CartesianCoordinate.x sA) (CartesianCoordinate.x sB)
                  (CartesianCoordinate.x sC) (CartesianCoordinate.z sA)
                  (CartesianCoordinate.z sB) (CartesianCoordinate.z sC)) +
             Qcabs.Qcabs
               (region2_factor
                  (CartesianCoordinate.x sA) (CartesianCoordinate.x sB)
                  (CartesianCoordinate.x sC) (CartesianCoordinate.z sA)
                  (CartesianCoordinate.z sB) (CartesianCoordinate.z sC)))).
Proof.
  intros N. destruct t as [A B C].
  destruct (list_sort_three A B C) as (sA & sB & sC & E & Hs & H1 & H2).
  exists sA, sB, sC. simpl.
  pose proof (normal_z_perm_abs _ _ _ _ _ _ Hs) as Habs.
  assert (Triangle.normal_z (Triangle.make sA sB sC) <> 0) as Nc.
  { intros Z. apply N. apply Qcabs.Qcabs_null. rewrite Habs, Z.
    apply Qcabs.Qcabs_pos, Qcle_refl. }
  assert (CartesianCoordinate.x sA <> CartesianCoordinate.x sC) as N13.
  { intros E13. apply Nc. by apply normal_z_upright. }
  split; [done|]. split; [done|]. split; [done|]. split; [done|].
  rewrite (get_volume_sorted (Triangle.make A B C) sA sB sC E).
  rewrite (plane_equation_perm sA sB sC A B C Nc Hs).
  unfold Triangle.regions.
  destruct sA as [x1 y1 z1], sB as [x2 y2 z2], sC as [x3 y3 z3].
  simpl in N13.
  rewrite (volume1_closed x1 y1 z1 x2 y2 z2 x3 y3 z3 N13 Nc).
  rewrite (volume2_closed x1 y1 z1 x2 y2 z2 x3 y3 z3 N13 Nc).
  simpl. f_equal.
  rewrite !Qcabs.Qcabs_Qcmult, !Qcabs.Qcabs_opp, <- Habs. ring.
Qed.



(** C5 (amended): over exact numbers [get_volume] returns the same value
    whatever the order in which the three points are given to the
    constructor. *)
Theorem get_volume_permutation (A B C A' B' C' : point) :
  [A; B; C] ≡ₚ [A'; B'; C'] ->
  Triangle.get_volume (Triangle.make A' B' C') =
  Triangle.get_volume (Triangle.make A B C).
Proof.
  intros Hp.
  destruct (normal_vector_perm A B C A' B' C' Hp) as (Ha & Hb & Hc).
  assert (Triangle.get_plane_equation (Triangle.make A' B' C') =
          Triangle.get_plane_equation (Triangle.make A B C) \/
          (Triangle.get_volume (Triangle.make A' B' C') = Finite 0 /\
           Triangle.get_volume (Triangle.make A B C) = Finite 0))
    as [Hplane|[-> ->]]; [|shelve|done].
  { destruct (decide (Triangle.normal_z (Triangle.make A B C) = 0)) as [Z|N].
    - destruct (decide
                  ((Triangle.normal_vector (Triangle.make A B C)).1.1 = 0 /\
                   (Triangle.normal_vector (Triangle.make A B C)).1.2 = 0))
        as [Zab|Nab].
      + left. rewrite !plane_equation_degenerate by tauto.
        by rewrite !bool_decide_eq_true_2 by tauto.
      + right. split; apply get_volume_degenerate; tauto.
    - left. by apply plane_equation_perm. }
  Unshelve.
  destruct (list_sort_three A B C) as (sA & sB & sC & E & Hs & H1 & H2).
  destruct (list_sort_three A' B' C')
    as (sA' & sB' & sC' & E' & Hs' & H1' & H2').
  rewrite (get_volume_sorted (Triangle.make A B C) sA sB sC) by done.
  rewrite (get_volume_sorted (Triangle.make A' B' C') sA' sB' sC') by done.
  rewrite Hplane.
  apply regions_perm; try done.
  by rewrite Hs, Hs'.
Qed.

Lemma get_volume_permutation_witness :
  [facet_A; facet_B; facet_C] ≡ₚ [facet_C; facet_A; facet_B] /\
  Triangle.get_volume (Triangle.make facet_C facet_A facet_B) =
  Triangle.get_volume (Triangle.make facet_A facet_B facet_C).
Proof.
  assert ([facet_A; facet_B; facet_C] ≡ₚ [facet_C; facet_A; facet_B]) as Hp
    by (apply (bool_decide_unpack _); vm_compute; exact I).
  split; [exact Hp|].
  apply (get_volume_permutation facet_A facet_B facet_C
           facet_C facet_A facet_B Hp).
Defined.

(** C5 fails as stated: on floats the value depends on the order of the
    points.  The footprints of the three points lie on one line.  Given
    as (A, B, C), [np.cross] returns a normal vector whose z-component is
    exactly 0: the plane equation is [zoo] times its numerator, the lines
    AB and AC have the slopes 0.9999999999999998 and 0.9999999999999999
    and are two expressions, and the value is not finite.  Given as
    (B, C, A), the rounding leaves the z-component -2^-56: the plane
    equation is finite and the value is a number. *)
Lemma binary64_volume_depends_on_order :
  Binary64.eqb
    (Binary64.Triangle.normal_z
       (Binary64.Triangle.make float_facet_A float_facet_B float_facet_C))
    Binary64.zero = true /\
  Binary64.Triangle.normal_z
    (Binary64.Triangle.make float_facet_B float_facet_C float_facet_A) =
    S754_finite true 4503599627370496 (-108) /\
  Binary64.Line2D.get_line_equation float_facet_A float_facet_B =
    Some (S754_finite false 9007199254740990 (-53),
          S754_finite false 7205759403792794 (-55)) /\
  Binary64.Line2D.get_line_equation float_facet_A float_facet_C =
    Some (S754_finite false 9007199254740991 (-53),
          S754_finite false 7205759403792794 (-55)) /\
  @Binary64.Triangle.get_volume Binary64.exact_integrate
    (Binary64.Triangle.make float_facet_A float_facet_B float_facet_C) =
    NotFinite /\
  exists q,
    @Binary64.Triangle.get_volume Binary64.exact_integrate
      (Binary64.Triangle.make float_facet_B float_facet_C float_facet_A) =
      Finite q.
Proof.
  split; [vm_compute; reflexivity|]. split; [vm_compute; reflexivity|].
  split; [vm_compute; reflexivity|]. split; [vm_compute; reflexivity|].
  split; [vm_compute; reflexivity|].
  destruct (@Binary64.Triangle.get_volume Binary64.exact_integrate
              (Binary64.Triangle.make float_facet_B float_facet_C
                 float_facet_A)) as [q|] eqn:E; [by exists q|].
  exfalso. revert E. vm_compute. discriminate.
Qed.

(** The integrator plays no part in this: whatever number sympy
    returns for a finite integrand, the first order gives a value that is
    not finite and the second one a number. *)
Lemma binary64_volume_any_integrator (I : Binary64.FloatIntegrate) :
  Binary64.Triangle.get_volume
    (Binary64.Triangle.make float_facet_A float_facet_B float_facet_C) =
    NotFinite /\
  exists q,
    Binary64.Triangle.get_volume
      (Binary64.Triangle.make float_facet_B float_facet_C float_facet_A) =
      Finite q.
Proof.
  split; [vm_compute; reflexivity|].
  destruct (Binary64.Triangle.get_volume
              (Binary64.Triangle.make float_facet_B float_facet_C
                 float_facet_A)) as [q|] eqn:E; [by exists q|].
  exfalso. revert E. unfold Binary64.Triangle.get_volume.
  replace (Binary64.Triangle.get_plane_equation
             (Binary64.Triangle.make float_facet_B float_facet_C
                float_facet_A))
    with (Binary64.Triangle.FinitePlane
            (S754_finite true 7205759403792792 (-56))
            (S754_finite false 7205759403792800 (-56))
            (S754_finite true 4503599627370496 (-108))
            (Binary64.x float_facet_B) (Binary64.y float_facet_B)
            (Binary64.z float_facet_B))
    by (vm_compute; reflexivity).
  replace (Binary64.Triangle.list_sort
             [Binary64.Triangle.point_A
                (Binary64.Triangle.make float_facet_B float_facet_C
                   float_facet_A);
              Binary64.Triangle.point_B
                (Binary64.Triangle.make float_facet_B float_facet_C
                   float_facet_A);
              Binary64.Triangle.point_C
                (Binary64.Triangle.make float_facet_B float_facet_C
                   float_facet_A)])
    with [float_facet_A; float_facet_B; float_facet_C]
    by (vm_compute; reflexivity).
  cbv zeta.
  destruct (Binary64.Line2D.get_line_equation float_facet_A float_facet_B)
    as [lineAB|] eqn:EAB; [|revert EAB; vm_compute; discriminate].
  destruct (Binary64.Line2D.get_line_equation float_facet_B float_facet_C)
    as [lineBC|] eqn:EBC; [|revert EBC; vm_compute; discriminate].
  destruct (Binary64.Line2D.get_line_equation float_facet_A float_facet_C)
    as [lineAC|] eqn:EAC; [|revert EAC; vm_compute; discriminate].
  discriminate.
Qed.

(** ** TriangularMesh: running the methods *)

Lemma with_events_nil (st : state) : with_events st [] = st.
Proof. destruct st. unfold with_events. simpl. by rewrite app_nil_r. Qed.

Lemma loc_set_z_lt (ref_level : Qc) (df : DataFrame.t) :
  DataFrame.loc_set_z df (DataFrame.z_lt df ref_level) ref_level =
  raised_to ref_level df.
Proof. induction df as [|r df IH]; simpl; [done|]. by rewrite IH. Qed.

Lemma loc_set_z_ge (ref_level : Qc) (df : DataFrame.t) :
  DataFrame.loc_set_z df (DataFrame.z_ge df ref_level) ref_level =
  lowered_to ref_level df.
Proof. induction df as [|r df IH]; simpl; [done|]. by rewrite IH. Qed.

Lemma flat_volume_calls_app (r : Qc) (evs evs' : list event) :
  flat_volume_calls r (evs ++ evs') =
  (flat_volume_calls r evs + flat_volume_calls r evs')%nat.
Proof. unfold flat_volume_calls. by rewrite filter_app, length_app. Qed.

Lemma flat_volume_calls_progress (r : Qc) (evs : list event) :
  forallb is_progress evs = true -> flat_volume_calls r evs = 0%nat.
Proof.
  unfold flat_volume_calls. induction evs as [|e evs IH]; [done|].
  simpl. intros [He Hevs]%andb_prop. rewrite filter_cons.
  destruct e; [|done]. rewrite decide_False by done. by apply IH.
Qed.

Lemma flat_volume_calls_one (r ref_level : Qc) :
  flat_volume_calls r [flat_volume_call ref_level] =
  if bool_decide (r = ref_level) then 1%nat else 0%nat.
Proof.
  unfold flat_volume_calls. rewrite filter_cons, filter_nil.
  case_bool_decide as E.
  - subst. by rewrite decide_True.
  - rewrite decide_False; [done|]. by intros [= ->].
Qed.

Lemma flat_volume_calls_mark (r ref_level : Qc) (evs1 evs2 evs3 : list event) :
  forallb is_progress evs2 = true ->
  forallb is_progress evs3 = true ->
  flat_volume_calls r ((evs1 ++ flat_volume_call ref_level :: evs2) ++ evs3) =
  (flat_volume_calls r evs1 + if bool_decide (r = ref_level) then 1 else 0)%nat.
Proof.
  intros H2 H3.
  change (flat_volume_call ref_level :: evs2)
    with ([flat_volume_call ref_level] ++ evs2).
  rewrite !flat_volume_calls_app, flat_volume_calls_one.
  rewrite (flat_volume_calls_progress r evs2 H2).
  rewrite (flat_volume_calls_progress r evs3 H3). lia.
Qed.

Lemma fresh_frame (st : state) : frames st !! fresh (dom (frames st)) = None.
Proof. apply not_elem_of_dom. apply is_fresh. Qed.

Section Running.
Context {T : Triangulation}.

Lemma iloc_run (id i : nat) (st : state) (df : DataFrame.t) :
  frames st !! id = Some df ->
  iloc id i st =
    (match df !! i with Some r => Returned r | None => Raised IndexError end,
     st).
Proof.
  intros H. unfold iloc, bind, read. rewrite H.
  by destruct (df !! i).
Qed.

(** One turn of the loop on a facet whose three rows exist. *)
Lemma facets_loop_step (id : nat) (df : DataFrame.t) (n : nat)
    (iA iB iC : nat) (A B C : DataFrame.row) (data : list simplex)
    (acc : number) (it : nat) (st : state) :
  frames st !! id = Some df ->
  df !! iA = Some A -> df !! iB = Some B -> df !! iC = Some C ->
  facets_loop id n ((iA, iB, iC) :: data) acc it st =
  facets_loop id n data
    (Number.add acc
       (Triangle.get_volume
          (Triangle.make (row_point A) (row_point B) (row_point C))))
    (S it) (with_events st [print_progress (S it) n]).
Proof.
  intros H HA HB HC. simpl.
  unfold bind at 1. rewrite (iloc_run _ _ _ _ H), HA.
  unfold bind at 1. rewrite (iloc_run _ _ _ _ H), HB.
  unfold bind at 1. rewrite (iloc_run _ _ _ _ H), HC.
  reflexivity.
Qed.

Lemma facets_loop_run (id : nat) (df : DataFrame.t) (n : nat)
    (data : list simplex) (acc : number) (it : nat) (st : state) :
  frames st !! id = Some df ->
  exists evs,
    forallb is_progress evs = true /\
    facets_loop id n data acc it st =
      (facets_volume df data acc, with_events st evs).
Proof.
  revert acc it st. induction data as [|[[iA iB] iC] data IH];
    intros acc it st H.
  - exists []. by rewrite with_events_nil.
  - destruct (df !! iA) as [A|] eqn:HA; cycle 1.
    { exists []. rewrite with_events_nil. simpl.
      unfold bind at 1. by rewrite (iloc_run _ _ _ _ H), HA. }
    destruct (df !! iB) as [B|] eqn:HB; cycle 1.
    { exists []. rewrite with_events_nil. simpl.
      unfold bind at 1. rewrite (iloc_run _ _ _ _ H), HA.
      unfold bind at 1. by rewrite (iloc_run _ _ _ _ H), HB. }
    destruct (df !! iC) as [C|] eqn:HC; cycle 1.
    { exists []. rewrite with_events_nil. simpl.
      unfold bind at 1. rewrite (iloc_run _ _ _ _ H), HA.
      unfold bind at 1. rewrite (iloc_run _ _ _ _ H), HB.
      unfold bind at 1. by rewrite (iloc_run _ _ _ _ H), HC. }
    rewrite (facets_loop_step id df n iA iB iC A B C) by done.
    match goal with
    | |- context [facets_loop id n data ?a ?i ?s] =>
        destruct (IH a i s) as (evs & Hev & ->); [done|]
    end.
    exists (print_progress (S it) n :: evs). split; [done|].
    simpl. rewrite HA, HB, HC. simpl.
    unfold with_events. simpl. by rewrite <- app_assoc.
Qed.

(** [get_volume] returns [cloud_volume] of the rows it works on and adds
    nothing but progress reports to the state. *)
Lemma get_volume_run (data_points : pyvalue) (st : state) :
  exists evs,
    forallb is_progress evs = true /\
    get_volume data_points st =
      (match frames st !! target data_points st with
       | Some df => cloud_volume df
       | None => Raised UnboundReference
       end,
       with_events st evs).
Proof.
  unfold get_volume.
  assert ((match data_points with
           | PyDataFrame id => ret id
           | _ => self_point_cloud
           end) st = (Returned (target data_points st), st)) as Ht
    by (by destruct data_points).
  unfold bind at 1. rewrite Ht.
  unfold bind at 1, read.
  destruct (frames st !! target data_points st) as [df|] eqn:Hdf;
    [|exists []; by rewrite with_events_nil].
  unfold bind at 1, lift, cloud_volume.
  destruct (Delaunay_simplices (DataFrame.xy df)) as [data|e]; simpl;
    [|exists []; by rewrite with_events_nil].
  apply facets_loop_run. done.
Qed.

Lemma _get_flat_volume_run (ref_level : Qc) (st : state) (cloud : DataFrame.t) :
  frames st !! point_cloud st = Some cloud ->
  exists evs,
    forallb is_progress evs = true /\
    _get_flat_volume ref_level st =
      let id := fresh (dom (frames st)) in
      let frames' := <[id := flattened_to ref_level cloud]> (frames st) in
      let events' := events st ++ flat_volume_call ref_level :: evs in
      match cloud_volume (flattened_to ref_level cloud) with
      | Returned v =>
          (Returned tt,
           State frames' (point_cloud st)
                 (<[ref_level := v]> (_flat_volume st)) events')
      | Raised e =>
          (Raised e, State frames' (point_cloud st) (_flat_volume st) events')
      end.
Proof.
  intros H. unfold _get_flat_volume.
  unfold bind at 1, emit. unfold bind at 1, self_point_cloud. simpl.
  unfold bind at 1, copy_deep. simpl. rewrite H.
  unfold bind at 1, read. simpl. rewrite lookup_insert_eq.
  unfold bind at 1, write. simpl. rewrite lookup_insert_eq.
  rewrite insert_insert_eq.
  unfold bind at 1.
  match goal with
  | |- context [get_volume ?a ?s] =>
      destruct (get_volume_run a s) as (evs & Hev & ->)
  end.
  simpl. rewrite lookup_insert_eq.
  exists evs. split; [done|].
  change (DataFrame.set_z cloud ref_level) with (flattened_to ref_level cloud).
  destruct (cloud_volume (flattened_to ref_level cloud)) as [v|e];
    unfold with_events, flat_volume_store; simpl; by rewrite <- app_assoc.
Qed.

Lemma get_cut_volume_clip (ref_level : Qc) :
  get_cut_volume ref_level =
  clip_query
    (fun df => DataFrame.loc_set_z df (DataFrame.z_lt df ref_level) ref_level)
    (fun v flat_volume => Number.sub v flat_volume) ref_level.
Proof. reflexivity. Qed.

Lemma get_fill_volume_clip (ref_level : Qc) :
  ref_level <> 0 ->
  get_fill_volume ref_level =
  clip_query
    (fun df => DataFrame.loc_set_z df (DataFrame.z_ge df ref_level) ref_level)
    (fun v flat_volume => Number.sub flat_volume v) ref_level.
Proof.
  intros N. unfold get_fill_volume. by rewrite bool_decide_eq_false_2.
Qed.

Lemma clip_query_unbound g combine (ref_level : Qc) (st : state) :
  frames st !! point_cloud st = None ->
  clip_query g combine ref_level st = (Raised UnboundReference, st).
Proof.
  intros H. unfold clip_query.
  unfold bind at 1, self_point_cloud. unfold bind at 1, copy_deep.
  by rewrite H.
Qed.

Lemma clip_query_run g combine (ref_level : Qc) (st : state)
    (cloud : DataFrame.t) :
  frames st !! point_cloud st = Some cloud ->
  exists st',
    clip_query g combine ref_level st =
      (Outcome.bind (flat_surface_volume (_flat_volume st) ref_level cloud)
         (fun flat_volume =>
            Outcome.bind (cloud_volume (g cloud))
              (fun v => Returned (combine v flat_volume))),
       st') /\
    query_effect ref_level cloud st st'.
Proof.
  intros H. unfold clip_query.
  unfold bind at 1, self_point_cloud. unfold bind at 1, copy_deep.
  rewrite H.
  set (id1 := fresh (dom (frames st))).
  assert (frames st !! id1 = None) as Hid1 by apply fresh_frame.
  assert (point_cloud st <> id1) as Hne by congruence.
  assert (forall id, id ∈ dom (frames st) -> id1 <> id) as Hold1.
  { intros id [? Hid]%elem_of_dom <-. congruence. }
  unfold bind at 1, read. simpl. rewrite lookup_insert_eq.
  unfold bind at 1, write. simpl. rewrite lookup_insert_eq, insert_insert_eq.
  unfold bind at 1, self_flat_volume. simpl.
  unfold flat_surface_volume.
  destruct (_flat_volume st !! ref_level) as [fv|] eqn:Hc.
  - (* cache hit *)
    rewrite bool_decide_eq_false_2
      by (intros Hn; apply Hn, elem_of_dom; eauto).
    unfold bind at 1, ret. unfold bind at 1, flat_volume_lookup.
    unfold bind at 1, self_flat_volume. simpl. rewrite Hc.
    unfold bind at 1, ret.
    match goal with
    | |- context [get_volume ?a ?s] =>
        destruct (get_volume_run a s) as (evs & Hev & ->)
    end.
    simpl. rewrite lookup_insert_eq.
    eexists. split.
    { destruct (cloud_volume (g cloud)); reflexivity. }
    repeat split; simpl.
    + intros id Hid. rewrite lookup_insert_ne; [done|by apply Hold1].
    + by rewrite Hc.
    + intros r. rewrite flat_volume_calls_app.
      rewrite (flat_volume_calls_progress r evs Hev).
      rewrite bool_decide_eq_false_2; [done|]. intros [_ ?]. congruence.
  - (* cache miss *)
    rewrite bool_decide_eq_true_2 by (by apply not_elem_of_dom).
    unfold bind at 1.
    match goal with
    | |- context [_get_flat_volume ?r ?s] =>
        destruct (_get_flat_volume_run r s cloud) as (evs1 & Hev1 & ->)
    end.
    { simpl. by rewrite lookup_insert_ne. }
    cbv zeta. simpl.
    set (id2 := fresh (dom (<[id1 := g cloud]> (frames st)))).
    assert (id2 ∉ dom (<[id1 := g cloud]> (frames st))) as Hid2
      by apply is_fresh.
    rewrite dom_insert, not_elem_of_union, not_elem_of_singleton in Hid2.
    destruct Hid2 as [Hne2 Hold2].
    assert (forall id, id ∈ dom (frames st) -> id2 <> id) as Hold.
    { intros id Hid <-. by apply Hold2. }
    assert (forall r,
      (if bool_decide (r = ref_level) then 1 else 0)%nat =
      (if bool_decide (r = ref_level /\ @None number = None) then 1 else 0)%nat)
      as Hmark.
    { intros r. repeat case_bool_decide; try done; tauto. }
    destruct (cloud_volume (flattened_to ref_level cloud)) as [fv|e] eqn:Hflat.
    + unfold bind at 1, flat_volume_lookup.
      unfold bind at 1, self_flat_volume. simpl. rewrite lookup_insert_eq.
      unfold bind at 1, ret.
      match goal with
      | |- context [get_volume ?a ?s] =>
          destruct (get_volume_run a s) as (evs & Hev & ->)
      end.
      simpl. rewrite lookup_insert_ne by done. rewrite lookup_insert_eq.
      eexists. split.
      { destruct (cloud_volume (g cloud)); reflexivity. }
      repeat split; simpl.
      * intros id Hid. rewrite lookup_insert_ne by (by apply Hold).
        rewrite lookup_insert_ne; [done|by apply Hold1].
      * by rewrite Hc, Hflat.
      * intros r. rewrite flat_volume_calls_mark by done.
        by rewrite Hc, Hmark.
    + eexists. split; [reflexivity|].
      repeat split; simpl.
      * intros id Hid. rewrite lookup_insert_ne by (by apply Hold).
        rewrite lookup_insert_ne; [done|by apply Hold1].
      * by rewrite Hc, Hflat.
      * intros r. rewrite <- (app_nil_r (_ ++ _ :: evs1)).
        rewrite flat_volume_calls_mark by done.
        by rewrite Hc, Hmark.
Qed.

End Running.

(** ** TriangularMesh: the queries *)

Section Queries.
Context {T : Triangulation}.

(** C2: [get_cut_volume] returns the volume of the copy of the stored
    cloud in which the points below [ref_level] are raised to it and the
    others are unchanged, minus the flat-surface volume at [ref_level],
    which is computed and cached first when the cache lacks it. *)
Theorem get_cut_volume_spec (ref_level : Qc) (st : state)
    (cloud : DataFrame.t) :
  frames st !! point_cloud st = Some cloud ->
  exists st',
    get_cut_volume ref_level st =
      (Outcome.bind (flat_surface_volume (_flat_volume st) ref_level cloud)
         (fun flat_volume =>
            Outcome.bind (cloud_volume (raised_to ref_level cloud))
              (fun v => Returned (Number.sub v flat_volume))),
       st') /\
    query_effect ref_level cloud st st'.
Proof.
  intros H. rewrite get_cut_volume_clip.
  destruct (clip_query_run
              (fun df => DataFrame.loc_set_z df (DataFrame.z_lt df ref_level)
                           ref_level)
              (fun v flat_volume => Number.sub v flat_volume)
              ref_level st cloud H) as (st' & E & Heff).
  exists st'. split; [|done]. rewrite E. by rewrite loc_set_z_lt.
Qed.

(** C3: [get_fill_volume] at level 0 returns 0 and leaves the state as it
    is; at any other level it returns the flat-surface volume minus the
    volume of the copy in which the points at or above [ref_level] are
    lowered to it. *)
Theorem get_fill_volume_spec (ref_level : Qc) (st : state)
    (cloud : DataFrame.t) :
  frames st !! point_cloud st = Some cloud ->
  (ref_level = 0 ->
   get_fill_volume ref_level st = (Returned (Finite 0), st)) /\
  (ref_level <> 0 ->
   exists st',
     get_fill_volume ref_level st =
       (Outcome.bind (flat_surface_volume (_flat_volume st) ref_level cloud)
          (fun flat_volume =>
             Outcome.bind (cloud_volume (lowered_to ref_level cloud))
               (fun v => Returned (Number.sub flat_volume v))),
        st') /\
     query_effect ref_level cloud st st').
Proof.
  intros H. split.
  - intros ->. reflexivity.
  - intros N. rewrite get_fill_volume_clip by done.
    destruct (clip_query_run
                (fun df => DataFrame.loc_set_z df (DataFrame.z_ge df ref_level)
                             ref_level)
                (fun v flat_volume => Number.sub flat_volume v)
                ref_level st cloud H) as (st' & E & Heff).
    exists st'. split; [|done]. rewrite E. by rewrite loc_set_z_ge.
Qed.

(** C7: an argument that is not a data frame is replaced by the stored
    point cloud: the call behaves as the call on the stored cloud does,
    and its result is the volume of the stored cloud. *)
Theorem get_volume_invalid_argument (data_points : pyvalue) (st : state)
    (cloud : DataFrame.t) :
  ~ is_data_frame data_points ->
  frames st !! point_cloud st = Some cloud ->
  get_volume data_points st = get_volume (PyDataFrame (point_cloud st)) st /\
  (get_volume data_points st).1 = cloud_volume cloud.
Proof.
  intros N H.
  assert (target data_points st = point_cloud st) as Ht
    by (destruct data_points; simpl in *; tauto).
  split.
  - by destruct data_points; simpl in *; try tauto.
  - destruct (get_volume_run data_points st) as (evs & _ & ->).
    simpl. by rewrite Ht, H.
Qed.

(** What the clipping queries leave of the store, the cache and the
    events. *)
Lemma clip_query_effect g combine (ref_level : Qc) (st : state) :
  point_cloud (clip_query g combine ref_level st).2 = point_cloud st /\
  (forall id, id ∈ dom (frames st) ->
     frames (clip_query g combine ref_level st).2 !! id = frames st !! id) /\
  frames (clip_query g combine ref_level st).2 !! point_cloud st =
    frames st !! point_cloud st /\
  dom (_flat_volume st) ⊆
    dom (_flat_volume (clip_query g combine ref_level st).2) /\
  (forall v, (clip_query g combine ref_level st).1 = Returned v ->
     ref_level ∈ dom (_flat_volume (clip_query g combine ref_level st).2)) /\
  forall r,
    flat_volume_calls r (events (clip_query g combine ref_level st).2) =
    (flat_volume_calls r (events st) +
     if bool_decide (r = ref_level /\
                     frames st !! point_cloud st <> None /\
                     _flat_volume st !! ref_level = None)
     then 1 else 0)%nat.
Proof.
  destruct (frames st !! point_cloud st) as [cloud|] eqn:Hpc.
  - destruct (clip_query_run g combine ref_level st cloud Hpc)
      as (st' & E & Hpc' & Hfr & Hcache & Hev).
    rewrite E. simpl.
    split; [done|]. split; [done|].
    split; [rewrite Hfr; [done|apply elem_of_dom; eauto]|].
    split; [|split].
    + rewrite Hcache. destruct (_flat_volume st !! ref_level); [reflexivity|].
      destruct (cloud_volume (flattened_to ref_level cloud)); [|reflexivity].
      rewrite dom_insert. apply union_subseteq_r.
    + intros v Hv. rewrite Hcache. unfold flat_surface_volume in Hv.
      destruct (_flat_volume st !! ref_level) eqn:Hb;
        [apply elem_of_dom; eauto|].
      destruct (cloud_volume (flattened_to ref_level cloud)); [|done].
      rewrite dom_insert. apply elem_of_union_l, elem_of_singleton. done.
    + intros r. rewrite (Hev r). f_equal.
      repeat case_bool_decide; try done; exfalso; intuition congruence.
  - rewrite (clip_query_unbound g combine ref_level st Hpc). simpl.
    split; [done|]. split; [done|]. split; [done|]. split; [reflexivity|].
    split; [done|]. intros r.
    rewrite bool_decide_eq_false_2; [lia|]. intros (_ & N & _). by apply N.
Qed.

(** One query: the stored cloud and the cache entries stay, and
    [_get_flat_volume] is entered at most once, only on a miss, and leaves
    the level cached when the query returns. *)
Lemma run_query_effect (q : query) (st : state) :
  point_cloud (run_query q st).2 = point_cloud st /\
  (forall id, id ∈ dom (frames st) ->
     frames (run_query q st).2 !! id = frames st !! id) /\
  frames (run_query q st).2 !! point_cloud st = frames st !! point_cloud st /\
  dom (_flat_volume st) ⊆ dom (_flat_volume (run_query q st).2) /\
  forall r,
    (flat_volume_calls r (events st) <=
     flat_volume_calls r (events (run_query q st).2))%nat /\
    (flat_volume_calls r (events (run_query q st).2) <=
     flat_volume_calls r (events st) + 1)%nat /\
    (r ∈ dom (_flat_volume st) ->
     flat_volume_calls r (events (run_query q st).2) =
     flat_volume_calls r (events st)) /\
    (flat_volume_calls r (events (run_query q st).2) <>
     flat_volume_calls r (events st) ->
     forall v, (run_query q st).1 = Returned v ->
               r ∈ dom (_flat_volume (run_query q st).2)) /\
    (q = call_get_cut_volume r \/ (q = call_get_fill_volume r /\ r <> 0) ->
     forall v, (run_query q st).1 = Returned v ->
               r ∈ dom (_flat_volume (run_query q st).2)).
Proof.
  assert (forall g combine ref_level,
    point_cloud (clip_query g combine ref_level st).2 = point_cloud st /\
    (forall id, id ∈ dom (frames st) ->
       frames (clip_query g combine ref_level st).2 !! id = frames st !! id) /\
    frames (clip_query g combine ref_level st).2 !! point_cloud st =
      frames st !! point_cloud st /\
    dom (_flat_volume st) ⊆
      dom (_flat_volume (clip_query g combine ref_level st).2) /\
    forall r,
      (flat_volume_calls r (events st) <=
       flat_volume_calls r (events (clip_query g combine ref_level st).2))%nat /\
      (flat_volume_calls r (events (clip_query g combine ref_level st).2) <=
       flat_volume_calls r (events st) + 1)%nat /\
      (r ∈ dom (_flat_volume st) ->
       flat_volume_calls r (events (clip_query g combine ref_level st).2) =
       flat_volume_calls r (events st)) /\
      (flat_volume_calls r (events (clip_query g combine ref_level st).2) <>
       flat_volume_calls r (events st) ->
       forall v, (clip_query g combine ref_level st).1 = Returned v ->
         r ∈ dom (_flat_volume (clip_query g combine ref_level st).2)) /\
      (r = ref_level ->
       forall v, (clip_query g combine ref_level st).1 = Returned v ->
         r ∈ dom (_flat_volume (clip_query g combine ref_level st).2)))
    as Hclip.
  { intros g combine ref_level.
    destruct (clip_query_effect g combine ref_level st)
      as (H1 & H2 & H3 & H4 & H5 & H6).
    split; [done|]. split; [done|]. split; [done|]. split; [done|].
    intros r. rewrite (H6 r).
    case_bool_decide as Hb; (split; [lia|]); (split; [lia|]);
      (split; [|split]).
    - destruct Hb as (-> & _ & Hb). intros [? ?]%elem_of_dom. congruence.
    - intros _ v Hv. destruct Hb as (-> & _). by eapply H5.
    - intros -> v Hv. by eapply H5.
    - intros _. lia.
    - lia.
    - intros -> v Hv. by eapply H5. }
  destruct q as [data_points|ref_level|ref_level]; simpl.
  - destruct (get_volume_run data_points st) as (evs & Hev & ->). simpl.
    split; [done|]. split; [done|]. split; [done|]. split; [reflexivity|].
    intros r. rewrite flat_volume_calls_app.
    rewrite (flat_volume_calls_progress r evs Hev).
    repeat split; try lia. intros [?|[? _]]; done.
  - rewrite get_cut_volume_clip.
    destruct (Hclip
                (fun df => DataFrame.loc_set_z df (DataFrame.z_lt df ref_level)
                             ref_level)
                (fun v flat_volume => Number.sub v flat_volume) ref_level)
      as (H1 & H2 & H3 & H4 & H5).
    split; [done|]. split; [done|]. split; [done|]. split; [done|].
    intros r. destruct (H5 r) as (? & ? & ? & ? & Hc).
    repeat split; try done.
    intros [[= ->]|[? _]]; [|done]. by apply Hc.
  - destruct (decide (ref_level = 0)) as [->|N].
    + change (get_fill_volume 0 st) with (Returned (Finite 0), st). simpl.
      split; [done|]. split; [done|]. split; [done|]. split; [reflexivity|].
      intros r. repeat split; try lia; try done.
      intros [?|[[= ->] ?]]; done.
    + rewrite get_fill_volume_clip by done.
      destruct (Hclip
                  (fun df => DataFrame.loc_set_z df
                               (DataFrame.z_ge df ref_level) ref_level)
                  (fun v flat_volume => Number.sub flat_volume v) ref_level)
        as (H1 & H2 & H3 & H4 & H5).
      split; [done|]. split; [done|]. split; [done|]. split; [done|].
      intros r. destruct (H5 r) as (? & ? & ? & ? & Hc).
      repeat split; try done.
      intros [?|[[= ->] _]]; [done|]. by apply Hc.
Qed.

(** C10: [get_volume], [get_cut_volume] and [get_fill_volume] leave the
    attribute [point_cloud] and the data frame it names as they were, and
    so every data frame that existed before the call: what the queries
    change are copies made during the call. *)
Theorem queries_keep_point_cloud (q : query) (st : state) :
  point_cloud (run_query q st).2 = point_cloud st /\
  frames (run_query q st).2 !! point_cloud (run_query q st).2 =
    frames st !! point_cloud st /\
  forall id, id ∈ dom (frames st) ->
             frames (run_query q st).2 !! id = frames st !! id.
Proof.
  destruct (run_query_effect q st) as (Hpc & Hfr & Hcl & _).
  split; [done|]. split; [by rewrite Hpc|done].
Qed.

Lemma run_queries_cons (q : query) (qs : list query) (st : state) :
  run_queries (q :: qs) st =
    match run_query q st with
    | (Returned v, st1) =>
        match run_queries qs st1 with
        | (Returned vs, st2) => (Returned (v :: vs), st2)
        | (Raised e, st2) => (Raised e, st2)
        end
    | (Raised e, st1) => (Raised e, st1)
    end.
Proof. reflexivity. Qed.



End Queries.

(** ** The queries on a mesh of one facet *)

#[local] Existing Instance three_point_Delaunay.

(** The cloud of [facet_mesh] has the footprint of area 4 and the
    elevations 3, 6, 9: volume 24.  Clipped from below at level 5 the
    elevations are 5, 6, 9 and the flat surface at 5 encloses 20, so the
    cut volume is 80/3 - 20; clipped from above they are 3, 5, 5, so the
    fill volume is 20 - 52/3. *)
Example facet_mesh_volume :
  (get_volume (PyStr "Default") facet_mesh).1 = Returned (Finite (Qz 24)).
Proof. by_evaluation. Qed.

Example facet_mesh_cut_volume :
  (get_cut_volume (Qz 5) facet_mesh).1 = Returned (Finite (Q2Qc (20 # 3))).
Proof. by_evaluation. Qed.

Example facet_mesh_fill_volume :
  (get_fill_volume (Qz 5) facet_mesh).1 = Returned (Finite (Q2Qc (8 # 3))).
Proof. by_evaluation. Qed.

(** The second query at level 5 finds the flat volume in the cache. *)
Example facet_mesh_cut_then_fill :
  flat_volume_calls (Qz 5)
    (events (run_queries [call_get_cut_volume (Qz 5);
                          call_get_fill_volume (Qz 5)] facet_mesh).2) = 1%nat.
Proof. vm_compute. reflexivity. Qed.

Lemma get_cut_volume_spec_witness :
  frames facet_mesh !! point_cloud facet_mesh = Some facet_cloud /\
  exists st',
    get_cut_volume (Qz 5) facet_mesh =
      (Outcome.bind
         (flat_surface_volume (_flat_volume facet_mesh) (Qz 5) facet_cloud)
         (fun flat_volume =>
            Outcome.bind (cloud_volume (raised_to (Qz 5) facet_cloud))
              (fun v => Returned (Number.sub v flat_volume))),
       st') /\
    query_effect (Qz 5) facet_cloud facet_mesh st'.
Proof.
  assert (frames facet_mesh !! point_cloud facet_mesh = Some facet_cloud)
    as H by reflexivity.
  split; [exact H|].
  apply (get_cut_volume_spec (Qz 5) facet_mesh facet_cloud H).
Defined.

Lemma get_fill_volume_spec_witness :
  frames facet_mesh !! point_cloud facet_mesh = Some facet_cloud /\
  (Qz 5 = 0 ->
   get_fill_volume (Qz 5) facet_mesh = (Returned (Finite 0), facet_mesh)) /\
  (Qz 5 <> 0 ->
   exists st',
     get_fill_volume (Qz 5) facet_mesh =
       (Outcome.bind
          (flat_surface_volume (_flat_volume facet_mesh) (Qz 5) facet_cloud)
          (fun flat_volume =>
             Outcome.bind (cloud_volume (lowered_to (Qz 5) facet_cloud))
               (fun v => Returned (Number.sub flat_volume v))),
        st') /\
     query_effect (Qz 5) facet_cloud facet_mesh st').
Proof.
  assert (frames facet_mesh !! point_cloud facet_mesh = Some facet_cloud)
    as H by reflexivity.
  split; [exact H|].
  apply (get_fill_volume_spec (Qz 5) facet_mesh facet_cloud H).
Defined.

Lemma get_volume_invalid_argument_witness :
  ~ is_data_frame (PyStr "Default") /\
  frames facet_mesh !! point_cloud facet_mesh = Some facet_cloud /\
  get_volume (PyStr "Default") facet_mesh =
    get_volume (PyDataFrame (point_cloud facet_mesh)) facet_mesh /\
  (get_volume (PyStr "Default") facet_mesh).1 = cloud_volume facet_cloud.
Proof.
  assert (~ is_data_frame (PyStr "Default")) as N by (simpl; tauto).
  assert (frames facet_mesh !! point_cloud facet_mesh = Some facet_cloud)
    as H by reflexivity.
  split; [exact N|]. split; [exact H|].
  apply (get_volume_invalid_argument (PyStr "Default") facet_mesh
           facet_cloud N H).
Defined.

(** ** Degenerate facets *)

(** The two degenerate triangles: no error, and the value 0.  Under
    [upright] every bounding line is vertical; under [diagonal] the three
    bounding lines are the one expression [x]. *)
Example upright_volume : Triangle.get_volume upright = Finite 0.
Proof. by_evaluation. Qed.

Example diagonal_volume : Triangle.get_volume diagonal = Finite 0.
Proof. by_evaluation. Qed.

(** C4 fails as stated.  The z-component of the normal vector of
    [upright] and of [diagonal] is zero; yet [get_plane_equation] returns
    an expression, [zoo*(5 - 5*x)] for [upright], [get_volume] returns 0,
    and a mesh whose triangulation contains such a facet returns the sum
    over its facets instead of aborting. *)
Lemma degenerate_plane_counterexample :
  Triangle.normal_z upright = 0 /\
  Triangle.get_plane_equation upright =
    ZooExpr [[Qz 5; Qz (-5)]; [Qz 0]] (Qz 0) /\
  Triangle.get_volume upright = Finite 0 /\
  Triangle.normal_z diagonal = 0 /\
  Triangle.get_volume diagonal = Finite 0 /\
  (@get_volume (fixed_facets [(0, 1, 2)%nat]) PyNone upright_mesh).1 =
    Returned (Finite 0) /\
  (@get_volume (fixed_facets [(0, 1, 2)%nat; (0, 1, 3)%nat]) PyNone
     diagonal_mesh).1 = Returned (Finite 1).
Proof. repeat split; by_evaluation. Qed.

(** C4 (amended): on a triangle whose normal vector has a zero
    z-component nothing is raised.  The plane equation is not a finite
    expression; when the normal vector is not zero it is [zoo] times the
    numerator, plus [zo], and over exact numbers [get_volume] returns 0:
    each region has a vertical bounding line or lies between two bounding
    lines that are the same expression.  The loop of the mesh-level
    [get_volume] adds the value of the facet to the running sum and goes
    on with the next facet. *)
Theorem degenerate_facet_is_summed (id : nat) (df : DataFrame.t) (n : nat)
    (iA iB iC : nat) (A B C : DataFrame.row) (data : list simplex)
    (acc : number) (it : nat) (st : state) :
  Triangle.normal_z
    (Triangle.make (row_point A) (row_point B) (row_point C)) = 0 ->
  frames st !! id = Some df ->
  df !! iA = Some A -> df !! iB = Some B -> df !! iC = Some C ->
  (forall f,
     Triangle.get_plane_equation
       (Triangle.make (row_point A) (row_point B) (row_point C)) <> Expr f) /\
  (~ ((Triangle.normal_vector
         (Triangle.make (row_point A) (row_point B) (row_point C))).1.1 = 0 /\
      (Triangle.normal_vector
         (Triangle.make (row_point A) (row_point B) (row_point C))).1.2 = 0) ->
   Triangle.get_plane_equation
     (Triangle.make (row_point A) (row_point B) (row_point C)) =
     ZooExpr
       (Triangle.plane_numerator
          (Triangle.make (row_point A) (row_point B) (row_point C)))
       (DataFrame.z A) /\
   Triangle.get_volume
     (Triangle.make (row_point A) (row_point B) (row_point C)) = Finite 0) /\
  facets_loop id n ((iA, iB, iC) :: data) acc it st =
  facets_loop id n data
    (Number.add acc
       (Triangle.get_volume
          (Triangle.make (row_point A) (row_point B) (row_point C))))
    (S it) (with_events st [print_progress (S it) n]).
Proof.
  intros Z H HA HB HC.
  pose proof (plane_equation_degenerate _ Z) as Hp.
  split; [|split].
  - intros f. rewrite Hp. by case_bool_decide.
  - intros Nab. split.
    + rewrite Hp. by rewrite bool_decide_eq_false_2.
    + by apply get_volume_degenerate.
  - by apply (facets_loop_step id df).
Qed.

Lemma degenerate_facet_is_summed_witness :
  Triangle.normal_z
    (Triangle.make (row_point (DataFrame.Row (Qz 0) (Qz 0) (Qz 0)))
                   (row_point (DataFrame.Row (Qz 1) (Qz 1) (Qz 0)))
                   (row_point (DataFrame.Row (Qz 2) (Qz 2) (Qz 5)))) = 0 /\
  frames diagonal_mesh !! 0%nat = Some diagonal_cloud /\
  diagonal_cloud !! 0%nat = Some (DataFrame.Row (Qz 0) (Qz 0) (Qz 0)) /\
  diagonal_cloud !! 1%nat = Some (DataFrame.Row (Qz 1) (Qz 1) (Qz 0)) /\
  diagonal_cloud !! 2%nat = Some (DataFrame.Row (Qz 2) (Qz 2) (Qz 5)) /\
  (forall f,
     Triangle.get_plane_equation
       (Triangle.make (row_point (DataFrame.Row (Qz 0) (Qz 0) (Qz 0)))
                      (row_point (DataFrame.Row (Qz 1) (Qz 1) (Qz 0)))
                      (row_point (DataFrame.Row (Qz 2) (Qz 2) (Qz 5))))
     <> Expr f) /\
  (~ ((Triangle.normal_vector
         (Triangle.make (row_point (DataFrame.Row (Qz 0) (Qz 0) (Qz 0)))
                        (row_point (DataFrame.Row (Qz 1) (Qz 1) (Qz 0)))
                        (row_point (DataFrame.Row (Qz 2) (Qz 2) (Qz 5))))).1.1
      = 0 /\
      (Triangle.normal_vector
         (Triangle.make (row_point (DataFrame.Row (Qz 0) (Qz 0) (Qz 0)))
                        (row_point (DataFrame.Row (Qz 1) (Qz 1) (Qz 0)))
                        (row_point (DataFrame.Row (Qz 2) (Qz 2) (Qz 5))))).1.2
      = 0) ->
   Triangle.get_plane_equation
     (Triangle.make (row_point (DataFrame.Row (Qz 0) (Qz 0) (Qz 0)))
                    (row_point (DataFrame.Row (Qz 1) (Qz 1) (Qz 0)))
                    (row_point (DataFrame.Row (Qz 2) (Qz 2) (Qz 5)))) =
     ZooExpr
       (Triangle.plane_numerator
          (Triangle.make (row_point (DataFrame.Row (Qz 0) (Qz 0) (Qz 0)))
                         (row_point (DataFrame.Row (Qz 1) (Qz 1) (Qz 0)))
                         (row_point (DataFrame.Row (Qz 2) (Qz 2) (Qz 5)))))
       (DataFrame.z (DataFrame.Row (Qz 0) (Qz 0) (Qz 0))) /\
   Triangle.get_volume
     (Triangle.make (row_point (DataFrame.Row (Qz 0) (Qz 0) (Qz 0)))
                    (row_point (DataFrame.Row (Qz 1) (Qz 1) (Qz 0)))
                    (row_point (DataFrame.Row (Qz 2) (Qz 2) (Qz 5)))) =
   Finite 0) /\
  facets_loop 0 2 [(0, 1, 2)%nat; (0, 1, 3)%nat] (Finite 0) 0 diagonal_mesh =
  facets_loop 0 2 [(0, 1, 3)%nat]
    (Number.add (Finite 0)
       (Triangle.get_volume
          (Triangle.make (row_point (DataFrame.Row (Qz 0) (Qz 0) (Qz 0)))
                         (row_point (DataFrame.Row (Qz 1) (Qz 1) (Qz 0)))
                         (row_point (DataFrame.Row (Qz 2) (Qz 2) (Qz 5))))))
    1 (with_events diagonal_mesh [print_progress 1 2]).
Proof.
  assert (Triangle.normal_z
            (Triangle.make (row_point (DataFrame.Row (Qz 0) (Qz 0) (Qz 0)))
                           (row_point (DataFrame.Row (Qz 1) (Qz 1) (Qz 0)))
                           (row_point (DataFrame.Row (Qz 2) (Qz 2) (Qz 5))))
          = 0) as Z by (apply (bool_decide_unpack _); vm_compute; exact I).
  split; [exact Z|].
  split; [reflexivity|]. split; [reflexivity|]. split; [reflexivity|].
  split; [reflexivity|].
  apply (degenerate_facet_is_summed 0 diagonal_cloud 2 0 1 2
           (DataFrame.Row (Qz 0) (Qz 0) (Qz 0))
           (DataFrame.Row (Qz 1) (Qz 1) (Qz 0))
           (DataFrame.Row (Qz 2) (Qz 2) (Qz 5))
           [(0, 1, 3)%nat] (Finite 0) 0 diagonal_mesh Z);
    reflexivity.
Defined.

(** * Further properties *)

(** ** Further properties of Line2D and of the plane equation *)

(** X1: the line does not depend on which endpoint comes first.
    [get_line_equation] returns [None] for (B, A) exactly when it does for
    (A, B), and otherwise both expressions take the same value at every
    x. *)
Theorem line_equation_endpoints_exchanged (point_A point_B : point) :
  (Line2D.get_line_equation (Line2D.make point_B point_A) = None <->
   Line2D.get_line_equation (Line2D.make point_A point_B) = None) /\
  forall input_x,
    Line2D.line_at (Line2D.make point_B point_A) input_x =
    Line2D.line_at (Line2D.make point_A point_B) input_x.
Proof.
  destruct (decide (CartesianCoordinate.x point_A = CartesianCoordinate.x point_B))
    as [E|N].
  - assert (Line2D.get_line_equation (Line2D.make point_A point_B) = None)
      as H1 by (by apply line_equation_vertical).
    assert (Line2D.get_line_equation (Line2D.make point_B point_A) = None)
      as H2 by (by apply line_equation_vertical).
    unfold Line2D.line_at. rewrite H1, H2. done.
  - destruct (line_equation_some (Line2D.make point_A point_B) N)
      as (f & Hf & Ef).
    destruct (line_equation_some (Line2D.make point_B point_A)
                (not_eq_sym N)) as (g & Hg & Eg).
    unfold Line2D.line_at. rewrite Hf, Hg. split; [done|].
    intros v. f_equal. rewrite Ef, Eg. simpl.
    field. split; rewrite Qc_sub_eq_0; congruence.
Qed.

Lemma plane_equation_coefficients (t : Triangle.t) :
  Triangle.normal_z t <> 0 ->
  exists p0 p1 p2 : Qc,
    Triangle.get_plane_equation t = Expr [[p0; p1]; [p2]] /\
    forall vx vy,
      p0 + vx * p1 + vy * p2 =
      CartesianCoordinate.z (Triangle.point_A t)
      - ((Triangle.normal_vector t).1.1 *
           (vx - CartesianCoordinate.x (Triangle.point_A t)) +
         (Triangle.normal_vector t).1.2 *
           (vy - CartesianCoordinate.y (Triangle.point_A t)))
        / Triangle.normal_z t.
Proof.
  unfold Triangle.normal_z, Triangle.get_plane_equation,
    Triangle.plane_numerator.
  destruct (Triangle.normal_vector t) as [[a b] c]. simpl. intros N.
  rewrite bool_decide_eq_false_2 by done.
  unfold Poly.add2, Poly.div2, Poly.sub2, Poly.scale2, Poly.opp2,
    Poly.X2, Poly.Y2, Poly.const2, Poly.X, Poly.const, Poly.scale,
    Poly.opp; simpl.
  eexists _, _, _. split; [reflexivity|].
  intros vx vy. field. done.
Qed.

(** X2: when the z-component of the normal vector is not zero,
    [get_plane_equation] returns an expression in x and y whose value at
    the x, y of each of the three points is the z of that point. *)
Theorem plane_through_vertices (t : Triangle.t) :
  Triangle.normal_z t <> 0 ->
  exists f,
    Triangle.get_plane_equation t = Expr f /\
    eval2 f (CartesianCoordinate.x (Triangle.point_A t))
            (CartesianCoordinate.y (Triangle.point_A t))
      = CartesianCoordinate.z (Triangle.point_A t) /\
    eval2 f (CartesianCoordinate.x (Triangle.point_B t))
            (CartesianCoordinate.y (Triangle.point_B t))
      = CartesianCoordinate.z (Triangle.point_B t) /\
    eval2 f (CartesianCoordinate.x (Triangle.point_C t))
            (CartesianCoordinate.y (Triangle.point_C t))
      = CartesianCoordinate.z (Triangle.point_C t).
Proof.
  intros N. destruct (plane_equation_coefficients t N) as (p0 & p1 & p2 & E & H).
  exists [[p0; p1]; [p2]]. split; [done|].
  assert (forall vx vy, eval2 [[p0; p1]; [p2]] vx vy = p0 + vx * p1 + vy * p2)
    as Hev by (intros; unfold eval2; simpl; ring).
  rewrite !Hev, !H. clear Hev H E.
  destruct t as [[xa ya za] [xb yb zb] [xc yc zc]].
  unfold Triangle.normal_z, Triangle.normal_vector, CartesianCoordinate.sub,
    cross in *. simpl in *.
  repeat split; field; exact N.
Qed.

(** X3: when the z-component of the normal vector is not zero,
    [get_plane_equation] returns one and the same finite expression
    whatever the order in which the three points are given to the
    constructor. *)
Theorem plane_equation_vertex_order (A B C A' B' C' : point) :
  Triangle.normal_z (Triangle.make A B C) <> 0 ->
  [A; B; C] ≡ₚ [A'; B'; C'] ->
  exists f,
    Triangle.get_plane_equation (Triangle.make A B C) = Expr f /\
    Triangle.get_plane_equation (Triangle.make A' B' C') = Expr f.
Proof.
  intros N Hp. destruct (plane_equation_expr _ N) as [f Hf].
  exists f. split; [done|]. by rewrite (plane_equation_perm A B C A' B' C').
Qed.

(** ** The volume under a facet with elevations of one sign *)

Lemma Qcdiv_nonneg (a b : Qc) : 0 <= a -> 0 < b -> 0 <= a / b.
Proof.
  intros Ha Hb. unfold Qcdiv. apply Qcmult_nonneg_nonneg; [done|].
  apply Qclt_le_weak. by apply Qcinv_pos.
Qed.

Lemma Qcsub_nonneg (a b : Qc) : a <= b -> 0 <= b - a.
Proof. intros H. exact (proj1 (Qcle_minus_iff a b) H). Qed.

Lemma region_factors_nonneg (x1 x2 x3 z1 z2 z3 : Qc) :
  x1 <= x2 -> x2 <= x3 -> x1 <> x3 ->
  0 <= z1 -> 0 <= z2 -> 0 <= z3 ->
  0 <= region1_factor x1 x2 x3 z1 z2 z3 /\
  0 <= region2_factor x1 x2 x3 z1 z2 z3.
Proof.
  intros H12 H23 N13 Hz1 Hz2 Hz3.
  assert (0 < x3 - x1) as Hd.
  { assert (x1 <= x3) as H13 by (by eapply Qcle_trans).
    apply (proj1 (Qclt_minus_iff x1 x3)).
    by destruct (Qcle_lt_or_eq x1 x3 H13). }
  assert (0 <= x3 - x1) as Hd' by (by apply Qclt_le_weak).
  pose proof (Qcsub_nonneg _ _ H12) as H21.
  pose proof (Qcsub_nonneg _ _ H23) as H32.
  assert (0 < 2 * (2 + 1) * ((x3 - x1) * (x3 - x1))) as Hden.
  { apply Qcmult_pos_pos; [done|]. by apply Qcmult_pos_pos. }
  assert (0 <= z1 * (x3 - x2) + z3 * (x2 - x1)) as Hm.
  { apply Qcplus_nonneg_nonneg; by apply Qcmult_nonneg_nonneg. }
  split; apply Qcdiv_nonneg; try done;
    (apply Qcmult_nonneg_nonneg; [done|]);
    rewrite <- Qcplus_assoc;
    (apply Qcplus_nonneg_nonneg; [|done]);
    (apply Qcmult_nonneg_nonneg; [|done]);
    by apply Qcplus_nonneg_nonneg.
Qed.

Lemma region_factors_opp (x1 x2 x3 z1 z2 z3 : Qc) :
  x1 <> x3 ->
  region1_factor x1 x2 x3 (- z1) (- z2) (- z3) =
    - region1_factor x1 x2 x3 z1 z2 z3 /\
  region2_factor x1 x2 x3 (- z1) (- z2) (- z3) =
    - region2_factor x1 x2 x3 z1 z2 z3.
Proof.
  intros N. unfold region1_factor, region2_factor. split; field; nonzero.
Qed.

Lemma Qcabs_div_const (a : Qc) :
  Qcabs.Qcabs (a / (2 * (2 + 1))) = Qcabs.Qcabs (a / (2 + 1)) / 2.
Proof.
  replace (a / (2 * (2 + 1))) with (a / (2 + 1) * (/ 2)) by (field; nonzero).
  rewrite Qcabs.Qcabs_Qcmult. rewrite (Qcabs.Qcabs_pos (/ 2)); done.
Qed.

(** The volume under a facet whose elevations have one sign. *)
Lemma prism_volume (t : Triangle.t) :
  Triangle.normal_z t <> 0 ->
  (0 <= CartesianCoordinate.z (Triangle.point_A t) /\
   0 <= CartesianCoordinate.z (Triangle.point_B t) /\
   0 <= CartesianCoordinate.z (Triangle.point_C t)) \/
  (CartesianCoordinate.z (Triangle.point_A t) <= 0 /\
   CartesianCoordinate.z (Triangle.point_B t) <= 0 /\
   CartesianCoordinate.z (Triangle.point_C t) <= 0) ->
  Triangle.get_volume t =
  Finite (footprint_area t * Qcabs.Qcabs (mean_elevation t)).
Proof.
  intros N Hz.
  destruct (get_volume_closed t N)
    as (sA & sB & sC & Hs & H12 & H23 & N13 & ->).
  f_equal. unfold footprint_area, mean_elevation.
  rewrite (elevation_sum_perm _ _ _ _ _ _ Hs).
  set (x1 := CartesianCoordinate.x sA). set (x2 := CartesianCoordinate.x sB).
  set (x3 := CartesianCoordinate.x sC). set (z1 := CartesianCoordinate.z sA).
  set (z2 := CartesianCoordinate.z sB). set (z3 := CartesianCoordinate.z sC).
  pose proof (region_factors_sum x1 z1 x2 z2 x3 z3 N13) as Hsum.
  assert (Qcabs.Qcabs (region1_factor x1 x2 x3 z1 z2 z3) +
          Qcabs.Qcabs (region2_factor x1 x2 x3 z1 z2 z3) =
          Qcabs.Qcabs ((z1 + z2 + z3) / (2 + 1)) / 2) as Habs.
  { rewrite <- Qcabs_div_const, <- Hsum.
    destruct Hz as [Hz|Hz].
    - assert (Forall (fun p => 0 <= CartesianCoordinate.z p) [sA; sB; sC])
        as Hall by (rewrite Hs; repeat constructor; tauto).
      inversion Hall as [|? ? Ha Hall']; subst.
      inversion Hall' as [|? ? Hb Hall'']; subst.
      inversion Hall'' as [|? ? Hc _]; subst.
      destruct (region_factors_nonneg x1 x2 x3 z1 z2 z3) as [K1 K2]; try done.
      rewrite !Qcabs.Qcabs_pos; try done. by apply Qcplus_nonneg_nonneg.
    - assert (Forall (fun p => CartesianCoordinate.z p <= 0) [sA; sB; sC])
        as Hall by (rewrite Hs; repeat constructor; tauto).
      inversion Hall as [|? ? Ha Hall']; subst.
      inversion Hall' as [|? ? Hb Hall'']; subst.
      inversion Hall'' as [|? ? Hc _]; subst.
      destruct (region_factors_opp x1 x2 x3 z1 z2 z3 N13) as [O1 O2].
      destruct (region_factors_nonneg x1 x2 x3 (- z1) (- z2) (- z3))
        as [K1 K2]; try done;
        try (apply Qcopp_le_compat in Ha, Hb, Hc; done).
      rewrite O1 in K1. rewrite O2 in K2.
      rewrite <- (Qcabs.Qcabs_opp (region1_factor _ _ _ _ _ _)).
      rewrite <- (Qcabs.Qcabs_opp (region2_factor _ _ _ _ _ _)).
      rewrite <- (Qcabs.Qcabs_opp (_ + _)).
      rewrite !Qcabs.Qcabs_pos; try done; [ring|].
      replace (- (region1_factor x1 x2 x3 z1 z2 z3 +
                  region2_factor x1 x2 x3 z1 z2 z3))
        with (- region1_factor x1 x2 x3 z1 z2 z3 +
              - region2_factor x1 x2 x3 z1 z2 z3) by ring.
      by apply Qcplus_nonneg_nonneg. }
  rewrite Habs. field. nonzero.
Qed.

(** X4: on a triangle whose footprint is not flat and whose three
    elevations are all at least 0, or all at most 0, [get_volume] returns
    the volume of the prism: the area of the footprint times the absolute
    mean elevation. *)
Theorem get_volume_prism (t : Triangle.t) :
  Triangle.normal_z t <> 0 ->
  (0 <= CartesianCoordinate.z (Triangle.point_A t) /\
   0 <= CartesianCoordinate.z (Triangle.point_B t) /\
   0 <= CartesianCoordinate.z (Triangle.point_C t)) \/
  (CartesianCoordinate.z (Triangle.point_A t) <= 0 /\
   CartesianCoordinate.z (Triangle.point_B t) <= 0 /\
   CartesianCoordinate.z (Triangle.point_C t) <= 0) ->
  Triangle.get_volume t =
  Finite (footprint_area t * Qcabs.Qcabs (mean_elevation t)).
Proof. apply prism_volume. Qed.


(** ** Further properties of TriangularMesh *)

Lemma facet_volume_triangle (df : DataFrame.t) (s : simplex) :
  facet_volume df s =
  match facet_triangle df s with
  | Some t => Returned (Triangle.get_volume t)
  | None => Raised IndexError
  end.
Proof.
  destruct s as [[iA iB] iC]. unfold facet_volume, facet_triangle.
  by repeat case_match.
Qed.

(** [abs(volume1) + abs(volume2)] is a sum of two absolute values. *)
Lemma abs_sum_not_negative (u w : number) (v : Qc) :
  Number.add (Number.abs u) (Number.abs w) = Finite v -> 0 <= v.
Proof.
  destruct u as [a|], w as [b|]; cbn [Number.add Number.abs]; try done.
  intros [= <-]. apply Qcplus_nonneg_nonneg; apply Qcabs.Qcabs_nonneg.
Qed.

Lemma get_volume_not_negative (t : Triangle.t) (v : Qc) :
  Triangle.get_volume t = Finite v -> 0 <= v.
Proof.
  unfold Triangle.get_volume.
  destruct (list_sort _) as [|sA [|sB [|sC [|? ?]]]]; try done.
  apply abs_sum_not_negative.
Qed.

Lemma facets_volume_not_negative (df : DataFrame.t) (data : list simplex)
    (a v : Qc) :
  0 <= a -> facets_volume df data (Finite a) = Returned (Finite v) -> 0 <= v.
Proof.
  revert a. induction data as [|s data IH]; intros a Ha; simpl.
  - by intros [= <-].
  - rewrite facet_volume_triangle.
    destruct (facet_triangle df s) as [t|]; [|done]. simpl.
    destruct (Triangle.get_volume t) as [w|] eqn:Hw; simpl.
    + apply IH. apply Qcplus_nonneg_nonneg; [done|].
      by eapply get_volume_not_negative.
    + clear. intros H. exfalso. revert H.
      induction data as [|s' data IH]; simpl; [done|].
      destruct (facet_volume df s') as [w|]; [|done]. simpl.
      by destruct w.
Qed.

(** X6: a finite number [TriangularMesh.get_volume] returns is never
    negative, whatever the argument and the triangulation, degenerate
    facets included: every facet contributes a sum of two absolute
    values. *)
Theorem mesh_volume_not_negative `{T : Triangulation}
    (data_points : pyvalue) (st : state) (v : Qc) :
  (get_volume data_points st).1 = Returned (Finite v) -> 0 <= v.
Proof.
  destruct (get_volume_run data_points st) as (evs & _ & ->). simpl.
  destruct (frames st !! target data_points st) as [df|]; [|done].
  unfold cloud_volume.
  destruct (Delaunay_simplices (DataFrame.xy df)) as [data|]; [|done].
  simpl. apply facets_volume_not_negative. apply Qcle_refl.
Qed.

(** *** Clouds that differ in the elevations only *)

Lemma raised_to_set_elevation (ref_level : Qc) (df : DataFrame.t) :
  raised_to ref_level df = set_elevation (raise_to ref_level) df.
Proof.
  unfold raised_to, set_elevation, raise_to. apply map_ext.
  intros [x y z]. simpl. by case_bool_decide.
Qed.

Lemma lowered_to_set_elevation (ref_level : Qc) (df : DataFrame.t) :
  lowered_to ref_level df = set_elevation (lower_to ref_level) df.
Proof.
  unfold lowered_to, set_elevation, lower_to. apply map_ext.
  intros [x y z]. simpl. by case_bool_decide.
Qed.

Lemma flattened_to_set_elevation (ref_level : Qc) (df : DataFrame.t) :
  flattened_to ref_level df = set_elevation (fun _ => ref_level) df.
Proof. reflexivity. Qed.

Lemma set_elevation_id (df : DataFrame.t) : set_elevation id df = df.
Proof.
  unfold set_elevation. rewrite <- (map_id df) at 2. apply map_ext.
  by intros [x y z].
Qed.

Lemma lookup_map {A B : Type} (f : A -> B) (l : list A) (i : nat) :
  map f l !! i = f <$> l !! i.
Proof. revert i. induction l as [|a l IH]; intros [|i]; simpl; auto. Qed.

Section Elevations.
Variable h : Qc -> Qc.

Lemma xy_set_elevation (df : DataFrame.t) :
  DataFrame.xy (set_elevation h df) = DataFrame.xy df.
Proof. unfold DataFrame.xy, set_elevation. by rewrite map_map. Qed.

Lemma facet_triangle_set_elevation (df : DataFrame.t) (s : simplex) :
  facet_triangle (set_elevation h df) s =
  triangle_elevation h <$> facet_triangle df s.
Proof.
  destruct s as [[iA iB] iC]. unfold facet_triangle, set_elevation.
  cbv beta iota. unfold DataFrame.t in *. rewrite !lookup_map.
  destruct (df !! iA) as [A|]; [|done].
  destruct (df !! iB) as [B|]; [|done].
  destruct (df !! iC) as [C|]; done.
Qed.

Lemma normal_z_set_elevation (t : Triangle.t) :
  Triangle.normal_z (triangle_elevation h t) = Triangle.normal_z t.
Proof. reflexivity. Qed.

Lemma footprint_area_set_elevation (t : Triangle.t) :
  footprint_area (triangle_elevation h t) = footprint_area t.
Proof. reflexivity. Qed.

Lemma proper_facet_set_elevation (df : DataFrame.t) (s : simplex) :
  proper_facet (set_elevation h df) s <-> proper_facet df s.
Proof.
  unfold proper_facet. rewrite facet_triangle_set_elevation.
  by destruct (facet_triangle df s).
Qed.

Lemma proper_triangulation_set_elevation `{T : Triangulation}
    (df : DataFrame.t) (data : list simplex) :
  proper_triangulation df data ->
  proper_triangulation (set_elevation h df) data.
Proof.
  intros [H1 H2]. split; [by rewrite xy_set_elevation|].
  eapply Forall_impl; [exact H2|]. intros s.
  by rewrite proper_facet_set_elevation.
Qed.

Lemma facets_sum_set_elevation (val : Triangle.t -> Qc) (df : DataFrame.t)
    (data : list simplex) :
  facets_sum val (set_elevation h df) data =
  facets_sum (fun t => val (triangle_elevation h t)) df data.
Proof.
  induction data as [|s data IH]; simpl; [done|].
  rewrite facet_triangle_set_elevation, IH.
  by destruct (facet_triangle df s).
Qed.

End Elevations.

(** Sums over facets. *)
Lemma facets_sum_ext (val val' : Triangle.t -> Qc) (df : DataFrame.t)
    (data : list simplex) :
  (forall s t, s ∈ data -> facet_triangle df s = Some t -> val t = val' t) ->
  facets_sum val df data = facets_sum val' df data.
Proof.
  induction data as [|s data IH]; intros H; simpl; [done|].
  rewrite IH by (intros; eapply H; [by right|done]).
  destruct (facet_triangle df s) as [t|] eqn:E; [|done].
  f_equal. eapply H; [by left|done].
Qed.

Lemma facets_sum_plus (val val' : Triangle.t -> Qc) (df : DataFrame.t)
    (data : list simplex) :
  facets_sum (fun t => val t + val' t) df data =
  facets_sum val df data + facets_sum val' df data.
Proof.
  induction data as [|s data IH]; simpl; [ring|].
  rewrite IH. destruct (facet_triangle df s); ring.
Qed.

Lemma facets_sum_scale (k : Qc) (val : Triangle.t -> Qc) (df : DataFrame.t)
    (data : list simplex) :
  facets_sum (fun t => val t * k) df data = facets_sum val df data * k.
Proof.
  induction data as [|s data IH]; simpl; [ring|].
  rewrite IH. destruct (facet_triangle df s); ring.
Qed.

Lemma facets_sum_le (val val' : Triangle.t -> Qc) (df : DataFrame.t)
    (data : list simplex) :
  (forall s t, s ∈ data -> facet_triangle df s = Some t -> val t <= val' t) ->
  facets_sum val df data <= facets_sum val' df data.
Proof.
  induction data as [|s data IH]; intros H; simpl; [apply Qcle_refl|].
  assert (facets_sum val df data <= facets_sum val' df data) as Hrec
    by (apply IH; intros; eapply H; [by right|done]).
  destruct (facet_triangle df s) as [t|] eqn:E; [|done].
  apply Qcplus_le_compat; [|done]. eapply H; [by left|done].
Qed.

(** When every facet has its three rows and a finite volume, the loop
    returns the sum. *)
Lemma facets_volume_sum (val : Triangle.t -> Qc) (df : DataFrame.t)
    (data : list simplex) (a : Qc) :
  (forall s, s ∈ data ->
     exists t, facet_triangle df s = Some t /\
               Triangle.get_volume t = Finite (val t)) ->
  facets_volume df data (Finite a) =
  Returned (Finite (a + facets_sum val df data)).
Proof.
  revert a. induction data as [|s data IH]; intros a H; simpl.
  - do 2 f_equal. ring.
  - destruct (H s) as (t & Ht & Hv); [by left|].
    rewrite facet_volume_triangle, Ht. simpl. rewrite Hv. simpl.
    rewrite IH by (intros; apply H; by right).
    do 2 f_equal. ring.
Qed.

Lemma cloud_volume_sum `{T : Triangulation} (val : Triangle.t -> Qc)
    (df : DataFrame.t) (data : list simplex) :
  Delaunay_simplices (DataFrame.xy df) = Returned data ->
  (forall s, s ∈ data ->
     exists t, facet_triangle df s = Some t /\
               Triangle.get_volume t = Finite (val t)) ->
  cloud_volume df = Returned (Finite (facets_sum val df data)).
Proof.
  intros HD H. unfold cloud_volume. rewrite HD. simpl.
  rewrite (facets_volume_sum val) by done. do 2 f_equal. ring.
Qed.

(** *** The volume of a cloud in closed form *)

(** Linear arithmetic on [Qc] is done on the underlying fractions. *)
Ltac to_Q :=
  unfold Qcle, Qclt, Qcminus, Qcopp, Qcplus, Qcmult, Q2Qc in *;
  cbn [this] in *;
  repeat match goal with
         | H : context [Qred _] |- _ => rewrite !Qred_correct in H
         end;
  rewrite ?Qred_correct.

Lemma mean_of_three (a b c : Qc) : (a + b + c) / (2 + 1) * (2 + 1) = a + b + c.
Proof. field. nonzero. Qed.

Lemma three_positive : (0 : Qc) < 2 + 1.
Proof. done. Qed.

Lemma mean_elevation_lower (k : Qc) (t : Triangle.t) :
  k <= CartesianCoordinate.z (Triangle.point_A t) ->
  k <= CartesianCoordinate.z (Triangle.point_B t) ->
  k <= CartesianCoordinate.z (Triangle.point_C t) ->
  k <= mean_elevation t.
Proof.
  intros Ha Hb Hc. unfold mean_elevation.
  apply (Qcmult_lt_0_le_reg_r _ _ (2 + 1) three_positive).
  rewrite mean_of_three. to_Q. lra.
Qed.

Lemma mean_elevation_upper (k : Qc) (t : Triangle.t) :
  CartesianCoordinate.z (Triangle.point_A t) <= k ->
  CartesianCoordinate.z (Triangle.point_B t) <= k ->
  CartesianCoordinate.z (Triangle.point_C t) <= k ->
  mean_elevation t <= k.
Proof.
  intros Ha Hb Hc. unfold mean_elevation.
  apply (Qcmult_lt_0_le_reg_r _ _ (2 + 1) three_positive).
  rewrite mean_of_three. to_Q. lra.
Qed.

Lemma footprint_area_nonneg (t : Triangle.t) : 0 <= footprint_area t.
Proof.
  unfold footprint_area. apply Qcdiv_nonneg; [apply Qcabs.Qcabs_nonneg|done].
Qed.

(** The rows of a facet are rows of the cloud. *)
Lemma facet_triangle_Forall (Q : Qc -> Prop) (df : DataFrame.t) (s : simplex)
    (t : Triangle.t) :
  Forall (fun r => Q (DataFrame.z r)) df ->
  facet_triangle df s = Some t ->
  Q (CartesianCoordinate.z (Triangle.point_A t)) /\
  Q (CartesianCoordinate.z (Triangle.point_B t)) /\
  Q (CartesianCoordinate.z (Triangle.point_C t)).
Proof.
  intros Hall. destruct s as [[iA iB] iC]. unfold facet_triangle.
  destruct (df !! iA) as [A|] eqn:HA; [|done].
  destruct (df !! iB) as [B|] eqn:HB; [|done].
  destruct (df !! iC) as [C|] eqn:HC; [|done].
  intros [= <-]. simpl.
  pose proof (Forall_lookup_1 _ _ _ _ Hall HA).
  pose proof (Forall_lookup_1 _ _ _ _ Hall HB).
  pose proof (Forall_lookup_1 _ _ _ _ Hall HC). done.
Qed.

Lemma proper_facet_triangle (df : DataFrame.t) (data : list simplex)
    (s : simplex) :
  Forall (proper_facet df) data -> s ∈ data ->
  exists t, facet_triangle df s = Some t /\ Triangle.normal_z t <> 0.
Proof.
  intros Hall Hs. rewrite Forall_forall in Hall. specialize (Hall s Hs).
  unfold proper_facet in Hall.
  destruct (facet_triangle df s) as [t|]; [|done]. by exists t.
Qed.

Lemma get_volume_finite (t : Triangle.t) :
  Triangle.normal_z t <> 0 ->
  Triangle.get_volume t = Finite (finite_volume t).
Proof.
  intros N. unfold finite_volume.
  by destruct (get_volume_closed t N) as (sA & sB & sC & _ & _ & _ & _ & ->).
Qed.

Section Clouds.
Context {T : Triangulation}.

(** With a proper triangulation the volume of a cloud is the sum over
    its facets. *)
Lemma cloud_volume_proper (df : DataFrame.t) (data : list simplex) :
  proper_triangulation df data ->
  cloud_volume df = Returned (Finite (facets_sum finite_volume df data)).
Proof.
  intros [HD Hall]. apply cloud_volume_sum; [done|].
  intros s Hs. destruct (proper_facet_triangle df data s Hall Hs) as (t & Ht & N).
  exists t. split; [done|]. by apply get_volume_finite.
Qed.

(** Elevations of one sign: the sum of the prisms. *)
Lemma cloud_volume_prisms (df : DataFrame.t) (data : list simplex) :
  proper_triangulation df data ->
  Forall (fun r => 0 <= DataFrame.z r) df ->
  cloud_volume df =
  Returned (Finite (facets_sum (fun t => footprint_area t * mean_elevation t)
                      df data)).
Proof.
  intros [HD Hall] Hz. apply cloud_volume_sum; [done|].
  intros s Hs. destruct (proper_facet_triangle df data s Hall Hs) as (t & Ht & N).
  exists t. split; [done|].
  destruct (facet_triangle_Forall (fun z => 0 <= z) df s t Hz Ht)
    as (Ha & Hb & Hc).
  rewrite (prism_volume t N) by (left; done).
  rewrite Qcabs.Qcabs_pos; [done|]. by apply mean_elevation_lower.
Qed.

Lemma mean_elevation_level (h : Qc) (t : Triangle.t) :
  mean_elevation (triangle_elevation (fun _ => h) t) = h.
Proof. unfold mean_elevation. simpl. field. nonzero. Qed.

(** The flattened cloud: the level times the footprint. *)
Lemma cloud_volume_flat (ref_level : Qc) (df : DataFrame.t)
    (data : list simplex) :
  proper_triangulation df data ->
  cloud_volume (flattened_to ref_level df) =
  Returned (Finite (Qcabs.Qcabs ref_level * footprint df data)).
Proof.
  intros Hp. rewrite flattened_to_set_elevation.
  pose proof (proper_triangulation_set_elevation (fun _ => ref_level) df data Hp)
    as [HD Hall].
  rewrite (cloud_volume_sum
             (fun t => footprint_area t * Qcabs.Qcabs ref_level) _ data HD).
  - do 2 f_equal. rewrite facets_sum_set_elevation.
    unfold footprint. rewrite Qcmult_comm, <- facets_sum_scale.
    apply facets_sum_ext. intros s t _ _.
    rewrite footprint_area_set_elevation. ring.
  - intros s Hs.
    destruct (proper_facet_triangle _ data s Hall Hs) as (t & Ht & N).
    exists t. split; [done|].
    rewrite facet_triangle_set_elevation in Ht.
    destruct (facet_triangle df s) as [t0|]; [|done].
    injection Ht as <-.
    rewrite (prism_volume _ N).
    + by rewrite mean_elevation_level.
    + simpl. destruct (Qclt_le_dec ref_level 0) as [H|H].
      * right. apply Qclt_le_weak in H. done.
      * left. done.
Qed.

(** The flat volume a query finds on a mesh right after [__init__]. *)
Lemma flat_surface_volume_init (ref_level : Qc) (df : DataFrame.t)
    (data : list simplex) :
  proper_triangulation df data ->
  flat_surface_volume {[ 0 := Finite 0 ]} ref_level df =
  Returned (Finite (Qcabs.Qcabs ref_level * footprint df data)).
Proof.
  intros Hp. unfold flat_surface_volume.
  destruct (decide (ref_level = 0)) as [->|N].
  - rewrite lookup_singleton_eq. do 2 f_equal.
    rewrite Qcabs.Qcabs_pos by apply Qcle_refl. ring.
  - rewrite lookup_singleton_ne by done. by apply cloud_volume_flat.
Qed.

(** Clipping changes no exception: whether [cloud_volume] raises, and
    what, is a matter of the x, y columns and the number of rows. *)
Lemma facets_volume_raises (h : Qc -> Qc) (df : DataFrame.t)
    (data : list simplex) (acc acc' : number) (e : exn) :
  facets_volume (set_elevation h df) data acc = Raised e <->
  facets_volume df data acc' = Raised e.
Proof.
  revert acc acc'. induction data as [|s data IH]; intros acc acc'; simpl.
  - done.
  - rewrite !facet_volume_triangle, facet_triangle_set_elevation.
    destruct (facet_triangle df s) as [t|]; simpl; [apply IH|done].
Qed.

Lemma cloud_volume_raises (h : Qc -> Qc) (df : DataFrame.t) (e : exn) :
  cloud_volume (set_elevation h df) = Raised e <-> cloud_volume df = Raised e.
Proof.
  unfold cloud_volume. rewrite xy_set_elevation.
  destruct (Delaunay_simplices (DataFrame.xy df)) as [data|e']; simpl;
    [apply facets_volume_raises|done].
Qed.

End Clouds.

(** *** What the queries return and leave behind *)

Section MeshResults.
Context {T : Triangulation}.

Lemma get_volume_result (data_points : pyvalue) (st : state) :
  (get_volume data_points st).1 =
  match frames st !! target data_points st with
  | Some df => cloud_volume df
  | None => Raised UnboundReference
  end.
Proof. by destruct (get_volume_run data_points st) as (evs & _ & ->). Qed.

Lemma clip_query_result g combine (ref_level : Qc) (st : state)
    (cloud : DataFrame.t) :
  frames st !! point_cloud st = Some cloud ->
  (clip_query g combine ref_level st).1 =
  Outcome.bind (flat_surface_volume (_flat_volume st) ref_level cloud)
    (fun flat_volume =>
       Outcome.bind (cloud_volume (g cloud))
         (fun v => Returned (combine v flat_volume))).
Proof.
  intros H.
  by destruct (clip_query_run g combine ref_level st cloud H) as (st' & -> & _).
Qed.

Lemma get_cut_volume_result (ref_level : Qc) (st : state)
    (cloud : DataFrame.t) :
  frames st !! point_cloud st = Some cloud ->
  (get_cut_volume ref_level st).1 =
  Outcome.bind (flat_surface_volume (_flat_volume st) ref_level cloud)
    (fun flat_volume =>
       Outcome.bind (cloud_volume (raised_to ref_level cloud))
         (fun v => Returned (Number.sub v flat_volume))).
Proof.
  intros H. rewrite get_cut_volume_clip, (clip_query_result _ _ _ _ cloud H).
  by rewrite loc_set_z_lt.
Qed.

Lemma get_fill_volume_result (ref_level : Qc) (st : state)
    (cloud : DataFrame.t) :
  frames st !! point_cloud st = Some cloud ->
  ref_level <> 0 ->
  (get_fill_volume ref_level st).1 =
  Outcome.bind (flat_surface_volume (_flat_volume st) ref_level cloud)
    (fun flat_volume =>
       Outcome.bind (cloud_volume (lowered_to ref_level cloud))
         (fun v => Returned (Number.sub flat_volume v))).
Proof.
  intros H N.
  rewrite get_fill_volume_clip by done.
  rewrite (clip_query_result _ _ _ _ cloud H).
  by rewrite loc_set_z_ge.
Qed.

(** A query leaves the cache as it is or adds the flat volume of the
    stored cloud at a level the cache lacked. *)
Lemma clip_query_cache g combine (ref_level : Qc) (st : state) :
  _flat_volume (clip_query g combine ref_level st).2 = _flat_volume st \/
  exists v cloud,
    frames st !! point_cloud st = Some cloud /\
    _flat_volume st !! ref_level = None /\
    cloud_volume (flattened_to ref_level cloud) = Returned v /\
    _flat_volume (clip_query g combine ref_level st).2 =
      <[ref_level := v]> (_flat_volume st).
Proof.
  destruct (frames st !! point_cloud st) as [cloud|] eqn:Hpc.
  - destruct (clip_query_run g combine ref_level st cloud Hpc)
      as (st' & E & _ & _ & Hcache & _).
    rewrite E. simpl. rewrite Hcache.
    destruct (_flat_volume st !! ref_level) eqn:Hc; [by left|].
    destruct (cloud_volume (flattened_to ref_level cloud)) as [v|e] eqn:Hv;
      [|by left].
    right. by exists v, cloud.
  - rewrite (clip_query_unbound g combine ref_level st Hpc). by left.
Qed.

Lemma run_query_cache (q : query) (st : state) :
  _flat_volume (run_query q st).2 = _flat_volume st \/
  exists r v cloud,
    frames st !! point_cloud st = Some cloud /\
    _flat_volume st !! r = None /\
    cloud_volume (flattened_to r cloud) = Returned v /\
    _flat_volume (run_query q st).2 = <[r := v]> (_flat_volume st).
Proof.
  destruct q as [data_points|ref_level|ref_level]; simpl.
  - left. by destruct (get_volume_run data_points st) as (evs & _ & ->).
  - rewrite get_cut_volume_clip.
    destruct (clip_query_cache
                (fun df => DataFrame.loc_set_z df (DataFrame.z_lt df ref_level)
                             ref_level)
                (fun v flat_volume => Number.sub v flat_volume) ref_level st)
      as [H|(v & cloud & H)]; [by left|right; by exists ref_level, v, cloud].
  - destruct (decide (ref_level = 0)) as [->|N]; [by left|].
    rewrite get_fill_volume_clip by done.
    destruct (clip_query_cache
                (fun df => DataFrame.loc_set_z df (DataFrame.z_ge df ref_level)
                             ref_level)
                (fun v flat_volume => Number.sub flat_volume v) ref_level st)
      as [H|(v & cloud & H)]; [by left|right; by exists ref_level, v, cloud].
Qed.

Lemma run_query_invariant (q : query) (st : state) :
  _flat_volume st ⊆ _flat_volume (run_query q st).2 /\
  forall cloud r, frames st !! point_cloud st = Some cloud ->
    flat_surface_volume (_flat_volume (run_query q st).2) r cloud =
    flat_surface_volume (_flat_volume st) r cloud.
Proof.
  destruct (run_query_cache q st)
    as [->|(r' & v & cloud' & Hpc & Hnone & Hv & ->)]; [done|].
  split; [by apply insert_subseteq|].
  intros cloud r Hc. assert (cloud = cloud') as -> by congruence.
  unfold flat_surface_volume. destruct (decide (r = r')) as [->|N].
  - by rewrite lookup_insert_eq, Hnone.
  - by rewrite lookup_insert_ne.
Qed.

Lemma run_queries_state (q : query) (qs : list query) (st : state) :
  (run_queries (q :: qs) st).2 =
  match (run_query q st).1 with
  | Returned _ => (run_queries qs (run_query q st).2).2
  | Raised _ => (run_query q st).2
  end.
Proof.
  rewrite run_queries_cons.
  destruct (run_query q st) as [[v|e] st1]; simpl; [|done].
  by destruct (run_queries qs st1) as [[vs|e] st2].
Qed.

(** Over a sequence of queries: the stored cloud stays, the entries of
    the cache stay, and the flat volume a query would work with stays. *)
Lemma run_queries_invariant (qs : list query) (st : state) :
  point_cloud (run_queries qs st).2 = point_cloud st /\
  (forall id, id ∈ dom (frames st) ->
     frames (run_queries qs st).2 !! id = frames st !! id) /\
  frames (run_queries qs st).2 !! point_cloud st =
    frames st !! point_cloud st /\
  _flat_volume st ⊆ _flat_volume (run_queries qs st).2 /\
  forall cloud r, frames st !! point_cloud st = Some cloud ->
    flat_surface_volume (_flat_volume (run_queries qs st).2) r cloud =
    flat_surface_volume (_flat_volume st) r cloud.
Proof.
  revert st. induction qs as [|q qs IH]; intros st.
  { simpl. repeat split; done. }
  rewrite run_queries_state.
  destruct (run_query_effect q st) as (Hpc & Hfr & Hcl & _).
  destruct (run_query_invariant q st) as (Hsub & Hflat).
  destruct ((run_query q st).1) as [v|e]; [|done].
  destruct (IH (run_query q st).2) as (IH1 & IH2 & IH3 & IH4 & IH5).
  split; [congruence|]. split; [|split; [|split]].
  - intros id Hid. rewrite IH2; [by apply Hfr|].
    apply elem_of_dom. rewrite Hfr by done. by apply elem_of_dom.
  - rewrite <- Hpc at 1. by rewrite IH3, Hpc.
  - by etrans.
  - intros cloud r Hc. rewrite IH5; [by apply Hflat|].
    by rewrite Hpc, Hcl.
Qed.

(** The two clippings raise what [get_volume] on the stored cloud
    raises. *)
Lemma clip_query_raises g (h : Qc -> Qc) combine (ref_level : Qc)
    (st : state) (e : exn) :
  (forall df, g df = set_elevation h df) ->
  (clip_query g combine ref_level st).1 = Raised e <->
  (get_volume PyNone st).1 = Raised e.
Proof.
  intros Hg. rewrite get_volume_result. simpl.
  destruct (frames st !! point_cloud st) as [cloud|] eqn:Hpc.
  - rewrite (clip_query_result g combine ref_level st cloud Hpc), Hg.
    pose proof (cloud_volume_raises h cloud e) as Hr.
    pose proof (cloud_volume_raises (fun _ => ref_level) cloud e) as Hf.
    rewrite <- flattened_to_set_elevation in Hf.
    unfold flat_surface_volume.
    destruct (_flat_volume st !! ref_level) as [fv|]; simpl.
    + rewrite <- Hr.
      by destruct (cloud_volume (set_elevation h cloud)).
    + destruct (cloud_volume (flattened_to ref_level cloud)) as [fv|e'];
        simpl.
      * rewrite <- Hr.
        by destruct (cloud_volume (set_elevation h cloud)).
      * by rewrite <- Hf.
  - by rewrite (clip_query_unbound g combine ref_level st Hpc).
Qed.

End MeshResults.

(** *** The clipped clouds *)

Lemma raise_lower_sum (ref_level z : Qc) :
  raise_to ref_level z + lower_to ref_level z = z + ref_level.
Proof.
  unfold raise_to, lower_to.
  case_bool_decide as Hlt; case_bool_decide as Hle; try ring.
  - exfalso. exact (Qcle_not_lt _ _ Hle Hlt).
  - exfalso. apply Hle. by apply Qcnot_lt_le.
Qed.

Lemma raise_to_ge (ref_level z : Qc) : ref_level <= raise_to ref_level z.
Proof.
  unfold raise_to. case_bool_decide; [apply Qcle_refl|by apply Qcnot_lt_le].
Qed.

Lemma lower_to_le (ref_level z : Qc) : lower_to ref_level z <= ref_level.
Proof.
  unfold lower_to. case_bool_decide; [apply Qcle_refl|].
  apply Qclt_le_weak. by apply Qcnot_le_lt.
Qed.

Lemma raise_to_nonneg (ref_level z : Qc) :
  0 <= ref_level -> 0 <= raise_to ref_level z.
Proof. intros H. eapply Qcle_trans; [exact H|apply raise_to_ge]. Qed.

Lemma lower_to_nonneg (ref_level z : Qc) :
  0 <= ref_level -> 0 <= z -> 0 <= lower_to ref_level z.
Proof. intros H Hz. unfold lower_to. by case_bool_decide. Qed.

Lemma set_elevation_ext (h h' : Qc -> Qc) (df : DataFrame.t) :
  Forall (fun r => h (DataFrame.z r) = h' (DataFrame.z r)) df ->
  set_elevation h df = set_elevation h' df.
Proof.
  unfold set_elevation. induction 1 as [|r df Hr _ IH]; simpl; [done|].
  by rewrite Hr, IH.
Qed.

Lemma set_elevation_Forall (Q : Qc -> Prop) (h : Qc -> Qc)
    (df : DataFrame.t) :
  Forall (fun r => Q (h (DataFrame.z r))) df ->
  Forall (fun r => Q (DataFrame.z r)) (set_elevation h df).
Proof.
  unfold set_elevation. induction 1 as [|r df Hr _ IH]; simpl;
    by constructor.
Qed.

(** No point below the level: nothing is raised, everything is
    lowered. *)
Lemma raised_to_above (ref_level : Qc) (df : DataFrame.t) :
  Forall (fun r => ref_level <= DataFrame.z r) df ->
  raised_to ref_level df = df.
Proof.
  intros H. rewrite raised_to_set_elevation.
  rewrite <- (set_elevation_id df) at 2. apply set_elevation_ext.
  eapply Forall_impl; [exact H|]. intros r Hr. unfold raise_to. simpl.
  case_bool_decide as Hlt; [|done]. exfalso.
  exact (Qcle_not_lt _ _ Hr Hlt).
Qed.

Lemma lowered_to_above (ref_level : Qc) (df : DataFrame.t) :
  Forall (fun r => ref_level <= DataFrame.z r) df ->
  lowered_to ref_level df = flattened_to ref_level df.
Proof.
  intros H. rewrite lowered_to_set_elevation, flattened_to_set_elevation.
  apply set_elevation_ext.
  eapply Forall_impl; [exact H|]. intros r Hr. unfold lower_to. simpl.
  by case_bool_decide.
Qed.

(** No point above the level: everything is raised, nothing is
    lowered. *)
Lemma raised_to_below (ref_level : Qc) (df : DataFrame.t) :
  Forall (fun r => DataFrame.z r <= ref_level) df ->
  raised_to ref_level df = flattened_to ref_level df.
Proof.
  intros H. rewrite raised_to_set_elevation, flattened_to_set_elevation.
  apply set_elevation_ext.
  eapply Forall_impl; [exact H|]. intros r Hr. unfold raise_to. simpl.
  case_bool_decide as Hlt; [done|].
  apply Qcnot_lt_le in Hlt. by apply Qcle_antisym.
Qed.

Lemma lowered_to_below (ref_level : Qc) (df : DataFrame.t) :
  Forall (fun r => DataFrame.z r <= ref_level) df ->
  lowered_to ref_level df = df.
Proof.
  intros H. rewrite lowered_to_set_elevation.
  rewrite <- (set_elevation_id df) at 2. apply set_elevation_ext.
  eapply Forall_impl; [exact H|]. intros r Hr. unfold lower_to. simpl.
  case_bool_decide as Hle; [|done]. by apply Qcle_antisym.
Qed.

(** The sums of the prisms under the clipped clouds. *)
Lemma mean_raise_lower (ref_level : Qc) (t : Triangle.t) :
  mean_elevation (triangle_elevation (raise_to ref_level) t) +
  mean_elevation (triangle_elevation (lower_to ref_level) t) =
  mean_elevation t + ref_level.
Proof.
  unfold mean_elevation. simpl.
  set (a := CartesianCoordinate.z (Triangle.point_A t)).
  set (b := CartesianCoordinate.z (Triangle.point_B t)).
  set (c := CartesianCoordinate.z (Triangle.point_C t)).
  replace ((raise_to ref_level a + raise_to ref_level b + raise_to ref_level c)
             / (2 + 1) +
           (lower_to ref_level a + lower_to ref_level b + lower_to ref_level c)
             / (2 + 1))
    with (((raise_to ref_level a + lower_to ref_level a) +
           (raise_to ref_level b + lower_to ref_level b) +
           (raise_to ref_level c + lower_to ref_level c)) / (2 + 1))
    by (field; nonzero).
  rewrite !raise_lower_sum. field. nonzero.
Qed.

Lemma facets_sum_const (df : DataFrame.t) (data : list simplex) :
  facets_sum (fun _ => 0) df data = 0.
Proof.
  induction data as [|s data IH]; simpl; [done|].
  rewrite IH. destruct (facet_triangle df s); ring.
Qed.

Section ClippedPrisms.
Context {T : Triangulation}.
Variables (ref_level : Qc) (df : DataFrame.t) (data : list simplex).
Hypothesis Hproper : proper_triangulation df data.
Hypothesis Hz : Forall (fun r => 0 <= DataFrame.z r) df.
Hypothesis Href : 0 <= ref_level.

Lemma cloud_volume_elevation (h : Qc -> Qc) :
  (forall z, 0 <= z -> 0 <= h z) ->
  cloud_volume (set_elevation h df) = Returned (Finite (prisms h df data)).
Proof.
  intros Hh.
  rewrite (cloud_volume_prisms (set_elevation h df) data).
  - unfold prisms. by rewrite facets_sum_set_elevation.
  - by apply proper_triangulation_set_elevation.
  - apply set_elevation_Forall. eapply Forall_impl; [exact Hz|].
    intros r Hr. by apply Hh.
Qed.

Lemma cloud_volume_raised :
  cloud_volume (raised_to ref_level df) =
  Returned (Finite (prisms (raise_to ref_level) df data)).
Proof.
  rewrite raised_to_set_elevation. apply cloud_volume_elevation.
  intros z _. by apply raise_to_nonneg.
Qed.

Lemma cloud_volume_lowered :
  cloud_volume (lowered_to ref_level df) =
  Returned (Finite (prisms (lower_to ref_level) df data)).
Proof.
  rewrite lowered_to_set_elevation. apply cloud_volume_elevation.
  intros z Hz'. by apply lower_to_nonneg.
Qed.

Lemma cloud_volume_unclipped :
  cloud_volume df = Returned (Finite (prisms id df data)).
Proof.
  rewrite <- (set_elevation_id df) at 1. by apply cloud_volume_elevation.
Qed.

Lemma prisms_balance :
  prisms (raise_to ref_level) df data + prisms (lower_to ref_level) df data =
  prisms id df data + ref_level * footprint df data.
Proof.
  unfold prisms, footprint. rewrite <- facets_sum_plus.
  rewrite (Qcmult_comm ref_level), <- facets_sum_scale, <- facets_sum_plus.
  apply facets_sum_ext. intros s t _ _.
  rewrite <- Qcmult_plus_distr_r, mean_raise_lower.
  change (mean_elevation (triangle_elevation id t)) with (mean_elevation t).
  ring.
Qed.

Lemma prisms_raised_lower_bound :
  ref_level * footprint df data <= prisms (raise_to ref_level) df data.
Proof.
  unfold prisms, footprint. rewrite (Qcmult_comm ref_level), <- facets_sum_scale.
  apply facets_sum_le. intros s t _ _.
  apply Qcmult_le_mono_nonneg_l; [apply footprint_area_nonneg|].
  apply mean_elevation_lower; simpl; apply raise_to_ge.
Qed.

Lemma prisms_lowered_upper_bound :
  prisms (lower_to ref_level) df data <= ref_level * footprint df data.
Proof.
  unfold prisms, footprint. rewrite (Qcmult_comm ref_level), <- facets_sum_scale.
  apply facets_sum_le. intros s t _ _.
  apply Qcmult_le_mono_nonneg_l; [apply footprint_area_nonneg|].
  apply mean_elevation_upper; simpl; apply lower_to_le.
Qed.

Lemma prisms_lowered_nonneg : 0 <= prisms (lower_to ref_level) df data.
Proof.
  unfold prisms. rewrite <- (facets_sum_const df data).
  apply facets_sum_le. intros s t _ Ht.
  destruct (facet_triangle_Forall (fun z => 0 <= z) df s t Hz Ht)
    as (Ha & Hb & Hc).
  apply Qcmult_nonneg_nonneg; [apply footprint_area_nonneg|].
  apply mean_elevation_lower; simpl; by apply lower_to_nonneg.
Qed.

End ClippedPrisms.

(** *** A mesh instance after any queries *)

Section MeshAfter.
Context {T : Triangulation}.
Variables (qs : list query) (store : gmap nat DataFrame.t) (id : nat).
Variables (cloud : DataFrame.t) (data : list simplex).
Hypothesis Hcloud : store !! id = Some cloud.

Lemma mesh_after_cloud :
  frames (mesh_after qs store id) !! point_cloud (mesh_after qs store id) =
  Some cloud.
Proof.
  unfold mesh_after.
  destruct (run_queries_invariant qs (init store id)) as (H1 & _ & H3 & _).
  rewrite H1, H3. done.
Qed.

Lemma mesh_after_volume :
  (get_volume PyNone (mesh_after qs store id)).1 = cloud_volume cloud.
Proof. rewrite get_volume_result. simpl. by rewrite mesh_after_cloud. Qed.

Hypothesis Hproper : proper_triangulation cloud data.

Lemma mesh_after_flat (ref_level : Qc) :
  flat_surface_volume (_flat_volume (mesh_after qs store id)) ref_level cloud =
  Returned (Finite (Qcabs.Qcabs ref_level * footprint cloud data)).
Proof.
  unfold mesh_after.
  destruct (run_queries_invariant qs (init store id)) as (_ & _ & _ & _ & H5).
  rewrite H5 by done. by apply flat_surface_volume_init.
Qed.

Lemma mesh_after_cut (ref_level : Qc) :
  (get_cut_volume ref_level (mesh_after qs store id)).1 =
  Outcome.bind (cloud_volume (raised_to ref_level cloud))
    (fun v =>
       Returned
         (Number.sub v
            (Finite (Qcabs.Qcabs ref_level * footprint cloud data)))).
Proof.
  rewrite (get_cut_volume_result _ _ cloud mesh_after_cloud).
  by rewrite mesh_after_flat.
Qed.

Lemma mesh_after_fill (ref_level : Qc) :
  ref_level <> 0 ->
  (get_fill_volume ref_level (mesh_after qs store id)).1 =
  Outcome.bind (cloud_volume (lowered_to ref_level cloud))
    (fun v =>
       Returned
         (Number.sub
            (Finite (Qcabs.Qcabs ref_level * footprint cloud data)) v)).
Proof.
  intros N. rewrite (get_fill_volume_result _ _ cloud mesh_after_cloud N).
  by rewrite mesh_after_flat.
Qed.

End MeshAfter.

(** The loop of [get_volume]: one report after each facet. *)
Lemma facets_loop_progress `{T : Triangulation} (id : nat)
    (df : DataFrame.t) (n : nat) (data : list simplex) (acc : number)
    (it : nat) (st : state) :
  frames st !! id = Some df ->
  exists k,
    (k <= length data)%nat /\
    (facets_loop id n data acc it st).2 =
      with_events st (map (fun i => print_progress i n) (seq (S it) k)) /\
    (forall v, (facets_loop id n data acc it st).1 = Returned v ->
               k = length data).
Proof.
  revert acc it st. induction data as [|[[iA iB] iC] data IH];
    intros acc it st H.
  - exists 0%nat. simpl. rewrite with_events_nil. split; [lia|]. by split.
  - destruct (df !! iA) as [A|] eqn:HA; cycle 1.
    { exists 0%nat.
      assert (facets_loop id n (((iA, iB, iC) : simplex) :: data) acc it st =
              (Raised IndexError, st)) as ->.
      { simpl. unfold bind at 1. by rewrite (iloc_run _ _ _ _ H), HA. }
      simpl. rewrite with_events_nil. split; [lia|]. by split. }
    destruct (df !! iB) as [B|] eqn:HB; cycle 1.
    { exists 0%nat.
      assert (facets_loop id n (((iA, iB, iC) : simplex) :: data) acc it st =
              (Raised IndexError, st)) as ->.
      { simpl. unfold bind at 1. rewrite (iloc_run _ _ _ _ H), HA.
        unfold bind at 1. by rewrite (iloc_run _ _ _ _ H), HB. }
      simpl. rewrite with_events_nil. split; [lia|]. by split. }
    destruct (df !! iC) as [C|] eqn:HC; cycle 1.
    { exists 0%nat.
      assert (facets_loop id n (((iA, iB, iC) : simplex) :: data) acc it st =
              (Raised IndexError, st)) as ->.
      { simpl. unfold bind at 1. rewrite (iloc_run _ _ _ _ H), HA.
        unfold bind at 1. rewrite (iloc_run _ _ _ _ H), HB.
        unfold bind at 1. by rewrite (iloc_run _ _ _ _ H), HC. }
      simpl. rewrite with_events_nil. split; [lia|]. by split. }
    rewrite (facets_loop_step id df n iA iB iC A B C) by done.
    match goal with
    | |- context [facets_loop id n data ?a ?i ?s] =>
        destruct (IH a i s) as (k & Hk & -> & Hret); [done|]
    end.
    exists (S k). split; [simpl; lia|]. split.
    + unfold with_events. simpl. by rewrite <- app_assoc.
    + intros v Hv. simpl. f_equal. by eapply Hret.
Qed.

Lemma get_volume_loop `{T : Triangulation} (data_points : pyvalue)
    (st : state) (df : DataFrame.t) (data : list simplex) :
  frames st !! target data_points st = Some df ->
  Delaunay_simplices (DataFrame.xy df) = Returned data ->
  get_volume data_points st =
  facets_loop (target data_points st) (length data) data (Finite 0) 0 st.
Proof.
  intros H HD. unfold get_volume.
  assert ((match data_points with
           | PyDataFrame id => ret id
           | _ => self_point_cloud
           end) st = (Returned (target data_points st), st)) as Ht
    by (by destruct data_points).
  unfold bind at 1. rewrite Ht.
  unfold bind at 1, read. rewrite H.
  unfold bind at 1, lift. by rewrite HD.
Qed.

(** *** The mesh on a proper triangulation *)

Section MeshTheorems.
Context {T : Triangulation}.

(** X7: on a cloud with a proper triangulation and no negative
    elevation, [get_volume] returns the sum over the facets of footprint
    area times mean elevation. *)
Theorem mesh_volume_prisms (data_points : pyvalue) (st : state)
    (df : DataFrame.t) (data : list simplex) :
  frames st !! target data_points st = Some df ->
  proper_triangulation df data ->
  Forall (fun r => 0 <= DataFrame.z r) df ->
  (get_volume data_points st).1 =
  Returned
    (Finite (facets_sum (fun t => footprint_area t * mean_elevation t)
               df data)).
Proof.
  intros H Hp Hz. rewrite get_volume_result, H. by apply cloud_volume_prisms.
Qed.

(** X8: [_get_flat_volume] returns and stores, at [ref_level], the
    absolute level times the area the facets cover; the other entries of
    the cache stay. *)
Theorem flat_volume_level_times_footprint (ref_level : Qc) (st : state)
    (cloud : DataFrame.t) (data : list simplex) :
  frames st !! point_cloud st = Some cloud ->
  proper_triangulation cloud data ->
  (_get_flat_volume ref_level st).1 = Returned tt /\
  _flat_volume (_get_flat_volume ref_level st).2 =
    <[ref_level := Finite (Qcabs.Qcabs ref_level * footprint cloud data)]>
      (_flat_volume st).
Proof.
  intros H Hp.
  destruct (_get_flat_volume_run ref_level st cloud H) as (evs & _ & ->).
  cbv zeta. by rewrite (cloud_volume_flat ref_level cloud data Hp).
Qed.

(** X9: the entry [0.0: 0.0] the constructor puts in the cache is the
    one [_get_flat_volume] computes at level 0: computing it leaves the
    cache of a new mesh as it is. *)
Theorem constructor_entry_is_flat_volume (store : gmap nat DataFrame.t)
    (id : nat) (cloud : DataFrame.t) (data : list simplex) :
  store !! id = Some cloud ->
  proper_triangulation cloud data ->
  (_get_flat_volume 0 (init store id)).1 = Returned tt /\
  _flat_volume (_get_flat_volume 0 (init store id)).2 =
    _flat_volume (init store id).
Proof.
  intros H Hp.
  destruct (_get_flat_volume_run 0 (init store id) cloud H) as (evs & _ & ->).
  cbv zeta. rewrite (cloud_volume_flat 0 cloud data Hp). simpl.
  split; [done|].
  rewrite Qcabs.Qcabs_pos by apply Qcle_refl.
  replace (0 * footprint cloud data) with (0 : Qc) by ring.
  apply insert_singleton_eq.
Qed.

(** X10: [get_volume] reports progress once after each facet, counting
    from 1, with the number of facets as the total: what it adds to the
    events are the reports 1 to k, for a k that is at most the number of
    facets and is that number when the call returns. *)
Theorem progress_once_per_facet (data_points : pyvalue) (st : state)
    (df : DataFrame.t) (data : list simplex) :
  frames st !! target data_points st = Some df ->
  Delaunay_simplices (DataFrame.xy df) = Returned data ->
  exists k,
    (k <= length data)%nat /\
    events (get_volume data_points st).2 =
      events st ++ progress_reports (length data) k /\
    (forall v, (get_volume data_points st).1 = Returned v ->
               k = length data).
Proof.
  intros H HD.
  rewrite (get_volume_loop data_points st df data H HD).
  destruct (facets_loop_progress (target data_points st) df (length data)
              data (Finite 0) 0 st H) as (k & Hk & E & Hret).
  exists k. split; [done|]. split; [by rewrite E|done].
Qed.

(** X11: the clipping changes no exception.  [get_cut_volume] raises
    exactly what [get_volume] on the stored cloud raises, and so does
    [get_fill_volume] at a level other than 0; at level 0 it raises
    nothing. *)
Theorem clipping_raises_as_get_volume (ref_level : Qc) (st : state)
    (e : exn) :
  ((get_cut_volume ref_level st).1 = Raised e <->
   (get_volume PyNone st).1 = Raised e) /\
  ((get_fill_volume ref_level st).1 = Raised e <->
   ref_level <> 0 /\ (get_volume PyNone st).1 = Raised e).
Proof.
  split.
  - rewrite get_cut_volume_clip.
    apply (clip_query_raises _ (raise_to ref_level)).
    intros df. by rewrite loc_set_z_lt, raised_to_set_elevation.
  - destruct (decide (ref_level = 0)) as [->|N].
    + change (get_fill_volume 0 st) with (Returned (Finite 0), st). simpl.
      split; [done|]. by intros [? _].
    + rewrite get_fill_volume_clip by done.
      rewrite (clip_query_raises _ (lower_to ref_level)).
      * tauto.
      * intros df. by rewrite loc_set_z_ge, lowered_to_set_elevation.
Qed.

(** X12: no query changes or removes an entry of the cache of flat
    volumes: after any sequence of queries every level that was cached is
    cached with the value it had; on a new mesh that holds for the entry
    of the constructor. *)
Theorem cache_entries_persist (qs : list query) (st : state) :
  _flat_volume st ⊆ _flat_volume (run_queries qs st).2 /\
  forall store id,
    _flat_volume (mesh_after qs store id) !! 0 = Some (Finite 0).
Proof.
  split.
  - by destruct (run_queries_invariant qs st) as (_ & _ & _ & H & _).
  - intros store id. unfold mesh_after.
    destruct (run_queries_invariant qs (init store id))
      as (_ & _ & _ & H & _).
    eapply lookup_weaken; [|exact H]. simpl. apply lookup_singleton_eq.
Qed.

(** X13: the cache is not visible in the results.  After any sequence of
    queries [get_cut_volume] and [get_fill_volume] return or raise what
    they would have at the start, and so does [get_volume] on the stored
    cloud or on a data frame that existed at the start. *)
Theorem results_independent_of_history (qs : list query) (st : state)
    (ref_level : Qc) (data_points : pyvalue) :
  (get_cut_volume ref_level (run_queries qs st).2).1 =
    (get_cut_volume ref_level st).1 /\
  (get_fill_volume ref_level (run_queries qs st).2).1 =
    (get_fill_volume ref_level st).1 /\
  (~ is_data_frame data_points \/ target data_points st ∈ dom (frames st) ->
   (get_volume data_points (run_queries qs st).2).1 =
     (get_volume data_points st).1).
Proof.
  destruct (run_queries_invariant qs st) as (Hpc & Hfr & Hcl & _ & Hflat).
  assert (forall g combine,
    (clip_query g combine ref_level (run_queries qs st).2).1 =
    (clip_query g combine ref_level st).1) as Hclip.
  { intros g combine.
    destruct (frames st !! point_cloud st) as [cloud|] eqn:Hc.
    - rewrite (clip_query_result g combine ref_level st cloud Hc).
      rewrite (clip_query_result g combine ref_level _ cloud)
        by (by rewrite Hpc, Hcl).
      by rewrite Hflat.
    - rewrite (clip_query_unbound g combine ref_level st Hc).
      rewrite clip_query_unbound; [done|]. by rewrite Hpc, Hcl. }
  split; [|split].
  - rewrite !get_cut_volume_clip. apply Hclip.
  - destruct (decide (ref_level = 0)) as [->|N]; [done|].
    rewrite !get_fill_volume_clip by done. apply Hclip.
  - intros Hdp. rewrite !get_volume_result.
    assert (target data_points (run_queries qs st).2 = target data_points st)
      as -> by (by destruct data_points).
    destruct Hdp as [Hdp|Hdp].
    + assert (target data_points st = point_cloud st) as ->
        by (destruct data_points; simpl in *; tauto).
      by rewrite Hcl.
    + by rewrite Hfr.
Qed.

End MeshTheorems.

(** *** Cut and fill on a proper triangulation *)

Section CutAndFill.
Context {T : Triangulation}.
Variables (store : gmap nat DataFrame.t) (cloud_id : nat).
Variables (cloud : DataFrame.t) (data : list simplex).
Hypothesis Hcloud : store !! cloud_id = Some cloud.
Hypothesis Hproper : proper_triangulation cloud data.

Lemma mesh_after_volume_finite (qs : list query) :
  (get_volume PyNone (mesh_after qs store cloud_id)).1 =
  Returned (Finite (facets_sum finite_volume cloud data)).
Proof.
  rewrite (mesh_after_volume qs store cloud_id cloud Hcloud).
  by apply cloud_volume_proper.
Qed.

Section NoNegativeElevation.
Variable ref_level : Qc.
Hypothesis Hz : Forall (fun r => 0 <= DataFrame.z r) cloud.
Hypothesis Href : 0 <= ref_level.

Lemma mesh_after_volume_prisms (qs : list query) :
  (get_volume PyNone (mesh_after qs store cloud_id)).1 =
  Returned (Finite (prisms id cloud data)).
Proof.
  rewrite (mesh_after_volume qs store cloud_id cloud Hcloud).
  by apply cloud_volume_unclipped.
Qed.

Lemma mesh_after_cut_prisms (qs : list query) :
  (get_cut_volume ref_level (mesh_after qs store cloud_id)).1 =
  Returned
    (Finite (prisms (raise_to ref_level) cloud data -
             ref_level * footprint cloud data)).
Proof.
  rewrite (mesh_after_cut qs store cloud_id cloud data Hcloud Hproper).
  rewrite (cloud_volume_raised ref_level cloud data Hproper Hz Href).
  simpl. by rewrite (Qcabs.Qcabs_pos ref_level Href).
Qed.

Lemma mesh_after_fill_prisms (qs : list query) :
  (get_fill_volume ref_level (mesh_after qs store cloud_id)).1 =
  Returned
    (Finite (ref_level * footprint cloud data -
             prisms (lower_to ref_level) cloud data)).
Proof.
  destruct (decide (ref_level = 0)) as [E|N].
  - assert (prisms (lower_to ref_level) cloud data = 0) as ->.
    { apply Qcle_antisym.
      - eapply Qcle_trans; [apply prisms_lowered_upper_bound|].
        rewrite E. replace (0 * footprint cloud data) with (0 : Qc) by ring.
        apply Qcle_refl.
      - by apply prisms_lowered_nonneg. }
    rewrite E.
    change (get_fill_volume 0 (mesh_after qs store cloud_id))
      with (Returned (Finite 0), mesh_after qs store cloud_id).
    simpl. do 2 f_equal; ring.
  - rewrite (mesh_after_fill qs store cloud_id cloud data Hcloud Hproper _ N).
    rewrite (cloud_volume_lowered ref_level cloud data Hproper Hz Href).
    simpl. by rewrite (Qcabs.Qcabs_pos ref_level Href).
Qed.

End NoNegativeElevation.

End CutAndFill.

(** X14: the balance of cut and fill.  On a mesh built on a cloud with a
    proper triangulation and no negative elevation, at a level that is
    not negative and whatever was asked before, the cut volume minus the
    fill volume is the volume of the cloud minus the level times the area
    covered. *)
Theorem cut_fill_balance `{T : Triangulation} (qs qs' qs'' : list query)
    (store : gmap nat DataFrame.t) (cloud_id : nat) (cloud : DataFrame.t)
    (data : list simplex) (ref_level : Qc) :
  store !! cloud_id = Some cloud ->
  proper_triangulation cloud data ->
  Forall (fun r => 0 <= DataFrame.z r) cloud ->
  0 <= ref_level ->
  exists V c f,
    (get_volume PyNone (mesh_after qs store cloud_id)).1 = Returned (Finite V) /\
    (get_cut_volume ref_level (mesh_after qs' store cloud_id)).1 =
      Returned (Finite c) /\
    (get_fill_volume ref_level (mesh_after qs'' store cloud_id)).1 =
      Returned (Finite f) /\
    c - f = V - ref_level * footprint cloud data.
Proof.
  intros Hc Hp Hz Href.
  eexists _, _, _.
  split; [by apply mesh_after_volume_prisms|].
  split; [by apply mesh_after_cut_prisms|].
  split; [by apply mesh_after_fill_prisms|].
  pose proof (prisms_balance ref_level cloud data) as Hbal.
  set (R := prisms (raise_to ref_level) cloud data) in *.
  set (L := prisms (lower_to ref_level) cloud data) in *.
  set (F := ref_level * footprint cloud data) in *.
  replace (R - F - (F - L)) with (R + L - F - F) by ring.
  rewrite Hbal. ring.
Qed.

(** X15: under the same conditions both volumes are within their
    bounds: the cut volume is between 0 and the volume of the cloud, the
    fill volume between 0 and the level times the area covered. *)
Theorem cut_fill_bounds `{T : Triangulation} (qs qs' qs'' : list query)
    (store : gmap nat DataFrame.t) (cloud_id : nat) (cloud : DataFrame.t)
    (data : list simplex) (ref_level : Qc) :
  store !! cloud_id = Some cloud ->
  proper_triangulation cloud data ->
  Forall (fun r => 0 <= DataFrame.z r) cloud ->
  0 <= ref_level ->
  exists V c f,
    (get_volume PyNone (mesh_after qs store cloud_id)).1 = Returned (Finite V) /\
    (get_cut_volume ref_level (mesh_after qs' store cloud_id)).1 =
      Returned (Finite c) /\
    (get_fill_volume ref_level (mesh_after qs'' store cloud_id)).1 =
      Returned (Finite f) /\
    0 <= c /\ c <= V /\
    0 <= f /\ f <= ref_level * footprint cloud data.
Proof.
  intros Hc Hp Hz Href.
  eexists _, _, _.
  split; [by apply mesh_after_volume_prisms|].
  split; [by apply mesh_after_cut_prisms|].
  split; [by apply mesh_after_fill_prisms|].
  pose proof (prisms_balance ref_level cloud data) as Hbal.
  pose proof (prisms_raised_lower_bound ref_level cloud data) as HR.
  pose proof (prisms_lowered_upper_bound ref_level cloud data) as HL.
  pose proof (prisms_lowered_nonneg ref_level cloud data Hz Href) as HL0.
  set (R := prisms (raise_to ref_level) cloud data) in *.
  set (L := prisms (lower_to ref_level) cloud data) in *.
  set (V := prisms id cloud data) in *.
  set (F := ref_level * footprint cloud data) in *.
  assert (R + L <= V + F) as Hle by (rewrite Hbal; apply Qcle_refl).
  clearbody R L V F. clear Hbal Hc Hp Hz Href.
  repeat split; to_Q; lra.
Qed.

(** X16: a level no point of the cloud is below.  Nothing is raised and
    everything is lowered: the fill volume is 0 and the cut volume is the
    volume of the cloud minus the flat volume at the level. *)
Theorem level_below_cloud `{T : Triangulation} (qs qs' qs'' : list query)
    (store : gmap nat DataFrame.t) (cloud_id : nat) (cloud : DataFrame.t)
    (data : list simplex) (ref_level : Qc) :
  store !! cloud_id = Some cloud ->
  proper_triangulation cloud data ->
  Forall (fun r => ref_level <= DataFrame.z r) cloud ->
  exists V,
    (get_volume PyNone (mesh_after qs store cloud_id)).1 = Returned (Finite V) /\
    (get_cut_volume ref_level (mesh_after qs' store cloud_id)).1 =
      Returned (Finite (V - Qcabs.Qcabs ref_level * footprint cloud data)) /\
    (get_fill_volume ref_level (mesh_after qs'' store cloud_id)).1 =
      Returned (Finite 0).
Proof.
  intros Hc Hp Hz. eexists.
  split; [by apply mesh_after_volume_finite|]. split.
  - rewrite (mesh_after_cut qs' store cloud_id cloud data Hc Hp).
    rewrite (raised_to_above ref_level cloud Hz).
    by rewrite (cloud_volume_proper cloud data Hp).
  - destruct (decide (ref_level = 0)) as [->|N]; [done|].
    rewrite (mesh_after_fill qs'' store cloud_id cloud data Hc Hp _ N).
    rewrite (lowered_to_above ref_level cloud Hz).
    rewrite (cloud_volume_flat ref_level cloud data Hp). simpl.
    do 2 f_equal. ring.
Qed.

(** X17: a level no point of the cloud is above.  Everything is raised
    and nothing is lowered: the cut volume is 0, and the fill volume at a
    level other than 0 is the flat volume at the level minus the volume
    of the cloud. *)
Theorem level_above_cloud `{T : Triangulation} (qs qs' qs'' : list query)
    (store : gmap nat DataFrame.t) (cloud_id : nat) (cloud : DataFrame.t)
    (data : list simplex) (ref_level : Qc) :
  store !! cloud_id = Some cloud ->
  proper_triangulation cloud data ->
  Forall (fun r => DataFrame.z r <= ref_level) cloud ->
  exists V,
    (get_volume PyNone (mesh_after qs store cloud_id)).1 = Returned (Finite V) /\
    (get_cut_volume ref_level (mesh_after qs' store cloud_id)).1 =
      Returned (Finite 0) /\
    (get_fill_volume ref_level (mesh_after qs'' store cloud_id)).1 =
      Returned
        (Finite (if bool_decide (ref_level = 0) then 0
                 else Qcabs.Qcabs ref_level * footprint cloud data - V)).
Proof.
  intros Hc Hp Hz. eexists.
  split; [by apply mesh_after_volume_finite|]. split.
  - rewrite (mesh_after_cut qs' store cloud_id cloud data Hc Hp).
    rewrite (raised_to_below ref_level cloud Hz).
    rewrite (cloud_volume_flat ref_level cloud data Hp). simpl.
    do 2 f_equal. ring.
  - case_bool_decide as E; [by rewrite E|].
    rewrite (mesh_after_fill qs'' store cloud_id cloud data Hc Hp _ E).
    rewrite (lowered_to_below ref_level cloud Hz).
    by rewrite (cloud_volume_proper cloud data Hp).
Qed.

(** *** The mesh of one facet *)

(** The cloud of [facet_mesh]: one proper facet, elevations 3, 6, 9. *)
Example facet_cloud_proper : proper_triangulation facet_cloud [(0, 1, 2)%nat].
Proof.
  split; [by_evaluation|].
  repeat constructor. unfold proper_facet. simpl. vm_compute. discriminate.
Qed.

Example facet_cloud_elevations :
  Forall (fun r => 0 <= DataFrame.z r) facet_cloud.
Proof. repeat constructor; by vm_compute. Qed.

Example facet_cloud_above_2 :
  Forall (fun r => Qz 2 <= DataFrame.z r) facet_cloud.
Proof. repeat constructor; by vm_compute. Qed.

Example facet_cloud_below_10 :
  Forall (fun r => DataFrame.z r <= Qz 10) facet_cloud.
Proof. repeat constructor; by vm_compute. Qed.

Example facet_normal : Triangle.normal_z facet <> 0.
Proof. vm_compute. discriminate. Qed.

Lemma plane_through_vertices_witness :
  Triangle.normal_z facet <> 0 /\
  exists f,
    Triangle.get_plane_equation facet = Expr f /\
    eval2 f (CartesianCoordinate.x (Triangle.point_A facet))
            (CartesianCoordinate.y (Triangle.point_A facet))
      = CartesianCoordinate.z (Triangle.point_A facet) /\
    eval2 f (CartesianCoordinate.x (Triangle.point_B facet))
            (CartesianCoordinate.y (Triangle.point_B facet))
      = CartesianCoordinate.z (Triangle.point_B facet) /\
    eval2 f (CartesianCoordinate.x (Triangle.point_C facet))
            (CartesianCoordinate.y (Triangle.point_C facet))
      = CartesianCoordinate.z (Triangle.point_C facet).
Proof.
  split; [exact facet_normal|].
  apply (plane_through_vertices facet facet_normal).
Defined.

Lemma plane_equation_vertex_order_witness :
  Triangle.normal_z (Triangle.make facet_A facet_B facet_C) <> 0 /\
  [facet_A; facet_B; facet_C] ≡ₚ [facet_C; facet_A; facet_B] /\
  exists f,
    Triangle.get_plane_equation (Triangle.make facet_A facet_B facet_C) =
      Expr f /\
    Triangle.get_plane_equation (Triangle.make facet_C facet_A facet_B) =
      Expr f.
Proof.
  assert ([facet_A; facet_B; facet_C] ≡ₚ [facet_C; facet_A; facet_B]) as H.
  { change [facet_C; facet_A; facet_B] with ([facet_C] ++ [facet_A; facet_B]).
    change [facet_A; facet_B; facet_C] with ([facet_A; facet_B] ++ [facet_C]).
    apply Permutation_app_comm. }
  split; [exact facet_normal|]. split; [exact H|].
  apply (plane_equation_vertex_order facet_A facet_B facet_C
           facet_C facet_A facet_B facet_normal H).
Defined.

Lemma get_volume_prism_witness :
  Triangle.normal_z facet <> 0 /\
  ((0 <= CartesianCoordinate.z (Triangle.point_A facet) /\
    0 <= CartesianCoordinate.z (Triangle.point_B facet) /\
    0 <= CartesianCoordinate.z (Triangle.point_C facet)) \/
   (CartesianCoordinate.z (Triangle.point_A facet) <= 0 /\
    CartesianCoordinate.z (Triangle.point_B facet) <= 0 /\
    CartesianCoordinate.z (Triangle.point_C facet) <= 0)) /\
  Triangle.get_volume facet =
  Finite (footprint_area facet * Qcabs.Qcabs (mean_elevation facet)).
Proof.
  assert ((0 <= CartesianCoordinate.z (Triangle.point_A facet) /\
           0 <= CartesianCoordinate.z (Triangle.point_B facet) /\
           0 <= CartesianCoordinate.z (Triangle.point_C facet)) \/
          (CartesianCoordinate.z (Triangle.point_A facet) <= 0 /\
           CartesianCoordinate.z (Triangle.point_B facet) <= 0 /\
           CartesianCoordinate.z (Triangle.point_C facet) <= 0)) as Hz
    by (left; repeat split; by vm_compute).
  split; [exact facet_normal|]. split; [exact Hz|].
  apply (get_volume_prism facet facet_normal Hz).
Defined.


Lemma mesh_volume_not_negative_witness :
  (@get_volume (fixed_facets [(0, 1, 2)%nat; (0, 1, 3)%nat]) PyNone
     diagonal_mesh).1 = Returned (Finite 1) /\
  0 <= 1.
Proof.
  assert ((@get_volume (fixed_facets [(0, 1, 2)%nat; (0, 1, 3)%nat]) PyNone
             diagonal_mesh).1 = Returned (Finite 1)) as H
    by (apply (bool_decide_unpack _); vm_compute; exact I).
  split; [exact H|].
  apply (@mesh_volume_not_negative
           (fixed_facets [(0, 1, 2)%nat; (0, 1, 3)%nat]) PyNone
           diagonal_mesh 1 H).
Defined.

Lemma mesh_volume_prisms_witness :
  frames facet_mesh !! target PyNone facet_mesh = Some facet_cloud /\
  proper_triangulation facet_cloud [(0, 1, 2)%nat] /\
  Forall (fun r => 0 <= DataFrame.z r) facet_cloud /\
  (get_volume PyNone facet_mesh).1 =
  Returned
    (Finite (facets_sum (fun t => footprint_area t * mean_elevation t)
               facet_cloud [(0, 1, 2)%nat])).
Proof.
  assert (frames facet_mesh !! target PyNone facet_mesh = Some facet_cloud)
    as H by reflexivity.
  split; [exact H|]. split; [exact facet_cloud_proper|].
  split; [exact facet_cloud_elevations|].
  apply (mesh_volume_prisms PyNone facet_mesh facet_cloud [(0, 1, 2)%nat]
           H facet_cloud_proper facet_cloud_elevations).
Defined.

Lemma flat_volume_level_times_footprint_witness :
  frames facet_mesh !! point_cloud facet_mesh = Some facet_cloud /\
  proper_triangulation facet_cloud [(0, 1, 2)%nat] /\
  (_get_flat_volume (Qz 5) facet_mesh).1 = Returned tt /\
  _flat_volume (_get_flat_volume (Qz 5) facet_mesh).2 =
    <[Qz 5 := Finite (Qcabs.Qcabs (Qz 5) *
                      footprint facet_cloud [(0, 1, 2)%nat])]>
      (_flat_volume facet_mesh).
Proof.
  assert (frames facet_mesh !! point_cloud facet_mesh = Some facet_cloud)
    as H by reflexivity.
  split; [exact H|]. split; [exact facet_cloud_proper|].
  apply (flat_volume_level_times_footprint (Qz 5) facet_mesh facet_cloud
           [(0, 1, 2)%nat] H facet_cloud_proper).
Defined.

Lemma constructor_entry_is_flat_volume_witness :
  ({[ 0%nat := facet_cloud ]} : gmap nat DataFrame.t) !! 0%nat =
    Some facet_cloud /\
  proper_triangulation facet_cloud [(0, 1, 2)%nat] /\
  (_get_flat_volume 0 (init {[ 0%nat := facet_cloud ]} 0%nat)).1 =
    Returned tt /\
  _flat_volume (_get_flat_volume 0 (init {[ 0%nat := facet_cloud ]} 0%nat)).2 =
    _flat_volume (init {[ 0%nat := facet_cloud ]} 0%nat).
Proof.
  assert (({[ 0%nat := facet_cloud ]} : gmap nat DataFrame.t) !! 0%nat =
          Some facet_cloud) as H by reflexivity.
  split; [exact H|]. split; [exact facet_cloud_proper|].
  apply (constructor_entry_is_flat_volume {[ 0%nat := facet_cloud ]} 0%nat
           facet_cloud [(0, 1, 2)%nat] H facet_cloud_proper).
Defined.

Lemma progress_once_per_facet_witness :
  frames facet_mesh !! target PyNone facet_mesh = Some facet_cloud /\
  Delaunay_simplices (DataFrame.xy facet_cloud) = Returned [(0, 1, 2)%nat] /\
  exists k,
    (k <= length [(0, 1, 2)%nat])%nat /\
    events (get_volume PyNone facet_mesh).2 =
      events facet_mesh ++ progress_reports (length [(0, 1, 2)%nat]) k /\
    (forall v, (get_volume PyNone facet_mesh).1 = Returned v ->
               k = length [(0, 1, 2)%nat]).
Proof.
  assert (frames facet_mesh !! target PyNone facet_mesh = Some facet_cloud)
    as H by reflexivity.
  assert (Delaunay_simplices (DataFrame.xy facet_cloud) =
          Returned [(0, 1, 2)%nat]) as HD
    by (apply (bool_decide_unpack _); vm_compute; exact I).
  split; [exact H|]. split; [exact HD|].
  apply (progress_once_per_facet PyNone facet_mesh facet_cloud
           [(0, 1, 2)%nat] H HD).
Defined.

Lemma cut_fill_balance_witness :
  ({[ 0%nat := facet_cloud ]} : gmap nat DataFrame.t) !! 0%nat =
    Some facet_cloud /\
  proper_triangulation facet_cloud [(0, 1, 2)%nat] /\
  Forall (fun r => 0 <= DataFrame.z r) facet_cloud /\
  0 <= Qz 5 /\
  exists V c f,
    (get_volume PyNone (mesh_after [] {[ 0%nat := facet_cloud ]} 0%nat)).1 =
      Returned (Finite V) /\
    (get_cut_volume (Qz 5)
       (mesh_after [call_get_volume PyNone] {[ 0%nat := facet_cloud ]}
          0%nat)).1 = Returned (Finite c) /\
    (get_fill_volume (Qz 5)
       (mesh_after [call_get_cut_volume (Qz 5)] {[ 0%nat := facet_cloud ]}
          0%nat)).1 = Returned (Finite f) /\
    c - f = V - Qz 5 * footprint facet_cloud [(0, 1, 2)%nat].
Proof.
  assert (({[ 0%nat := facet_cloud ]} : gmap nat DataFrame.t) !! 0%nat =
          Some facet_cloud) as H by reflexivity.
  assert (0 <= Qz 5) as H5 by (vm_compute; discriminate).
  split; [exact H|]. split; [exact facet_cloud_proper|].
  split; [exact facet_cloud_elevations|]. split; [exact H5|].
  apply (cut_fill_balance [] [call_get_volume PyNone]
           [call_get_cut_volume (Qz 5)] {[ 0%nat := facet_cloud ]} 0%nat
           facet_cloud [(0, 1, 2)%nat] (Qz 5) H facet_cloud_proper
           facet_cloud_elevations H5).
Defined.

Lemma cut_fill_bounds_witness :
  ({[ 0%nat := facet_cloud ]} : gmap nat DataFrame.t) !! 0%nat =
    Some facet_cloud /\
  proper_triangulation facet_cloud [(0, 1, 2)%nat] /\
  Forall (fun r => 0 <= DataFrame.z r) facet_cloud /\
  0 <= Qz 5 /\
  exists V c f,
    (get_volume PyNone (mesh_after [] {[ 0%nat := facet_cloud ]} 0%nat)).1 =
      Returned (Finite V) /\
    (get_cut_volume (Qz 5)
       (mesh_after [call_get_volume PyNone] {[ 0%nat := facet_cloud ]}
          0%nat)).1 = Returned (Finite c) /\
    (get_fill_volume (Qz 5)
       (mesh_after [call_get_cut_volume (Qz 5)] {[ 0%nat := facet_cloud ]}
          0%nat)).1 = Returned (Finite f) /\
    0 <= c /\ c <= V /\
    0 <= f /\ f <= Qz 5 * footprint facet_cloud [(0, 1, 2)%nat].
Proof.
  assert (({[ 0%nat := facet_cloud ]} : gmap nat DataFrame.t) !! 0%nat =
          Some facet_cloud) as H by reflexivity.
  assert (0 <= Qz 5) as H5 by (vm_compute; discriminate).
  split; [exact H|]. split; [exact facet_cloud_proper|].
  split; [exact facet_cloud_elevations|]. split; [exact H5|].
  apply (cut_fill_bounds [] [call_get_volume PyNone]
           [call_get_cut_volume (Qz 5)] {[ 0%nat := facet_cloud ]} 0%nat
           facet_cloud [(0, 1, 2)%nat] (Qz 5) H facet_cloud_proper
           facet_cloud_elevations H5).
Defined.

Lemma level_below_cloud_witness :
  ({[ 0%nat := facet_cloud ]} : gmap nat DataFrame.t) !! 0%nat =
    Some facet_cloud /\
  proper_triangulation facet_cloud [(0, 1, 2)%nat] /\
  Forall (fun r => Qz 2 <= DataFrame.z r) facet_cloud /\
  exists V,
    (get_volume PyNone (mesh_after [] {[ 0%nat := facet_cloud ]} 0%nat)).1 =
      Returned (Finite V) /\
    (get_cut_volume (Qz 2)
       (mesh_after [call_get_fill_volume (Qz 2)] {[ 0%nat := facet_cloud ]}
          0%nat)).1 =
      Returned
        (Finite (V - Qcabs.Qcabs (Qz 2) *
                     footprint facet_cloud [(0, 1, 2)%nat])) /\
    (get_fill_volume (Qz 2)
       (mesh_after [] {[ 0%nat := facet_cloud ]} 0%nat)).1 =
      Returned (Finite 0).
Proof.
  assert (({[ 0%nat := facet_cloud ]} : gmap nat DataFrame.t) !! 0%nat =
          Some facet_cloud) as H by reflexivity.
  split; [exact H|]. split; [exact facet_cloud_proper|].
  split; [exact facet_cloud_above_2|].
  apply (level_below_cloud [] [call_get_fill_volume (Qz 2)] []
           {[ 0%nat := facet_cloud ]} 0%nat facet_cloud [(0, 1, 2)%nat]
           (Qz 2) H facet_cloud_proper facet_cloud_above_2).
Defined.

Lemma level_above_cloud_witness :
  ({[ 0%nat := facet_cloud ]} : gmap nat DataFrame.t) !! 0%nat =
    Some facet_cloud /\
  proper_triangulation facet_cloud [(0, 1, 2)%nat] /\
  Forall (fun r => DataFrame.z r <= Qz 10) facet_cloud /\
  exists V,
    (get_volume PyNone (mesh_after [] {[ 0%nat := facet_cloud ]} 0%nat)).1 =
      Returned (Finite V) /\
    (get_cut_volume (Qz 10)
       (mesh_after [] {[ 0%nat := facet_cloud ]} 0%nat)).1 =
      Returned (Finite 0) /\
    (get_fill_volume (Qz 10)
       (mesh_after [call_get_cut_volume (Qz 10)] {[ 0%nat := facet_cloud ]}
          0%nat)).1 =
      Returned
        (Finite (if bool_decide (Qz 10 = 0) then 0
                 else Qcabs.Qcabs (Qz 10) *
                      footprint facet_cloud [(0, 1, 2)%nat] - V)).
Proof.
  assert (({[ 0%nat := facet_cloud ]} : gmap nat DataFrame.t) !! 0%nat =
          Some facet_cloud) as H by reflexivity.
  split; [exact H|]. split; [exact facet_cloud_proper|].
  split; [exact facet_cloud_below_10|].
  apply (level_above_cloud [] [] [call_get_cut_volume (Qz 10)]
           {[ 0%nat := facet_cloud ]} 0%nat facet_cloud [(0, 1, 2)%nat]
           (Qz 10) H facet_cloud_proper facet_cloud_below_10).
Defined.
